(** * Intelligence Core: a shallow embedding of the TypeScript sources

    The numeric code of the Intelligence Core works on JavaScript numbers,
    that is on IEEE 754 binary64 values.  They are modelled by Rocq's
    primitive floats, whose operations round to nearest, ties to even, as
    the JavaScript operators do.  Each module below embeds one source file
    and keeps the names of its functions. *)

From Stdlib Require Import ZArith List Bool String Ascii Lia Floats.
From Stdlib Require Import Permutation Sorted.
From Stdlib Require Uint63.
Import ListNotations.

Set Warnings "-inexact-float,-register-all".

Local Open Scope float_scope.

(** ** The JavaScript runtime the sources rely on *)

Module JS.

(** A JavaScript [number]. *)
Abbreviation number := float.

(** [Math.max(a, b)]: NaN is contagious and [+0] is larger than [-0]. *)
Definition Math_max (a b : number) : number :=
  if is_nan a || is_nan b then nan
  else if a <? b then b
  else if b <? a then a
  else if is_zero a && get_sign a then b else a.

(** [Math.min(a, b)]: NaN is contagious and [-0] is smaller than [+0]. *)
Definition Math_min (a b : number) : number :=
  if is_nan a || is_nan b then nan
  else if a <? b then a
  else if b <? a then b
  else if is_zero a && get_sign a then a else b.

(** [Math.max(...xs)]: the fold starts from [-Infinity]. *)
Definition Math_max_list (xs : list number) : number :=
  fold_left Math_max xs neg_infinity.

(** [Math.min(...xs)]: the fold starts from [+Infinity]. *)
Definition Math_min_list (xs : list number) : number :=
  fold_left Math_min xs infinity.

(** A number read from an array length or a counter; the conversion is
    the mathematical one for lengths below 2^63, and exact below 2^53. *)
Definition of_nat (n : nat) : number := of_uint63 (Uint63.of_Z (Z.of_nat n)).

(** [x ?? d] on a value that may be [undefined]. *)
Definition nullish {A} (x : option A) (d : A) : A :=
  match x with Some v => v | None => d end.

(** A plain object used as a string-keyed dictionary.  Own keys are
    kept in insertion order, which is the order [Object.keys],
    [Object.entries] and the spread operator observe (for keys that are
    not array indices). *)
Definition Record (A : Type) : Type := list (string * A).

Fixpoint get {A} (o : Record A) (k : string) : option A :=
  match o with
  | [] => None
  | (k', v) :: o' => if String.eqb k' k then Some v else get o' k
  end.

(** [o[k] = v]: an existing key keeps its place, a new key goes last. *)
Fixpoint set {A} (o : Record A) (k : string) (v : A) : Record A :=
  match o with
  | [] => [(k, v)]
  | (k', v') :: o' =>
      if String.eqb k' k then (k', v) :: o' else (k', v') :: set o' k v
  end.

Definition keys {A} (o : Record A) : list string := map fst o.
Definition values {A} (o : Record A) : list A := map snd o.

(** [xs.reduce((sum, v) => sum + v, 0)]. *)
Definition sum (xs : list number) : number :=
  fold_left (fun s v => s + v) xs 0.

(** The result of [ToIntegerOrInfinity], which [slice] applies to its
    arguments. *)
Inductive integer : Set :=
| NegInf
| Int (z : Z)
| PosInf.

Definition ToIntegerOrInfinity (x : number) : integer :=
  match Prim2SF x with
  | S754_nan | S754_zero _ => Int 0
  | S754_infinity s => if s then NegInf else PosInf
  | S754_finite s m e =>
      let magnitude := Z.shiftl (Zpos m) e in
      Int (if s then - magnitude else magnitude)
  end.

(** [Math.floor].  A finite value with a negative exponent has magnitude
    below 2^53, so its floor is exactly representable. *)
Definition Math_floor (x : number) : number :=
  match Prim2SF x with
  | S754_finite s m e =>
      if (e <? 0)%Z then
        let q := Z.shiftl (Zpos m) e in
        let exact := (Z.shiftl q (- e) =? Zpos m)%Z in
        if s
        then - of_uint63 (Uint63.of_Z (if exact then q else q + 1))
        else of_uint63 (Uint63.of_Z q)
      else x
  | _ => x
  end.

(** A relative index of [slice]: negative values count from the end. *)
Definition relative_index (len : nat) (i : integer) : nat :=
  match i with
  | NegInf => 0
  | PosInf => len
  | Int z =>
      if (z <? 0)%Z then Z.to_nat (Z.max (Z.of_nat len + z) 0)
      else Nat.min (Z.to_nat z) len
  end.

(** [l.slice(start, end)]; [None] is an omitted [end]. *)
Definition slice {A} (l : list A) (start : integer) (end_ : option integer)
  : list A :=
  let len := List.length l in
  let from := relative_index len start in
  let to := match end_ with
            | None => len
            | Some e => relative_index len e
            end in
  firstn (to - from) (skipn from l).

(** [Array.prototype.sort] with a comparator.  The sort is stable;
    [after x y] says that the comparator called on [(x, y)] is positive,
    so that [x] has to come after [y].  The comparators of the sources
    are differences of numbers; on a difference that is NaN the order
    is left to the implementation by ECMAScript, and is here the one of
    a comparator that is not positive. *)
Fixpoint insert_sorted {A} (after : A -> A -> bool) (x : A) (l : list A)
  : list A :=
  match l with
  | [] => [x]
  | y :: l' =>
      if after x y then y :: insert_sorted after x l' else x :: y :: l'
  end.

Definition sort {A} (after : A -> A -> bool) (l : list A) : list A :=
  fold_right (insert_sorted after) [] l.

(** [a[i] = v] on an array of numbers: a write past the end extends the
    array; the holes it leaves read as [undefined], which arithmetic
    turns into NaN. *)
Fixpoint array_set (a : list number) (i : nat) (v : number) : list number :=
  match i, a with
  | O, [] => [v]
  | O, _ :: a' => v :: a'
  | S i', [] => nan :: array_set [] i' v
  | S i', x :: a' => x :: array_set a' i' v
  end.

(** A computation that may throw. *)
Inductive result (A : Type) : Type :=
| Ok (a : A)
| Throw (message : string).
Arguments Ok {A} a.
Arguments Throw {A} message.

Definition bind {A B} (r : result A) (k : A -> result B) : result B :=
  match r with
  | Ok a => k a
  | Throw m => Throw m
  end.

(** The decimal digits of a non-negative integer, as [String(n)] prints
    them. *)
Definition digit_char (d : Z) : ascii := ascii_of_nat (Z.to_nat (48 + d)).

Fixpoint decimal_digits (fuel : nat) (n : Z) (acc : string) : string :=
  match fuel with
  | O => acc
  | S fuel' =>
      let acc' := String (digit_char (n mod 10)) acc in
      if (n / 10 =? 0)%Z then acc' else decimal_digits fuel' (n / 10) acc'
  end.

Definition show_Z (n : Z) : string :=
  decimal_digits (S (Z.to_nat (Z.log2 n))) n "".

Definition show_nat (n : nat) : string := show_Z (Z.of_nat n).

End JS.

Notation "x <- r ;; k" := (JS.bind r (fun x => k))
  (at level 61, r at next level, right associativity).

(** ** exploration.ts *)

Module Exploration.
Import JS.

(** [amiStage?: string]: [None] is an omitted argument.  The guard
    [!amiStage] also catches the empty string. *)
Definition adjustEpsilon (baseEpsilon : number) (amiStage : option string)
  : number :=
  match amiStage with
  | None => baseEpsilon
  | Some stage =>
      if String.eqb stage "" then baseEpsilon
      else if String.eqb stage "search_growth" then baseEpsilon * 0.7
      else if String.eqb stage "buyer_interest" then baseEpsilon * 0.7
      else if String.eqb stage "early_noise" then baseEpsilon * 1.2
      else if String.eqb stage "media_amplification" then baseEpsilon * 1.5
      else baseEpsilon
  end.

(** [Math.random()]: the values the generator returns, in the order of
    the calls.  A computation that draws from it takes the number of
    values drawn so far and returns the number drawn after it. *)
Definition Random : Type := nat -> number.

Record Bound := {
  min : number;
  max : number;
  step : number
}.

Definition getDefaultMutationBounds : Record Bound :=
  [("setupDuration"%string, {| min := 0; max := 1; step := 0.15 |});
   ("punchlineTiming"%string, {| min := 0; max := 1; step := 0.15 |});
   ("toneShiftDensity"%string, {| min := 0; max := 1; step := 0.2 |});
   ("escalationDensity"%string, {| min := 0; max := 1; step := 0.2 |});
   ("deliveryPaceWps"%string, {| min := 0; max := 1; step := 0.1 |})].

(** An entry of the mutation log. *)
Record Mutation := {
  original : number;
  mutated : number;
  delta : number
}.

Module MutationResult.
Record t := {
  features : Record number;
  mutationLog : Record Mutation
}.
End MutationResult.

Module ExplorationConfig.
Record t := {
  epsilon : number;
  mutationBounds : Record Bound
}.
End ExplorationConfig.

Inductive GroupType : Set := exploitation | exploration.

(** The two optional fields are [None] when the decision leaves them
    out. *)
Module ExplorationDecision.
Record t := {
  groupType : GroupType;
  epsilon : number;
  features : Record number;
  mutationParameters : option (Record number);
  originalFeatures : option (Record number)
}.
End ExplorationDecision.

(** The value [mutateFeatures] writes for one bound, from the value the
    generator returned. *)
Definition mutatedValue (bound : Bound) (originalValue : number)
  (drawn : number) : number :=
  let numSteps := Math_floor ((max bound - min bound) / step bound) in
  let randomSteps := Math_floor (drawn * (2 * numSteps + 1)) - numSteps in
  let newValue := originalValue + randomSteps * step bound in
  Math_max (min bound) (Math_min (max bound) newValue).

(** One iteration of the loop over [Object.entries(bounds)]. *)
Definition mutateEntry (random : Random) (features : Record number)
  (state : Record number * Record Mutation * nat) (entry : string * Bound)
  : Record number * Record Mutation * nat :=
  let '(clone, mutationLog, draws) := state in
  let '(featureName, bound) := entry in
  let originalValue := nullish (get features featureName) (min bound) in
  let newValue := mutatedValue bound originalValue (random draws) in
  (set clone featureName newValue,
   set mutationLog featureName
     {| original := originalValue;
        mutated := newValue;
        delta := newValue - originalValue |},
   S draws).

Definition mutateFeatures (random : Random) (draws : nat)
  (features : Record number) (bounds : Record Bound)
  : MutationResult.t * nat :=
  let '(clone, mutationLog, draws') :=
    fold_left (mutateEntry random features) bounds (features, [], draws) in
  ({| MutationResult.features := clone;
      MutationResult.mutationLog := mutationLog |},
   draws').

(** [Object.fromEntries]. *)
Definition fromEntries {A} (entries : list (string * A)) : Record A :=
  fold_left (fun o entry => set o (fst entry) (snd entry)) entries [].

(** [config] and [amiScore] are [None] when omitted; the [stage] of an
    [amiScore] is optional as well. *)
Definition decideExplorationStrategy (random : Random) (draws : nat)
  (features : Record number) (config : option ExplorationConfig.t)
  (amiScore : option (option string)) : ExplorationDecision.t * nat :=
  let mutationBounds :=
    match config with
    | Some c => ExplorationConfig.mutationBounds c
    | None => getDefaultMutationBounds
    end in
  let baseEpsilon :=
    match config with
    | Some c => ExplorationConfig.epsilon c
    | None => 0.15
    end in
  let adjustedEpsilon :=
    adjustEpsilon baseEpsilon
      (match amiScore with Some score => score | None => None end) in
  let shouldExplore := random draws <? adjustedEpsilon in
  if negb shouldExplore then
    ({| ExplorationDecision.groupType := exploitation;
        ExplorationDecision.epsilon := adjustedEpsilon;
        ExplorationDecision.features := features;
        ExplorationDecision.mutationParameters := None;
        ExplorationDecision.originalFeatures := None |},
     S draws)
  else
    let '(result, draws') :=
      mutateFeatures random (S draws) features mutationBounds in
    ({| ExplorationDecision.groupType := exploration;
        ExplorationDecision.epsilon := adjustedEpsilon;
        ExplorationDecision.features := MutationResult.features result;
        ExplorationDecision.mutationParameters :=
          Some (fromEntries
                  (map (fun entry => (fst entry, delta (snd entry)))
                     (MutationResult.mutationLog result)));
        ExplorationDecision.originalFeatures := Some features |},
     draws').

End Exploration.

(** ** The SHA-256 digest of node's [crypto] module (FIPS 180-4) *)

Module Sha256.
Local Open Scope Z_scope.

Definition mask32 : Z := 4294967295.
Definition wrap (x : Z) : Z := Z.land x mask32.
Definition plus32 (x y : Z) : Z := wrap (x + y).
Definition rotr (x n : Z) : Z :=
  Z.lor (Z.shiftr x n) (wrap (Z.shiftl x (32 - n))).

Definition choose (e f g : Z) : Z :=
  Z.lxor (Z.land e f) (Z.land (Z.lxor e mask32) g).
Definition majority (a b c : Z) : Z :=
  Z.lxor (Z.lxor (Z.land a b) (Z.land a c)) (Z.land b c).
Definition big_sigma0 (a : Z) : Z :=
  Z.lxor (Z.lxor (rotr a 2) (rotr a 13)) (rotr a 22).
Definition big_sigma1 (e : Z) : Z :=
  Z.lxor (Z.lxor (rotr e 6) (rotr e 11)) (rotr e 25).
Definition small_sigma0 (x : Z) : Z :=
  Z.lxor (Z.lxor (rotr x 7) (rotr x 18)) (Z.shiftr x 3).
Definition small_sigma1 (x : Z) : Z :=
  Z.lxor (Z.lxor (rotr x 17) (rotr x 19)) (Z.shiftr x 10).

(** The round constants and the initial state are the leading 32 bits
    of the fractional parts of the cube roots, respectively square roots,
    of the first primes. *)
Fixpoint root_search (fuel : nat) (k lo hi target : Z) : Z :=
  match fuel with
  | O => lo
  | S fuel' =>
      if hi - lo <=? 1 then lo
      else
        let mid := (lo + hi) / 2 in
        if mid ^ k <=? target then root_search fuel' k mid hi target
        else root_search fuel' k lo mid target
  end.

Definition fractional_root_bits (k p : Z) : Z :=
  wrap (root_search 64 k 0 (2 ^ 40) (p * 2 ^ (32 * k))).

Definition primes : list Z :=
  [2; 3; 5; 7; 11; 13; 17; 19; 23; 29; 31; 37; 41; 43; 47; 53;
   59; 61; 67; 71; 73; 79; 83; 89; 97; 101; 103; 107; 109; 113; 127; 131;
   137; 139; 149; 151; 157; 163; 167; 173; 179; 181; 191; 193; 197; 199;
   211; 223; 227; 229; 233; 239; 241; 251; 257; 263; 269; 271; 277; 281;
   283; 293; 307; 311].

Definition round_constants : list Z :=
  Eval vm_compute in map (fractional_root_bits 3) primes.

Definition initial_state : list Z :=
  Eval vm_compute in map (fractional_root_bits 2) (firstn 8 primes).

(** Padding: a 1 bit, zeros up to 56 modulo 64 bytes, the bit length on
    eight bytes, big endian. *)
Definition big_endian (width : nat) (x : Z) : list Z :=
  map (fun i => Z.land (Z.shiftr x (8 * Z.of_nat (width - 1 - i))) 255)
    (seq 0 width).

Definition pad (message : list Z) : list Z :=
  let len := Z.of_nat (List.length message) in
  let zeros := Z.to_nat ((55 - len) mod 64) in
  message ++ [128] ++ repeat 0 zeros ++ big_endian 8 (8 * len).

Fixpoint words (fuel : nat) (bytes : list Z) : list Z :=
  match fuel, bytes with
  | S fuel', b0 :: b1 :: b2 :: b3 :: rest =>
      (b0 * 16777216 + b1 * 65536 + b2 * 256 + b3) :: words fuel' rest
  | _, _ => []
  end.

Fixpoint blocks (fuel : nat) (ws : list Z) : list (list Z) :=
  match fuel, ws with
  | _, [] => []
  | O, _ => []
  | S fuel', _ => firstn 16 ws :: blocks fuel' (skipn 16 ws)
  end.

(** The message schedule, most recent word first. *)
Fixpoint schedule (more : nat) (recent : list Z) : list Z :=
  match more with
  | O => recent
  | S more' =>
      let w :=
        plus32 (plus32 (small_sigma1 (nth 1 recent 0)) (nth 6 recent 0))
          (plus32 (small_sigma0 (nth 14 recent 0)) (nth 15 recent 0)) in
      schedule more' (w :: recent)
  end.

Definition round (state : list Z) (kw : Z * Z) : list Z :=
  match state with
  | [a; b; c; d; e; f; g; h] =>
      let t1 :=
        plus32 (plus32 (plus32 h (big_sigma1 e)) (choose e f g))
          (plus32 (fst kw) (snd kw)) in
      let t2 := plus32 (big_sigma0 a) (majority a b c) in
      [plus32 t1 t2; a; b; c; plus32 d t1; e; f; g]
  | _ => state
  end.

Definition compress (state block : list Z) : list Z :=
  let w := rev (schedule 48 (rev block)) in
  let final := fold_left round (combine round_constants w) state in
  map (fun p => plus32 (fst p) (snd p)) (combine state final).

Definition digest (message : list Z) : list Z :=
  let padded := pad message in
  let ws := words (List.length padded) padded in
  fold_left compress (blocks (List.length ws) ws) initial_state.

Definition hex_digit (d : Z) : ascii :=
  ascii_of_nat (Z.to_nat (if d <? 10 then 48 + d else 87 + d)).

Definition hex_word (x : Z) : string :=
  fold_right (fun i acc => String (hex_digit (Z.land (Z.shiftr x (4 * i)) 15)) acc)
    EmptyString [7; 6; 5; 4; 3; 2; 1; 0].

Definition bytes_of_string (s : string) : list Z :=
  map (fun c => Z.of_nat (nat_of_ascii c)) (list_ascii_of_string s).

(** [createHash("sha256").update(s).digest("hex")]. *)
Definition hex (s : string) : string :=
  fold_right (fun x acc => (hex_word x ++ acc)%string) EmptyString
    (digest (bytes_of_string s)).

End Sha256.

(** ** [JSON.stringify] on the values the sources serialise *)

Module JSON.
Import JS.
Local Open Scope Z_scope.

(** [Number::toString]: the shortest decimal digits [s] and the
    exponent [n] such that [s * 10^(n - k)] reads back as the number,
    where [k] is the number of digits of [s].  A finite non-zero number
    is [m * 2^e]; all comparisons are exact, by cross-multiplication. *)
Definition compare_scaled (s t c e : Z) : comparison :=
  Z.compare (s * 10 ^ Z.max t 0 * 2 ^ Z.max (- e) 0)
            (c * 10 ^ Z.max (- t) 0 * 2 ^ Z.max e 0).

(** Does [s * 10^t] round to [m * 2^e]?  The bounds are the midpoints
    with the neighbouring numbers, counted in quarters of the last
    place; they belong to the interval when [m] is even. *)
Definition reads_back (m e s t : Z) : bool :=
  let below := if (m =? 2 ^ 52) && (-1074 <? e) then 1 else 2 in
  let inside (c : comparison) (strict : comparison) :=
    match c with
    | Eq => Z.even m
    | _ => match c, strict with
           | Lt, Lt | Gt, Gt => true
           | _, _ => false
           end
    end in
  inside (compare_scaled s t (4 * m - below) (e - 2)) Gt
  && inside (compare_scaled s t (4 * m + 2) (e - 2)) Lt.

(** The least [n] with [m * 2^e < 10^n], searched upwards from [n]. *)
Fixpoint decimal_exponent (fuel : nat) (m e n : Z) : Z :=
  match fuel with
  | O => n
  | S fuel' =>
      match compare_scaled 1 n m e with
      | Gt => n
      | _ => decimal_exponent fuel' m e (n + 1)
      end
  end.

(** A starting point below the decimal exponent: [2^v <= m * 2^e] for
    [v = e + log2 m], and 0.30102 < log10 2 < 0.30103. *)
Definition exponent_estimate (m e : Z) : Z :=
  let v := e + Z.log2 m in
  Z.min (v * 30102) (v * 30103) / 100000 - 1.

Fixpoint shortest_digits (fuel : nat) (m e n k : Z) : Z * Z :=
  let t := n - k in
  let lo :=
    (m * 2 ^ Z.max e 0 * 10 ^ Z.max (- t) 0)
    / (2 ^ Z.max (- e) 0 * 10 ^ Z.max t 0) in
  let hi := lo + 1 in
  let up := if hi =? 10 ^ k then (10 ^ (k - 1), n + 1) else (hi, n) in
  match fuel with
  | O => (lo, n)
  | S fuel' =>
      match reads_back m e lo t, reads_back m e hi t with
      | true, false => (lo, n)
      | false, true => up
      | true, true =>
          match compare_scaled (lo + hi) t (2 * m) e with
          | Gt => (lo, n)
          | Lt => up
          | Eq => if Z.even lo then (lo, n) else up
          end
      | false, false => shortest_digits fuel' m e n (k + 1)
      end
  end.

Definition zeros (n : Z) : string :=
  string_of_list_ascii (repeat (digit_char 0) (Z.to_nat n)).

Definition layout (s n : Z) : string :=
  let digits := show_Z s in
  let k := Z.of_nat (String.length digits) in
  let exponent :=
    (String (ascii_of_nat 101)
       ((if (0 <=? n - 1)%Z then "+" else "-")
        ++ show_Z (Z.abs (n - 1))))%string in
  if (k <=? n) && (n <=? 21) then (digits ++ zeros (n - k))%string
  else if (0 <? n) && (n <=? 21) then
    (substring 0 (Z.to_nat n) digits ++ "."
     ++ substring (Z.to_nat n) (Z.to_nat (k - n)) digits)%string
  else if (-6 <? n) && (n <=? 0) then
    ("0." ++ zeros (- n) ++ digits)%string
  else if k =? 1 then (digits ++ exponent)%string
  else
    (substring 0 1 digits ++ "." ++ substring 1 (Z.to_nat (k - 1)) digits
     ++ exponent)%string.

(** A finite number as [JSON.stringify] prints it; [None] for NaN and
    the infinities, which it prints as [null]. *)
Definition numberToString (x : number) : option string :=
  match Prim2SF x with
  | S754_zero _ => Some "0"%string
  | S754_finite sign m e =>
      let n :=
        decimal_exponent 8 (Zpos m) e (exponent_estimate (Zpos m) e) in
      let '(s, n') := shortest_digits 17 (Zpos m) e n 1 in
      Some ((if sign then "-" else "") ++ layout s n')%string
  | S754_infinity _ | S754_nan => None
  end.

Inductive value : Type :=
| Null
| Number (x : number)
| Text (s : string)
| Array (items : list value)
| Object (members : list (string * value)).

Definition quote : string := String (ascii_of_nat 34) EmptyString.

Definition hex4 (c : nat) : string :=
  let digit (d : nat) :=
    ascii_of_nat (if (d <? 10)%nat then 48 + d else 87 + d) in
  String (digit_char 0) (String (digit_char 0)
    (String (digit (c / 16)%nat)
       (String (digit (c mod 16)%nat) EmptyString))).

(** [QuoteJSONString] on a string of 7-bit characters. *)
Fixpoint escape (s : string) : string :=
  match s with
  | EmptyString => EmptyString
  | String c rest =>
      let code := nat_of_ascii c in
      let backslash := String (ascii_of_nat 92) EmptyString in
      let escaped :=
        if (code =? 34)%nat then (backslash ++ quote)%string
        else if (code =? 92)%nat then (backslash ++ backslash)%string
        else if (code =? 8)%nat then (backslash ++ "b")%string
        else if (code =? 9)%nat then (backslash ++ "t")%string
        else if (code =? 10)%nat then (backslash ++ "n")%string
        else if (code =? 12)%nat then (backslash ++ "f")%string
        else if (code =? 13)%nat then (backslash ++ "r")%string
        else if (code <? 32)%nat then (backslash ++ "u" ++ hex4 code)%string
        else String c EmptyString in
      (escaped ++ escape rest)%string
  end.

Definition quoted (s : string) : string := (quote ++ escape s ++ quote)%string.

Definition join (parts : list string) : string :=
  match parts with
  | [] => EmptyString
  | first :: rest =>
      fold_left (fun acc part => (acc ++ "," ++ part)%string) rest first
  end.

Fixpoint stringify (v : value) : string :=
  match v with
  | Null => "null"%string
  | Number x => match numberToString x with
                | Some s => s
                | None => "null"%string
                end
  | Text s => quoted s
  | Array items => ("[" ++ join (map stringify items) ++ "]")%string
  | Object members =>
      ("{"
       ++ join (map (fun member =>
                       (quoted (fst member) ++ ":"
                        ++ stringify (snd member))%string)
                  members)
       ++ "}")%string
  end.

(** [Date.prototype.toISOString] on a time value in milliseconds since
    the epoch; the days are turned into a civil date of the proleptic
    Gregorian calendar. *)
Definition padded (width : nat) (n : Z) : string :=
  let digits := show_Z n in
  (zeros (Z.of_nat (width - String.length digits)) ++ digits)%string.

Definition toISOString (time : Z) : string :=
  let days := time / 86400000 in
  let ms := time mod 86400000 in
  let z := days + 719468 in
  let era := z / 146097 in
  let doe := z - era * 146097 in
  let yoe := (doe - doe / 1460 + doe / 36524 - doe / 146096) / 365 in
  let doy := doe - (365 * yoe + yoe / 4 - yoe / 100) in
  let mp := (5 * doy + 2) / 153 in
  let day := doy - (153 * mp + 2) / 5 + 1 in
  let month := if mp <? 10 then mp + 3 else mp - 9 in
  let year := yoe + era * 400 + (if month <=? 2 then 1 else 0) in
  let yyyy :=
    if (0 <=? year) && (year <=? 9999) then padded 4 year
    else ((if (year <? 0)%Z then "-" else "+")
          ++ padded 6 (Z.abs year))%string in
  (yyyy ++ "-" ++ padded 2 month ++ "-" ++ padded 2 day ++ "T"
   ++ padded 2 (ms / 3600000) ++ ":" ++ padded 2 (ms / 60000 mod 60) ++ ":"
   ++ padded 2 (ms / 1000 mod 60) ++ "." ++ padded 3 (ms mod 1000)
   ++ "Z")%string.

End JSON.

(** ** model-training.ts *)

Module ModelTraining.
Import JS.

(** [createdAt: Date | string | null] is kept as the time value of a
    valid date, in milliseconds since the epoch; [None] is [null]. *)
Record DatasetRecord := {
  normalizedFeatures : Record number;
  targetValue : number;
  createdAt : option Z
}.

Record TrainResult := {
  coefficients : list number;
  intercept : number;
  featureNames : list string;
  rSquared : number;
  mae : number;
  tierAccuracy : number;
  directionalAccuracy : number;
  trainSampleCount : nat;
  testSampleCount : nat
}.

Definition Matrix : Set := list (list number).

(** [a[i][j]]; outside the matrix the read is [undefined], NaN in
    arithmetic. *)
Definition entry (a : Matrix) (i j : nat) : number :=
  nth j (nth i a []) nan.

(** [matrixTranspose] and [matrixMultiply] read [a[0].length], a
    [TypeError] on a matrix without rows.  [trainModel] calls them on
    matrices with at least one row (the training slice is not empty
    there, and every row of [X] starts with the constant 1), so the
    functions below give the empty row for [a[0]] instead of threading
    an exception that no caller can meet. *)

Definition matrixTranspose (a : Matrix) : Matrix :=
  let rows := List.length a in
  let cols := List.length (nth 0 a []) in
  map (fun j => map (fun i => entry a i j) (seq 0 rows)) (seq 0 cols).

Definition matrixMultiply (a b : Matrix) : Matrix :=
  let aRows := List.length a in
  let aCols := List.length (nth 0 a []) in
  let bCols := List.length (nth 0 b []) in
  map (fun i =>
         map (fun j =>
                fold_left (fun sum k => sum + entry a i k * entry b k j)
                  (seq 0 aCols) 0)
           (seq 0 bCols))
    (seq 0 aRows).

(** [row[j] = f(row[j])] for [j] below [bound]. *)
Definition update_prefix (bound : nat) (f : nat -> number -> number)
  (row : list number) : list number :=
  fold_left (fun r j => array_set r j (f j (nth j r nan))) (seq 0 bound) row.

(** [rows[i] = row]. *)
Fixpoint set_row (rows : Matrix) (i : nat) (row : list number) : Matrix :=
  match i, rows with
  | _, [] => []
  | O, _ :: rest => row :: rest
  | S i', r :: rest => r :: set_row rest i' row
  end.

(** The body of the loop over [col] in [matrixInverse]. *)
Definition eliminateColumn (n : nat) (augmented : Matrix) (col : nat)
  : Matrix :=
  let '(maxRow, maxVal) :=
    fold_left
      (fun '(maxRow, maxVal) row =>
         let val := abs (entry augmented row col) in
         if maxVal <? val then (row, val) else (maxRow, maxVal))
      (seq (col + 1) (n - (col + 1)))
      (col, abs (entry augmented col col)) in
  if maxVal <? 1e-12 then
    let cleared :=
      fold_left (fun r i => array_set r (col + n + i) 0) (seq 0 n)
        (nth col augmented []) in
    set_row augmented col (array_set cleared col 1)
  else
    let swapped :=
      if (maxRow =? col)%nat then augmented
      else set_row (set_row augmented col (nth maxRow augmented []))
             maxRow (nth col augmented []) in
    let pivot := entry swapped col col in
    let pivotRow :=
      update_prefix (2 * n) (fun _ v => v / pivot) (nth col swapped []) in
    let scaled := set_row swapped col pivotRow in
    map (fun row =>
           if (row =? col)%nat then nth row scaled []
           else
             let factor := entry scaled row col in
             update_prefix (2 * n)
               (fun j v => v - factor * nth j pivotRow nan)
               (nth row scaled []))
      (seq 0 n).

Definition matrixInverse (a : Matrix) : Matrix :=
  let n := List.length a in
  let augmented :=
    map (fun i =>
           nth i a []
           ++ map (fun j => if (i =? j)%nat then 1 else 0) (seq 0 n))
      (seq 0 n) in
  let reduced := fold_left (eliminateColumn n) (seq 0 n) augmented in
  map (fun row => slice row (Int (Z.of_nat n)) None) reduced.

(** [a.createdAt ? new Date(a.createdAt).getTime() : 0]. *)
Definition time_of (r : DatasetRecord) : Z := nullish (createdAt r) 0%Z.

Record Split := {
  train : list DatasetRecord;
  test : list DatasetRecord
}.

Definition splitData (records : list DatasetRecord) (trainRatio : number)
  : Split :=
  let sorted := sort (fun a b => (0 <? time_of a - time_of b)%Z) records in
  let splitIndex := Math_floor (of_nat (List.length sorted) * trainRatio) in
  {| train := slice sorted (Int 0) (Some (ToIntegerOrInfinity splitIndex));
     test := slice sorted (ToIntegerOrInfinity splitIndex) None |}.

Definition defaultTrainRatio : number := 0.8.

Definition classifyTier (value : number) : string :=
  if 0.7 <? value then "top"
  else if value <? 0.3 then "low"
  else "mid".

Definition predict (coefficients : list number) (intercept : number)
  (featureVector : list number) : number :=
  fold_left
    (fun result i =>
       result + nth i coefficients nan
                * nullish (nth_error featureVector i) 0)
    (seq 0 (List.length coefficients)) intercept.

(** [Object.keys(o).sort()]: the default order of [sort] compares the
    names as strings. *)
Definition sortedKeys (o : Record number) : list string :=
  sort (fun a b => String.ltb b a) (keys o).

Definition featureValue (r : DatasetRecord) (name : string) : number :=
  nullish (get (normalizedFeatures r) name) 0.

Definition count {A} (p : A -> bool) (l : list A) : nat :=
  List.length (filter p l).

Definition median (values : list number) : number :=
  let sorted := sort (fun a b => 0 <? a - b) values in
  let mid := Nat.div (List.length sorted) 2 in
  if Nat.even (List.length sorted)
  then (nth (mid - 1) sorted nan + nth mid sorted nan) / 2
  else nth mid sorted nan.

Definition zeroResult (trainCount testCount : nat) : TrainResult :=
  {| coefficients := [];
     intercept := 0;
     featureNames := [];
     rSquared := 0;
     mae := 0;
     tierAccuracy := 0;
     directionalAccuracy := 0;
     trainSampleCount := trainCount;
     testSampleCount := testCount |}.

(** [(testActuals[i] - meanActual) ** 2] is written as the product of
    the difference with itself. *)
Definition trainModel (datasetId : string) (records : list DatasetRecord)
  : TrainResult :=
  if (List.length records <? 3)%nat then zeroResult 0 0
  else
    let split := splitData records defaultTrainRatio in
    let train := train split in
    let test := test split in
    match train, test with
    | [], _ | _, [] => zeroResult (List.length train) (List.length test)
    | first :: _, _ :: _ =>
        let featureNames := sortedKeys (normalizedFeatures first) in
        let X : Matrix :=
          map (fun record => 1 :: map (featureValue record) featureNames)
            train in
        let y := map targetValue train in
        let Xt := matrixTranspose X in
        let XtX := matrixMultiply Xt X in
        let XtXinv := matrixInverse XtX in
        let yCol : Matrix := map (fun v => [v]) y in
        let XtY := matrixMultiply Xt yCol in
        let beta := matrixMultiply XtXinv XtY in
        let intercept := entry beta 0 0 in
        let coefficients :=
          map (fun row => nth 0 row nan) (slice beta (Int 1) None) in
        let testPredictions :=
          map (fun record =>
                 predict coefficients intercept
                   (map (featureValue record) featureNames))
            test in
        let testActuals := map targetValue test in
        let cases := combine testActuals testPredictions in
        let size := of_nat (List.length testActuals) in
        let meanActual := sum testActuals / size in
        let '(ssRes, ssTot, maeSum) :=
          fold_left
            (fun '(ssRes, ssTot, maeSum) '(actual, predicted) =>
               let residual := actual - predicted in
               (ssRes + residual * residual,
                ssTot + (actual - meanActual) * (actual - meanActual),
                maeSum + abs residual))
            cases (0, 0, 0) in
        let rSquared := if 0 <? ssTot then 1 - ssRes / ssTot else 0 in
        let mae := maeSum / size in
        let tierCorrect :=
          count (fun '(actual, predicted) =>
                   String.eqb (classifyTier predicted) (classifyTier actual))
            cases in
        let tierAccuracy := of_nat tierCorrect / size in
        let medianActual := median testActuals in
        let directionalCorrect :=
          count (fun '(actual, predicted) =>
                   Bool.eqb (medianActual <=? predicted)
                     (medianActual <=? actual))
            cases in
        let directionalAccuracy := of_nat directionalCorrect / size in
        {| coefficients := coefficients;
           intercept := intercept;
           featureNames := featureNames;
           rSquared := rSquared;
           mae := mae;
           tierAccuracy := tierAccuracy;
           directionalAccuracy := directionalAccuracy;
           trainSampleCount := List.length train;
           testSampleCount := List.length test |}
    end.

End ModelTraining.

(** ** feature-engineering.ts *)

Module FeatureEngineering.
Import JS.

Record FeatureStats := {
  min : number;
  max : number;
  mean : number;
  stdDev : number
}.

(** One iteration of the loop over [Object.entries(features)]. *)
Definition normalizeEntry (stats : Record FeatureStats)
  (normalized : Record number) (entry : string * number) : Record number :=
  let '(key, value) := entry in
  match get stats key with
  | None => set normalized key 0
  | Some s =>
      if max s =? min s then set normalized key 0
      else set normalized key
             (Math_max 0 (Math_min 1 ((value - min s) / (max s - min s))))
  end.

Definition normalizeFeatures (features : Record number)
  (stats : Record FeatureStats) : Record number :=
  fold_left (normalizeEntry stats) features [].

(** The statistics of one feature; [(v - mean) ** 2] is written as the
    product of the difference with itself. *)
Definition featureStats (values : list number) : FeatureStats :=
  if (List.length values =? 0)%nat then
    {| min := 0; max := 0; mean := 0; stdDev := 0 |}
  else
    let n := of_nat (List.length values) in
    let mean := sum values / n in
    let variance :=
      fold_left (fun sum v => sum + (v - mean) * (v - mean)) values 0 / n in
    {| min := Math_min_list values;
       max := Math_max_list values;
       mean := mean;
       stdDev := sqrt variance |}.

Definition computeFeatureStats (featureArrays : Record (list number))
  : Record FeatureStats :=
  fold_left
    (fun stats entry => set stats (fst entry) (featureStats (snd entry)))
    featureArrays [].

End FeatureEngineering.

(** ** correlation-engine.ts *)

Module CorrelationEngine.
Import JS.

Definition computePearsonCorrelation (x y : list number) : number :=
  if negb (List.length x =? List.length y)%nat || (List.length x =? 0)%nat
  then 0
  else
    let n := of_nat (List.length x) in
    let meanX := sum x / n in
    let meanY := sum y / n in
    let '(covariance, varX, varY) :=
      fold_left
        (fun '(covariance, varX, varY) '(xi, yi) =>
           let dx := xi - meanX in
           let dy := yi - meanY in
           (covariance + dx * dy, varX + dx * dx, varY + dy * dy))
        (combine x y) (0, 0, 0) in
    let stdX := sqrt (varX / n) in
    let stdY := sqrt (varY / n) in
    if (stdX =? 0) || (stdY =? 0) then 0
    else
      let pearsonR := (covariance / n) / (stdX * stdY) in
      Math_max (-1) (Math_min 1 pearsonR).

Inductive AMIStage : Set :=
| early_noise
| search_growth
| buyer_interest
| media_amplification.

Record AMIComponents := {
  culturalSpikeScore : number;
  searchAccelerationScore : number;
  marketplaceRankDeltaScore : number;
  mediaAmplificationScore : number
}.

Record AMIScore := {
  ami : number;
  stage : AMIStage;
  confidence : number;
  components : AMIComponents;
  layerScores : Record number
}.

(** [layerSignals: Record<number, number>]: the property keys of a
    JavaScript object are strings, the layer [1] is the key ["1"].
    [Object.values] lists integer-like keys in ascending order; the
    function only counts the values it lists, and returns the object
    itself as [layerScores]. *)
Definition computeAMI (layerSignals : Record number) : AMIScore :=
  let culturalSpikeScore := nullish (get layerSignals "1") 0 in
  let searchAccelerationScore := nullish (get layerSignals "2") 0 in
  let marketplaceRankDeltaScore := nullish (get layerSignals "3") 0 in
  let mediaAmplificationScore := nullish (get layerSignals "4") 0 in
  let ami :=
    culturalSpikeScore * 0.2 + searchAccelerationScore * 0.3
    + marketplaceRankDeltaScore * 0.25 + mediaAmplificationScore * 0.25 in
  let clampedAmi := Math_max 0 (Math_min 1 ami) in
  let stage :=
    if (0.6 <? culturalSpikeScore) && (searchAccelerationScore <? 0.3)
    then early_noise
    else if 0.5 <? searchAccelerationScore then search_growth
    else if 0.5 <? marketplaceRankDeltaScore then buyer_interest
    else if 0.6 <? mediaAmplificationScore then media_amplification
    else early_noise in
  let layersWithData :=
    List.length (filter (fun v => 0 <? v) (values layerSignals)) in
  let confidence := Math_min 1 ((of_nat layersWithData / 4) * 0.8 + 0.2) in
  {| ami := clampedAmi;
     stage := stage;
     confidence := confidence;
     components :=
       {| culturalSpikeScore := culturalSpikeScore;
          searchAccelerationScore := searchAccelerationScore;
          marketplaceRankDeltaScore := marketplaceRankDeltaScore;
          mediaAmplificationScore := mediaAmplificationScore |};
     layerScores := layerSignals |}.

(** A point of a signal; [timestamp] is the time value of the date,
    [timestamp.getTime()]. *)
Record Signal := {
  value : number;
  timestamp : number
}.

Record LagCorrelation := {
  lagDays : nat;
  correlationStrength : number;
  sampleSize : nat
}.

Definition msPerDay : number := 86400000.

(** The inner loop of [detectLagCorrelation]: the target point closest
    to [targetTime], the first one among equally close points, and its
    distance; the distance starts from [Infinity]. *)
Definition closestMatch (sortedTarget : list Signal) (targetTime : number)
  : option Signal * number :=
  fold_left
    (fun best targetPoint =>
       let diff := abs (timestamp targetPoint - targetTime) in
       if diff <? snd best then (Some targetPoint, diff) else best)
    sortedTarget (None, infinity).

(** The loop over the source points: the aligned source and target
    values for one lag. *)
Definition alignedValues (sortedSource sortedTarget : list Signal)
  (lagMs : number) : list number * list number :=
  fold_left
    (fun aligned sourcePoint =>
       let targetTime := timestamp sourcePoint + lagMs in
       let '(bestMatch, bestDiff) := closestMatch sortedTarget targetTime in
       match bestMatch with
       | Some matched =>
           if bestDiff <? msPerDay
           then (fst aligned ++ [value sourcePoint],
                 snd aligned ++ [value matched])
           else aligned
       | None => aligned
       end)
    sortedSource ([], []).

(** The body of the loop over the lags. *)
Definition tryLag (sortedSource sortedTarget : list Signal)
  (best : LagCorrelation) (lag : nat) : LagCorrelation :=
  let lagMs := of_nat lag * msPerDay in
  let '(alignedSourceValues, alignedTargetValues) :=
    alignedValues sortedSource sortedTarget lagMs in
  if (2 <=? List.length alignedSourceValues)%nat then
    let correlation :=
      computePearsonCorrelation alignedSourceValues alignedTargetValues in
    if abs (correlationStrength best) <? abs correlation
    then {| lagDays := lag;
            correlationStrength := correlation;
            sampleSize := List.length alignedSourceValues |}
    else best
  else best.

(** [maxLagDays] is an integral number; the lags run from 0 to
    [maxLagDays] included. *)
Definition detectLagCorrelation (sourceSignals targetSignals : list Signal)
  (maxLagDays : Z) : LagCorrelation :=
  let sortedSource :=
    sort (fun a b => 0 <? timestamp a - timestamp b) sourceSignals in
  let sortedTarget :=
    sort (fun a b => 0 <? timestamp a - timestamp b) targetSignals in
  fold_left (tryLag sortedSource sortedTarget)
    (seq 0 (Z.to_nat (maxLagDays + 1)))
    {| lagDays := 0; correlationStrength := 0; sampleSize := 0 |}.

Definition defaultMaxLagDays : Z := 14.

End CorrelationEngine.

(** ** drift-detection.ts *)

Module DriftDetection.
Import JS.

(** The two fields of a [PredictionLog] that the module reads;
    [actualValue] is [None] when it is [null] or [undefined]. *)
Record PredictionLog := {
  predictedValue : number;
  actualValue : option number
}.

Inductive DriftType : Set := overestimation | engagement_drop.
Inductive Severity : Set := sev_none | mild | moderate | severe.
Inductive Recommendation : Set :=
| rec_none
| reduce_confidence
| retrain
| increase_exploration.

(** The [details] text, kept as the message chosen and the number it
    prints rather than as the formatted string. *)
Inductive Details : Set :=
| details_empty
| details_retrain (overestimationRatio : number)
| details_reduce_confidence (overestimationRatio : number)
| details_engagement_drop (deviations : number)
| details_no_drift.

Record DriftStatus := {
  driftDetected : bool;
  driftType : option DriftType;
  severity : Severity;
  recommendation : Recommendation;
  details : Details
}.

Definition is_validated (p : PredictionLog) : bool :=
  match actualValue p with Some _ => true | None => false end.

Definition overestimates (p : PredictionLog) : bool :=
  match actualValue p with
  | Some actual => actual <? predictedValue p
  | None => false
  end.

Definition actualValues (ps : list PredictionLog) : list number :=
  flat_map (fun p => match actualValue p with
                     | Some a => [a]
                     | None => []
                     end) ps.

(** Check 2 of [detectDrift], entered when check 1 has not returned.
    [(v - historicalMean) ** 2] is written as the product of the
    difference with itself. *)
Definition engagementDrop (actuals : list number) : DriftStatus :=
  let no_drift :=
    {| driftDetected := false; driftType := None; severity := sev_none;
       recommendation := rec_none; details := details_no_drift |} in
  if (5 <=? List.length actuals)%nat then
    let recentValues := slice actuals (Int (-5)) None in
    let historicalValues := slice actuals (Int 0) (Some (Int (-5))) in
    if (2 <=? List.length historicalValues)%nat then
      let historicalMean :=
        sum historicalValues / of_nat (List.length historicalValues) in
      let historicalVariance :=
        fold_left
          (fun s v => s + (v - historicalMean) * (v - historicalMean))
          historicalValues 0
        / of_nat (List.length historicalValues) in
      let historicalStdDev := sqrt historicalVariance in
      if 0 <? historicalStdDev then
        let recentMean :=
          sum recentValues / of_nat (List.length recentValues) in
        let deviations := (historicalMean - recentMean) / historicalStdDev in
        if 2 <? deviations then
          {| driftDetected := true;
             driftType := Some engagement_drop;
             severity := if 3 <? deviations then severe else moderate;
             recommendation := increase_exploration;
             details := details_engagement_drop deviations |}
        else no_drift
      else no_drift
    else no_drift
  else no_drift.

(** [windowSize] is an integral number. *)
Definition detectDrift (predictions : list PredictionLog) (windowSize : Z)
  : DriftStatus :=
  match predictions with
  | [] =>
      {| driftDetected := false; driftType := None; severity := sev_none;
         recommendation := rec_none; details := details_empty |}
  | _ =>
      let windowPredictions := slice predictions (Int (- windowSize)) None in
      let overestimationCount :=
        List.length (filter overestimates windowPredictions) in
      let validPredictions := filter is_validated windowPredictions in
      let check2 := engagementDrop (actualValues validPredictions) in
      if (0 <? List.length validPredictions)%nat then
        let overestimationRatio :=
          of_nat overestimationCount / of_nat (List.length validPredictions) in
        if 0.8 <? overestimationRatio then
          {| driftDetected := true; driftType := Some overestimation;
             severity := severe; recommendation := retrain;
             details := details_retrain overestimationRatio |}
        else if 0.6 <? overestimationRatio then
          {| driftDetected := true; driftType := Some overestimation;
             severity := moderate; recommendation := reduce_confidence;
             details := details_reduce_confidence overestimationRatio |}
        else check2
      else check2
  end.

Definition defaultWindowSize : Z := 10.

(** [reason] is kept as the number its text prints, [None] when the
    field is absent. *)
Record RetirementResult := {
  patternId : string;
  retired : bool;
  reason : option number;
  underperformanceStdDev : number;
  sampleCount : nat
}.

(** [(v - baseline) ** 2] is written as the product of the difference
    with itself. *)
Definition checkPatternRetirement (patternId : string)
  (predictions : list PredictionLog) : RetirementResult :=
  let result :=
    {| patternId := patternId;
       retired := false;
       reason := None;
       underperformanceStdDev := 0;
       sampleCount := List.length predictions |} in
  if (List.length predictions <? 5)%nat then result
  else
    let actualValues := actualValues predictions in
    if (List.length actualValues <? 5)%nat then result
    else
      let baseline := sum actualValues / of_nat (List.length actualValues) in
      let variance :=
        fold_left (fun sum v => sum + (v - baseline) * (v - baseline))
          actualValues 0
        / of_nat (List.length actualValues) in
      let stdDev := sqrt variance in
      if stdDev =? 0 then result
      else
        let predictedValues := map predictedValue predictions in
        let meanPredicted :=
          sum predictedValues / of_nat (List.length predictedValues) in
        let meanActual := baseline in
        let underperformance := meanPredicted - meanActual in
        let underperformanceStdDev := underperformance / stdDev in
        if 1.5 <? abs underperformanceStdDev then
          {| patternId := patternId;
             retired := true;
             reason := Some (abs underperformanceStdDev);
             underperformanceStdDev := underperformanceStdDev;
             sampleCount := List.length predictions |}
        else
          {| patternId := patternId;
             retired := false;
             reason := None;
             underperformanceStdDev := underperformanceStdDev;
             sampleCount := List.length predictions |}.

(** A data point of [analyzeTrend]; [timestamp] is the time value of the
    date. *)
Module DataPoint.
Record t := {
  value : number;
  timestamp : number
}.
End DataPoint.

Module TrendSignalData.
Record t := {
  signalType : string;
  metricName : string;
  value : number;
  rollingMean : number;
  zScore : number;
  acceleration : number;
  isAnomaly : bool
}.
End TrendSignalData.

Definition msPerHour : number := 3600000.

(** [windowSize] is an integral number.  An index past the end of
    [values] or [timestamps] is not read: each read is guarded by the
    length.  [(v - rollingMean) ** 2] is written as a product. *)
Definition analyzeTrend (dataPoints : list DataPoint.t) (windowSize : Z)
  : TrendSignalData.t :=
  match dataPoints with
  | [] =>
      {| TrendSignalData.signalType := "trend";
         TrendSignalData.metricName := "metric";
         TrendSignalData.value := 0;
         TrendSignalData.rollingMean := 0;
         TrendSignalData.zScore := 0;
         TrendSignalData.acceleration := 0;
         TrendSignalData.isAnomaly := false |}
  | _ =>
      let values := map DataPoint.value dataPoints in
      let n := List.length values in
      let value := nth (n - 1) values nan in
      let rollingWindow :=
        slice values (Int (Z.max 0 (Z.of_nat n - windowSize))) None in
      let rollingMean :=
        sum rollingWindow / of_nat (List.length rollingWindow) in
      let variance :=
        fold_left (fun sum v => sum + (v - rollingMean) * (v - rollingMean))
          rollingWindow 0
        / of_nat (List.length rollingWindow) in
      let stdDev := sqrt variance in
      let zScore := if 0 <? stdDev then (value - rollingMean) / stdDev else 0 in
      let isAnomaly := 2 <? abs zScore in
      let acceleration :=
        if (2 <=? n)%nat then
          let timestamps := map DataPoint.timestamp dataPoints in
          let timeDiff :=
            (nth (n - 1) timestamps nan - nth (n - 2) timestamps nan)
            / msPerHour in
          let valueDiff := nth (n - 1) values nan - nth (n - 2) values nan in
          let velocity := if 0 <? timeDiff then valueDiff / timeDiff else 0 in
          if (3 <=? n)%nat then
            let prevTimeDiff :=
              (nth (n - 2) timestamps nan - nth (n - 3) timestamps nan)
              / msPerHour in
            let prevValueDiff :=
              nth (n - 2) values nan - nth (n - 3) values nan in
            let prevVelocity :=
              if 0 <? prevTimeDiff then prevValueDiff / prevTimeDiff else 0 in
            let timeGapAccel :=
              (nth (n - 1) timestamps nan - nth (n - 3) timestamps nan)
              / msPerHour in
            if 0 <? timeGapAccel
            then (velocity - prevVelocity) / timeGapAccel
            else 0
          else 0
        else 0 in
      {| TrendSignalData.signalType := "trend";
         TrendSignalData.metricName := "metric";
         TrendSignalData.value := value;
         TrendSignalData.rollingMean := rollingMean;
         TrendSignalData.zScore := zScore;
         TrendSignalData.acceleration := acceleration;
         TrendSignalData.isAnomaly := isAnomaly |}
  end.

(** [timestamps] holds the time values of the dates.  The comparator of
    the sort reads [timestamp.getTime()] of both its arguments: it
    raises a [TypeError] on a sample whose timestamp is [undefined],
    which is the case of the samples past the end of [timestamps], and a
    sort of two or more elements hands every element to the comparator. *)
Definition computeEngagementVelocity (engagements timestamps : list number)
  : result number :=
  if (List.length engagements <? 2)%nat || (List.length timestamps <? 2)%nat
  then Ok 0
  else if (List.length timestamps <? List.length engagements)%nat
  then Throw "TypeError: Cannot read properties of undefined (reading 'getTime')"
  else
    let sortedData :=
      sort (fun a b => 0 <? snd a - snd b) (combine engagements timestamps) in
    if (List.length sortedData <? 2)%nat then Ok 0
    else
      let first := fst (nth 0 sortedData (nan, nan)) in
      let last := nth (List.length sortedData - 1) sortedData (nan, nan) in
      let timeDiffHours :=
        (snd last - snd (nth 0 sortedData (nan, nan))) / msPerHour in
      if timeDiffHours <=? 0 then Ok 0
      else
        let engagementChange := fst last - first in
        Ok (engagementChange / timeDiffHours).

(** [computeRetentionWeightedEngagement]. *)
Definition computeRetentionWeightedEngagement (engagement retention : number)
  : number :=
  engagement * retention.

End DriftDetection.

(** ** optimization.ts *)

Module Optimization.
Import JS.

Record OptimizationSuggestion := {
  featureName : string;
  currentValue : number;
  suggestedValue : number;
  delta : number;
  predictedGain : number;
  confidence : number
}.

Record OptimizationResult := {
  suggestions : list OptimizationSuggestion;
  currentPrediction : number;
  optimizedPrediction : number;
  totalProjectedLift : number;
  liftPercent : number
}.

Definition simulateDelta (featureVector : Record number) (featureIndex : nat)
  (delta : number) (coefficients : list number) (intercept : number)
  : result number :=
  let clonedVector := featureVector in
  let featureNames := keys featureVector in
  match nth_error featureNames featureIndex with
  | None => Throw ("Invalid feature index: " ++ show_nat featureIndex)
  | Some featureName =>
      let moved :=
        set clonedVector featureName
          (nullish (get clonedVector featureName) nan + delta) in
      let clamped :=
        set moved featureName
          (Math_max 0 (Math_min 1 (nullish (get moved featureName) nan))) in
      let featureArray :=
        map (fun name => nullish (get clamped name) 0) featureNames in
      Ok (ModelTraining.predict coefficients intercept featureArray)
  end.

(** The body of the loop over [featureNames]; [None] when the feature
    gets no suggestion. *)
Definition suggestionFor (currentFeatures : Record number)
  (coefficients : list number) (intercept : number) (stepSize : number)
  (currentPrediction : number) (i : nat) (featureName : string)
  : result (option OptimizationSuggestion) :=
  let currentValue := nullish (get currentFeatures featureName) 0 in
  positiveDeltaPrediction <-
    simulateDelta currentFeatures i stepSize coefficients intercept ;;
  negativeDeltaPrediction <-
    simulateDelta currentFeatures i (- stepSize) coefficients intercept ;;
  let positiveGain := positiveDeltaPrediction - currentPrediction in
  let negativeGain := negativeDeltaPrediction - currentPrediction in
  let '(suggestedValue, predictedGain) :=
    if (negativeGain <? positiveGain) && (0 <? positiveGain)
    then (Math_max 0 (Math_min 1 (currentValue + stepSize)), positiveGain)
    else if 0 <? negativeGain
    then (Math_max 0 (Math_min 1 (currentValue - stepSize)), negativeGain)
    else (currentValue, 0) in
  if 0 <? predictedGain then
    let coefficient := nullish (nth_error coefficients i) 0 in
    let maxCoefficient := Math_max_list (map abs coefficients) in
    let confidence :=
      if maxCoefficient =? 0 then 0
      else Math_min 1 (abs coefficient / maxCoefficient) in
    Ok (Some {| featureName := featureName;
                currentValue := currentValue;
                suggestedValue := suggestedValue;
                delta := suggestedValue - currentValue;
                predictedGain := predictedGain;
                confidence := confidence |})
  else Ok None.

Fixpoint collectSuggestions (currentFeatures : Record number)
  (coefficients : list number) (intercept : number) (stepSize : number)
  (currentPrediction : number) (i : nat) (names : list string)
  (suggestions : list OptimizationSuggestion)
  : result (list OptimizationSuggestion) :=
  match names with
  | [] => Ok suggestions
  | featureName :: rest =>
      found <- suggestionFor currentFeatures coefficients intercept stepSize
                 currentPrediction i featureName ;;
      collectSuggestions currentFeatures coefficients intercept stepSize
        currentPrediction (S i) rest
        (match found with
         | Some suggestion => suggestions ++ [suggestion]
         | None => suggestions
         end)
  end.

Definition optimizeFeatures (currentFeatures : Record number)
  (coefficients : list number) (intercept : number)
  (featureNames : list string) (stepSize : number)
  : result OptimizationResult :=
  let currentPrediction :=
    ModelTraining.predict coefficients intercept
      (map (fun name => nullish (get currentFeatures name) 0) featureNames) in
  collected <- collectSuggestions currentFeatures coefficients intercept
                 stepSize currentPrediction 0 featureNames [] ;;
  let suggestions :=
    sort (fun a b => 0 <? predictedGain b - predictedGain a) collected in
  let totalProjectedLift :=
    fold_left (fun sum s => sum + predictedGain s) suggestions 0 in
  let optimizedPrediction := currentPrediction + totalProjectedLift in
  let liftPercent :=
    if currentPrediction =? 0 then 0
    else (totalProjectedLift / currentPrediction) * 100 in
  Ok {| suggestions := suggestions;
        currentPrediction := currentPrediction;
        optimizedPrediction := optimizedPrediction;
        totalProjectedLift := totalProjectedLift;
        liftPercent := liftPercent |}.

Definition defaultStepSize : number := 0.05.

End Optimization.

(** ** The [real] and [jsonb] columns of PostgreSQL

    The sources reach the database through drizzle and a node driver,
    neither of which is among them.  A number written to a [real]
    column travels as the text of [Number::toString]; PostgreSQL reads
    the text as the nearest single-precision number, refusing a text
    that overflows or that rounds to zero without being zero, and
    prints the column as the shortest decimal that identifies the
    single-precision number (version 12 and later, with its default
    settings); the driver hands that text to [parseFloat].  A [jsonb]
    column travels as the text of [JSON.stringify] and keeps the digits
    of every number. *)

Module Postgres.
Import JS.
Local Open Scope Z_scope.

(** The binary number with [prec] digits and exponents below [emax]
    that is nearest to [s * 10^t], ties going to the even one, for
    [0 < s]: the quotient of two integers, rounded once. *)
Definition nearest (prec emax : Z) (sign : bool) (s t : Z) : spec_float :=
  SFdiv prec emax
    (S754_finite sign (Z.to_pos (s * 10 ^ Z.max t 0)) 0)
    (S754_finite false (Z.to_pos (10 ^ Z.max (- t) 0)) 0).

Definition same_finite (a b : spec_float) : bool :=
  match a, b with
  | S754_finite sa ma ea, S754_finite sb mb eb =>
      Bool.eqb sa sb && (Zpos ma =? Zpos mb) && (ea =? eb)
  | _, _ => false
  end.

(** The shortest decimal [s * 10^t] that [reads_back] as [m * 2^e],
    tried with [k], [k + 1], ... digits; of two decimals of one length
    the nearer is taken. *)
Fixpoint shortest (fuel : nat) (reads_back : Z -> Z -> bool) (m e n k : Z)
  : Z * Z :=
  let t := n - k in
  let lo :=
    (m * 2 ^ Z.max e 0 * 10 ^ Z.max (- t) 0)
    / (2 ^ Z.max (- e) 0 * 10 ^ Z.max t 0) in
  let hi := lo + 1 in
  match fuel with
  | O => (lo, t)
  | S fuel' =>
      match reads_back lo t, reads_back hi t with
      | true, false => (lo, t)
      | false, true => (hi, t)
      | true, true =>
          match JSON.compare_scaled (lo + hi) t (2 * m) e with
          | Gt => (lo, t)
          | Lt => (hi, t)
          | Eq => if Z.even lo then (lo, t) else (hi, t)
          end
      | false, false => shortest fuel' reads_back m e n (k + 1)
      end
  end.

(** The decimal that PostgreSQL prints for the single-precision number
    [m * 2^e]; 9 digits identify every such number. *)
Definition float4out (sign : bool) (m : positive) (e : Z) : Z * Z :=
  shortest 9
    (fun s t =>
       (0 <? s)
       && same_finite (nearest 24 128 sign s t) (S754_finite sign m e))
    (Zpos m) e
    (JSON.decimal_exponent 8 (Zpos m) e (JSON.exponent_estimate (Zpos m) e))
    1.

(** The decimal that [Number::toString] prints for [m * 2^e]. *)
Definition sent (m : positive) (e : Z) : Z * Z :=
  let '(s, n) :=
    JSON.shortest_digits 17 (Zpos m) e
      (JSON.decimal_exponent 8 (Zpos m) e
         (JSON.exponent_estimate (Zpos m) e)) 1 in
  (s, n - Z.of_nat (String.length (show_Z s))).

(** What a [real] column gives back for the number [x] written to it,
    or the error of the statement that writes it.  NaN and the
    infinities are stored as they are; [-0] is sent as [0]. *)
Definition real (x : number) : result number :=
  match Prim2SF x with
  | S754_nan | S754_infinity _ => Ok x
  | S754_zero _ => Ok 0%float
  | S754_finite sign m e =>
      let '(s, t) := sent m e in
      match nearest 24 128 sign s t with
      | S754_finite _ m4 e4 =>
          let '(s', t') := float4out sign m4 e4 in
          Ok (SF2Prim (nearest 53 1024 sign s' t'))
      | _ =>
          Throw (JSON.quote ++ JS.nullish (JSON.numberToString x) ""
                 ++ JSON.quote ++ " is out of range for type real")%string
      end
  end.

(** What a [jsonb] column gives back for an array of numbers written to
    it: [JSON.stringify] writes a number that is not finite as [null]
    and both zeros as [0]; any other number is written with the digits
    that read back as it. *)
Definition jsonb (xs : list number) : list (option number) :=
  map (fun x =>
         match Prim2SF x with
         | S754_nan | S754_infinity _ => None
         | S754_zero _ => Some 0%float
         | S754_finite _ _ _ => Some x
         end)
    xs.

End Postgres.

(** ** shared/schema.ts: the two tables of prediction.ts *)

(** A row of [model_snapshots], as a query returns it.  A nullable
    column is an [option]; a timestamp is a time value in milliseconds
    since the epoch; a [jsonb] column written from an array of numbers
    is an array of numbers and [null]s. *)
Module ModelSnapshot.
Record t := {
  id : string;
  datasetId : string;
  modelId : option string;
  featureVector : list (option JS.number);
  coefficientsUsed : list (option JS.number);
  predictedValue : JS.number;
  predictedTier : option string;
  confidence : option JS.number;
  hashSignature : string;
  uploadConfirmed : option bool;
  uploadConfirmedAt : option Z;
  performanceTrackingStarted : option bool;
  sourceId : option string;
  sourceType : option string;
  isLocked : option bool;
  createdAt : option Z
}.
End ModelSnapshot.

(** A row of [prediction_logs]. *)
Module PredictionLog.
Record t := {
  id : string;
  snapshotId : option string;
  datasetId : string;
  modelId : string;
  predictedValue : JS.number;
  predictedTier : option string;
  actualValue : option JS.number;
  actualTier : option string;
  error : option JS.number;
  absoluteError : option JS.number;
  directionallyCorrect : option bool;
  tierCorrect : option bool;
  validatedAt : option Z;
  createdAt : option Z
}.
End PredictionLog.

(** ** prediction.ts *)

Module Prediction.
Import JS.

Record Database := {
  modelSnapshots : list ModelSnapshot.t;
  predictionLogs : list PredictionLog.t
}.

(** What a call reads from its surroundings: the clock of the node
    process ([new Date()]); for the row it inserts, the two column
    defaults the database evaluates ([gen_random_uuid()] and [now()]);
    and, for a number it writes to a [real] column, the number that the
    column gives back, or the error with which the database refuses the
    statement ([Postgres.real] for the database described above). *)
Record Environment := {
  clock : Z;
  gen_random_uuid : string;
  now : Z;
  real : number -> result number
}.

(** [x || null] on an optional string. *)
Definition truthy (x : option string) : option string :=
  match x with
  | Some s => if String.eqb s "" then None else Some s
  | None => None
  end.

(** The object handed to [JSON.stringify] for the signature. *)
Definition signedPayload (featureVector coefficients : list number)
  (predictedValue : number) (timestamp : string) : JSON.value :=
  JSON.Object
    [("featureVector"%string, JSON.Array (map JSON.Number featureVector));
     ("coefficients"%string, JSON.Array (map JSON.Number coefficients));
     ("predictedValue"%string, JSON.Number predictedValue);
     ("timestamp"%string, JSON.Text timestamp)].

Definition createPredictionSnapshot (env : Environment) (db : Database)
  (datasetId modelId : string) (featureVector coefficients : list number)
  (predictedValue : number) (predictedTier : string) (confidence : number)
  (sourceId sourceType : option string)
  : result (Database * ModelSnapshot.t) :=
  let timestamp := JSON.toISOString (clock env) in
  let hashSignature :=
    Sha256.hex
      (JSON.stringify
         (signedPayload featureVector coefficients predictedValue timestamp))
  in
  storedValue <- real env predictedValue ;;
  storedConfidence <- real env confidence ;;
  let snapshot :=
    {| ModelSnapshot.id := gen_random_uuid env;
       ModelSnapshot.datasetId := datasetId;
       ModelSnapshot.modelId := Some modelId;
       ModelSnapshot.featureVector := Postgres.jsonb featureVector;
       ModelSnapshot.coefficientsUsed := Postgres.jsonb coefficients;
       ModelSnapshot.predictedValue := storedValue;
       ModelSnapshot.predictedTier := Some predictedTier;
       ModelSnapshot.confidence := Some storedConfidence;
       ModelSnapshot.hashSignature := hashSignature;
       ModelSnapshot.uploadConfirmed := Some false;
       ModelSnapshot.uploadConfirmedAt := None;
       ModelSnapshot.performanceTrackingStarted := Some false;
       ModelSnapshot.sourceId := truthy sourceId;
       ModelSnapshot.sourceType := truthy sourceType;
       ModelSnapshot.isLocked := Some true;
       ModelSnapshot.createdAt := Some (now env) |} in
  Ok ({| modelSnapshots := modelSnapshots db ++ [snapshot];
         predictionLogs := predictionLogs db |},
      snapshot).

Definition confirmed (env : Environment) (s : ModelSnapshot.t)
  : ModelSnapshot.t :=
  {| ModelSnapshot.id := ModelSnapshot.id s;
     ModelSnapshot.datasetId := ModelSnapshot.datasetId s;
     ModelSnapshot.modelId := ModelSnapshot.modelId s;
     ModelSnapshot.featureVector := ModelSnapshot.featureVector s;
     ModelSnapshot.coefficientsUsed := ModelSnapshot.coefficientsUsed s;
     ModelSnapshot.predictedValue := ModelSnapshot.predictedValue s;
     ModelSnapshot.predictedTier := ModelSnapshot.predictedTier s;
     ModelSnapshot.confidence := ModelSnapshot.confidence s;
     ModelSnapshot.hashSignature := ModelSnapshot.hashSignature s;
     ModelSnapshot.uploadConfirmed := Some true;
     ModelSnapshot.uploadConfirmedAt := Some (clock env);
     ModelSnapshot.performanceTrackingStarted := Some true;
     ModelSnapshot.sourceId := ModelSnapshot.sourceId s;
     ModelSnapshot.sourceType := ModelSnapshot.sourceType s;
     ModelSnapshot.isLocked := ModelSnapshot.isLocked s;
     ModelSnapshot.createdAt := ModelSnapshot.createdAt s |}.

Definition has_id (snapshotId : string) (s : ModelSnapshot.t) : bool :=
  String.eqb (ModelSnapshot.id s) snapshotId.

(** The updated row, or [None] when the [returning()] list is empty. *)
Definition confirmUpload (env : Environment) (db : Database)
  (snapshotId : string) : Database * option ModelSnapshot.t :=
  let rows :=
    map (fun s => if has_id snapshotId s then confirmed env s else s)
      (modelSnapshots db) in
  ({| modelSnapshots := rows; predictionLogs := predictionLogs db |},
   find (has_id snapshotId) rows).

(** What [validatePrediction] returns: the row of the log as the
    database returns it, beside the values the function computed. *)
Record Validation := {
  log : PredictionLog.t;
  predicted : number;
  actualValue : number;
  error : number;
  absoluteError : number;
  directionallyCorrect : bool;
  tierCorrect : bool;
  actualTier : string
}.

Definition validatePrediction (env : Environment) (db : Database)
  (snapshotId : string) (actualValue : number)
  : result (Database * Validation) :=
  match find (has_id snapshotId) (modelSnapshots db) with
  | None => Throw "Snapshot not found"
  | Some snapshot =>
      let predicted := ModelSnapshot.predictedValue snapshot in
      let error := predicted - actualValue in
      let absoluteError := abs error in
      let directionallyCorrect :=
        ((0.5 <=? predicted) && (0.5 <=? actualValue))
        || ((predicted <? 0.5) && (actualValue <? 0.5)) in
      let actualTier := ModelTraining.classifyTier actualValue in
      let tierCorrect :=
        String.eqb
          (nullish (truthy (ModelSnapshot.predictedTier snapshot))
             (ModelTraining.classifyTier predicted))
          actualTier in
      storedPredicted <- real env predicted ;;
      storedActual <- real env actualValue ;;
      storedError <- real env error ;;
      storedAbsoluteError <- real env absoluteError ;;
      let log :=
        {| PredictionLog.id := gen_random_uuid env;
           PredictionLog.snapshotId := Some snapshotId;
           PredictionLog.datasetId := ModelSnapshot.datasetId snapshot;
           PredictionLog.modelId :=
             nullish (truthy (ModelSnapshot.modelId snapshot)) ""%string;
           PredictionLog.predictedValue := storedPredicted;
           PredictionLog.predictedTier :=
             ModelSnapshot.predictedTier snapshot;
           PredictionLog.actualValue := Some storedActual;
           PredictionLog.actualTier := Some actualTier;
           PredictionLog.error := Some storedError;
           PredictionLog.absoluteError := Some storedAbsoluteError;
           PredictionLog.directionallyCorrect := Some directionallyCorrect;
           PredictionLog.tierCorrect := Some tierCorrect;
           PredictionLog.validatedAt := Some (clock env);
           PredictionLog.createdAt := Some (now env) |} in
      Ok ({| modelSnapshots := modelSnapshots db;
             predictionLogs := predictionLogs db ++ [log] |},
          {| log := log;
             predicted := predicted;
             actualValue := actualValue;
             error := error;
             absoluteError := absoluteError;
             directionallyCorrect := directionallyCorrect;
             tierCorrect := tierCorrect;
             actualTier := actualTier |})
  end.

Record RollingAccuracy := {
  directionalAccuracy : number;
  tierAccuracy : number;
  meanAbsoluteError : number;
  sampleCount : nat
}.

(** The rows of the query of [getRollingAccuracy]: the logs of the
    dataset, latest [createdAt] first with the rows without one ahead of
    them (the order of [desc] in PostgreSQL), and at most [windowSize] of
    them.  The database leaves the order of rows created at the same
    time open; here they keep the order in which they were inserted. *)
Definition createdBefore (a b : PredictionLog.t) : bool :=
  match PredictionLog.createdAt a, PredictionLog.createdAt b with
  | Some ta, Some tb => (ta <? tb)%Z
  | Some _, None => true
  | None, _ => false
  end.

Definition recentLogs (db : Database) (datasetId : string) (windowSize : nat)
  : list PredictionLog.t :=
  firstn windowSize
    (sort createdBefore
       (filter (fun l => String.eqb (PredictionLog.datasetId l) datasetId)
          (predictionLogs db))).

Definition emptyAccuracy : RollingAccuracy :=
  {| directionalAccuracy := 0;
     tierAccuracy := 0;
     meanAbsoluteError := 0;
     sampleCount := 0 |}.

(** The body of [getRollingAccuracy] on the rows of its query. *)
Definition accuracyOf (logs : list PredictionLog.t) : RollingAccuracy :=
  match logs with
  | [] => emptyAccuracy
  | _ =>
      let validatedLogs :=
        filter (fun l => match PredictionLog.actualValue l with
                         | Some _ => true
                         | None => false
                         end) logs in
      match validatedLogs with
      | [] => emptyAccuracy
      | _ =>
          let '(directionalCount, tierCount, totalAbsError) :=
            fold_left
              (fun counts l =>
                 let '(directionalCount, tierCount, totalAbsError) := counts in
                 ((if nullish (PredictionLog.directionallyCorrect l) false
                   then S directionalCount else directionalCount),
                  (if nullish (PredictionLog.tierCorrect l) false
                   then S tierCount else tierCount),
                  totalAbsError + nullish (PredictionLog.absoluteError l) 0))
              validatedLogs (0%nat, 0%nat, 0) in
          let size := of_nat (List.length validatedLogs) in
          {| directionalAccuracy := of_nat directionalCount / size;
             tierAccuracy := of_nat tierCount / size;
             meanAbsoluteError := totalAbsError / size;
             sampleCount := List.length validatedLogs |}
      end
  end.

Definition getRollingAccuracy (db : Database) (datasetId : string)
  (windowSize : nat) : RollingAccuracy :=
  accuracyOf (recentLogs db datasetId windowSize).

Definition defaultAccuracyWindow : nat := 20.

(** The exported operations that write to the database;
    [getRollingAccuracy], the fourth export, only reads. *)
Inductive Operation :=
| Create (datasetId modelId : string)
    (featureVector coefficients : list number) (predictedValue : number)
    (predictedTier : string) (confidence : number)
    (sourceId sourceType : option string)
| Confirm (snapshotId : string)
| Validate (snapshotId : string) (actualValue : number)
| GetRollingAccuracy (datasetId : string) (windowSize : Z).

(** The database after one call; a call that throws leaves it as it
    was. *)
Definition step (db : Database) (call : Environment * Operation) : Database :=
  let '(env, operation) := call in
  match operation with
  | Create datasetId modelId featureVector coefficients predictedValue
      predictedTier confidence sourceId sourceType =>
      match
        createPredictionSnapshot env db datasetId modelId featureVector
          coefficients predictedValue predictedTier confidence sourceId
          sourceType
      with
      | Ok (db', _) => db'
      | Throw _ => db
      end
  | Confirm snapshotId => fst (confirmUpload env db snapshotId)
  | Validate snapshotId actualValue =>
      match validatePrediction env db snapshotId actualValue with
      | Ok (db', _) => db'
      | Throw _ => db
      end
  | GetRollingAccuracy _ _ => db
  end.

Definition run (db : Database) (calls : list (Environment * Operation))
  : Database :=
  fold_left step calls db.

End Prediction.

(** * The vocabulary of the properties

    The predicates, the reference computations that follow the wording
    of the specification, and the sample inputs of the statements
    below. *)

(** [lo <= v <= hi], in the order of the numbers: false when [v] is
    NaN. *)
Definition within (lo hi v : float) : Prop :=
  (lo <=? v) = true /\ (v <=? hi) = true.

(** The four stage names that [adjustEpsilon] distinguishes. *)
Definition known_stage (s : string) : bool :=
  String.eqb s "search_growth" || String.eqb s "buyer_interest"
  || String.eqb s "early_noise" || String.eqb s "media_amplification".

(** The integer quotient of [4 * n] by 5, the exact value of
    [floor(n * 4 / 5)]; the properties below relate it to the index
    [Math.floor(n * 0.8)] that [splitData] computes on binary64
    numbers. *)
Definition splitIndex (n : nat) : nat := Z.to_nat (4 * Z.of_nat n / 5).

(** A number that is NaN or at least 0.25: on the specification of
    the binary64 numbers, where 0.25 is [2^52 * 2^-54], and on the
    numbers themselves. *)
Definition bigSF (x : spec_float) : Prop :=
  match x with
  | S754_nan => True
  | S754_infinity s => s = false
  | S754_finite s m e => s = false /\ (-54 <= e)%Z
  | S754_zero _ => False
  end.

Definition big (x : float) : Prop := bigSF (Prim2SF x).

(** The zeroed result, whatever its sample counts: no coefficients, no
    feature names, and an intercept and four metrics that are 0 as
    JavaScript compares numbers. *)
Definition zeroed (r : ModelTraining.TrainResult) : Prop :=
  ModelTraining.coefficients r = []
  /\ ModelTraining.featureNames r = []
  /\ (ModelTraining.intercept r =? 0) = true
  /\ (ModelTraining.rSquared r =? 0) = true
  /\ (ModelTraining.mae r =? 0) = true
  /\ (ModelTraining.tierAccuracy r =? 0) = true
  /\ (ModelTraining.directionalAccuracy r =? 0) = true.

(** The held-out cases of a result: the actual value of each test record
    beside the value the model of the result predicts for it. *)
Definition testCases (r : ModelTraining.TrainResult)
  (test : list ModelTraining.DatasetRecord) : list (float * float) :=
  map (fun record =>
         (ModelTraining.targetValue record,
          ModelTraining.predict (ModelTraining.coefficients r)
            (ModelTraining.intercept r)
            (map (ModelTraining.featureValue record)
               (ModelTraining.featureNames r))))
    test.

(** Two and five training records, the latter out of chronological
    order. *)
Definition two_records : list ModelTraining.DatasetRecord :=
  [ {| ModelTraining.normalizedFeatures := [("pace"%string, 0.5)];
       ModelTraining.targetValue := 0.4;
       ModelTraining.createdAt := Some 1000%Z |};
    {| ModelTraining.normalizedFeatures := [("pace"%string, 0.25)];
       ModelTraining.targetValue := 0.6;
       ModelTraining.createdAt := None |} ].

Definition five_records : list ModelTraining.DatasetRecord :=
  map (fun t =>
         {| ModelTraining.normalizedFeatures := [("pace"%string, 0.5)];
            ModelTraining.targetValue := 0.4;
            ModelTraining.createdAt := Some t |})
    [5; 3; 1; 4; 2]%Z.

(** A feature is degenerate when it has no statistics or when its
    statistics satisfy [max === min]. *)
Definition degenerate (stats : JS.Record FeatureEngineering.FeatureStats)
  (key : string) : bool :=
  match JS.get stats key with
  | None => true
  | Some s => FeatureEngineering.max s =? FeatureEngineering.min s
  end.

(** What a clamp to [0,1] can return. *)
Definition unit_or_nan (v : float) : Prop :=
  is_nan v = true \/ within 0 1 v.

(** The quotient that [normalizeFeatures] clamps. *)
Definition normalizedQuotient (s : FeatureEngineering.FeatureStats)
  (value : float) : float :=
  (value - FeatureEngineering.min s)
  / (FeatureEngineering.max s - FeatureEngineering.min s).

(** A normalized value [v] of the feature [key] is explained when it
    lies in [0,1], or is NaN because the quotient of an entry of [all]
    for this feature is NaN. *)
Definition explained (all : JS.Record float)
  (stats : JS.Record FeatureEngineering.FeatureStats) (key : string)
  (v : float) : Prop :=
  within 0 1 v
  \/ (is_nan v = true
      /\ exists value s,
           In (key, value) all
           /\ JS.get stats key = Some s
           /\ degenerate stats key = false
           /\ is_nan (normalizedQuotient s value) = true).

(** The standard deviation as the function computes it for one series:
    the square root of the mean squared deviation from the computed
    mean. *)
Definition computedStdDev (xs : list float) : float :=
  let n := JS.of_nat (List.length xs) in
  let mean := JS.sum xs / n in
  sqrt (fold_left (fun acc v => acc + (v - mean) * (v - mean)) xs 0 / n).

(** The score of a layer, 0 when the layer is absent. *)
Definition layerScore (layerSignals : JS.Record float) (layer : string)
  : float :=
  JS.nullish (JS.get layerSignals layer) 0.

(** The layers the code counts: those with a score above 0. *)
Definition positiveLayers (layerSignals : JS.Record float) : nat :=
  List.length (filter (fun v => 0 <? v) (JS.values layerSignals)).

(** The layers the specification counts: those with a non-zero score. *)
Definition nonZeroLayers (layerSignals : JS.Record float) : nat :=
  List.length (filter (fun v => negb (v =? 0)) (JS.values layerSignals)).

(** The confidence as the specification words it. *)
Definition confidenceFromNonZeroLayers (layerSignals : JS.Record float)
  : float :=
  JS.Math_min 1 ((JS.of_nat (nonZeroLayers layerSignals) / 4) * 0.8 + 0.2).

(** The [k] most recent entries of a list. *)
Definition mostRecent {A} (k : nat) (l : list A) : list A :=
  skipn (List.length l - k) l.

(** The entries before the [k] most recent ones. *)
Definition earlierThan {A} (k : nat) (l : list A) : list A :=
  firstn (List.length l - k) l.

(** The mean as the functions compute it: the left-to-right sum
    divided by the length. *)
Definition computedMean (xs : list float) : float :=
  JS.sum xs / JS.of_nat (List.length xs).

(** The engagement-drop deviation of the claim. *)
Definition engagementDeviation (actuals : list float) : float :=
  (computedMean (earlierThan 5 actuals) - computedMean (mostRecent 5 actuals))
  / computedStdDev (earlierThan 5 actuals).

(** The entries of a log list that have a validated actual value, each
    as the pair of its predicted and its actual value. *)
Fixpoint validatedPairs (entries : list DriftDetection.PredictionLog)
  : list (float * float) :=
  match entries with
  | [] => []
  | entry :: rest =>
      match DriftDetection.actualValue entry with
      | Some actual =>
          (DriftDetection.predictedValue entry, actual) :: validatedPairs rest
      | None => validatedPairs rest
      end
  end.

(** predicted > actual. *)
Definition overestimated (pair : float * float) : bool :=
  let '(predicted, actual) := pair in actual <? predicted.

(** The fraction of the pairs with predicted > actual. *)
Definition overestimationFraction (pairs : list (float * float)) : float :=
  JS.of_nat (List.length (filter overestimated pairs))
  / JS.of_nat (List.length pairs).

(** The rules of the claim, in their order, on the validated entries
    they are evaluated over. *)
Definition driftRules (pairs : list (float * float))
  : DriftDetection.Severity * DriftDetection.Recommendation :=
  let actuals := map snd pairs in
  let validated := negb (List.length pairs =? 0)%nat in
  if validated && (0.8 <? overestimationFraction pairs)
  then (DriftDetection.severe, DriftDetection.retrain)
  else if validated && (0.6 <? overestimationFraction pairs)
  then (DriftDetection.moderate, DriftDetection.reduce_confidence)
  else if (2 <=? List.length (earlierThan 5 actuals))%nat
          && negb (computedStdDev (earlierThan 5 actuals) =? 0)
  then
    if 3 <? engagementDeviation actuals
    then (DriftDetection.severe, DriftDetection.increase_exploration)
    else if 2 <? engagementDeviation actuals
    then (DriftDetection.moderate, DriftDetection.increase_exploration)
    else (DriftDetection.sev_none, DriftDetection.rec_none)
  else (DriftDetection.sev_none, DriftDetection.rec_none).

(** [detectDrift] as the claim words it: the rules over the most recent
    [windowSize] entries that have a validated actual value. *)
Definition claimedVerdict (predictions : list DriftDetection.PredictionLog)
  (windowSize : Z)
  : DriftDetection.Severity * DriftDetection.Recommendation :=
  driftRules (mostRecent (Z.to_nat windowSize) (validatedPairs predictions)).

(** The window of [predictions.slice(-windowSize)]: the last
    [windowSize] entries of the list, validated or not; the whole list
    when [windowSize] is 0; the list without its first [- windowSize]
    entries when [windowSize] is negative. *)
Definition lastEntries {A} (windowSize : Z) (l : list A) : list A :=
  if (0 <? windowSize)%Z then mostRecent (Z.to_nat windowSize) l
  else skipn (Z.to_nat (- windowSize)) l.

(** [detectDrift] as the amended claim words it: the rules over those
    of the last [windowSize] entries that have a validated actual
    value. *)
Definition driftVerdict (predictions : list DriftDetection.PredictionLog)
  (windowSize : Z)
  : DriftDetection.Severity * DriftDetection.Recommendation :=
  driftRules (validatedPairs (lastEntries windowSize predictions)).

(** Drift is reported exactly with a severity other than none. *)
Definition detected (severity : DriftDetection.Severity) : bool :=
  match severity with
  | DriftDetection.sev_none => false
  | _ => true
  end.

(** The two fields of a status the claim speaks of. *)
Definition verdict (status : DriftDetection.DriftStatus)
  : DriftDetection.Severity * DriftDetection.Recommendation :=
  (DriftDetection.severity status, DriftDetection.recommendation status).

(** Ten validated predictions, nine of which exceed the actual
    value. *)
Definition ten_predictions : list DriftDetection.PredictionLog :=
  {| DriftDetection.predictedValue := 0.2;
     DriftDetection.actualValue := Some 0.5 |}
  :: repeat {| DriftDetection.predictedValue := 0.9;
               DriftDetection.actualValue := Some 0.5 |} 9.

(** The same ten, followed by ten predictions that are not validated
    yet. *)
Definition twenty_predictions : list DriftDetection.PredictionLog :=
  ten_predictions
  ++ repeat {| DriftDetection.predictedValue := 0.9;
               DriftDetection.actualValue := None |} 10.

(** Both values on the same side of 0.5, which itself counts as the
    upper side. *)
Definition sameSideOfHalf (predicted actual : float) : bool :=
  ((0.5 <=? predicted) && (0.5 <=? actual))
  || ((predicted <? 0.5) && (actual <? 0.5)).

(** The tier a snapshot is judged by: the stored one, or the tier of
    the predicted value when none (or the empty string) is stored. *)
Definition effectiveTier (snapshot : ModelSnapshot.t) : string :=
  JS.nullish (Prediction.truthy (ModelSnapshot.predictedTier snapshot))
    (ModelTraining.classifyTier (ModelSnapshot.predictedValue snapshot)).

(** The [real] column [column] holds the number [x] as the database
    stores it. *)
Definition stored (env : Prediction.Environment) (x : float)
  (column : option float) : Prop :=
  exists r, Prediction.real env x = JS.Ok r /\ column = Some r.

(** The two tables without rows. *)
Definition emptyDatabase : Prediction.Database :=
  {| Prediction.modelSnapshots := []; Prediction.predictionLogs := [] |}.

(** Surroundings in which the process and the database read the same
    time, the database being the PostgreSQL described above. *)
Definition environment (clock : Z) (uuid : string) : Prediction.Environment :=
  {| Prediction.clock := clock;
     Prediction.gen_random_uuid := uuid;
     Prediction.now := clock;
     Prediction.real := Postgres.real |}.

(** A snapshot that was created without a tier, as the database holds
    it. *)
Definition storedSnapshot : ModelSnapshot.t :=
  {| ModelSnapshot.id := "snapshot-1";
     ModelSnapshot.datasetId := "videos";
     ModelSnapshot.modelId := Some "model-1"%string;
     ModelSnapshot.featureVector := [Some 0.5];
     ModelSnapshot.coefficientsUsed := [Some 0.6];
     ModelSnapshot.predictedValue := 0.75;
     ModelSnapshot.predictedTier := Some ""%string;
     ModelSnapshot.confidence := Some 0.875;
     ModelSnapshot.hashSignature :=
       Sha256.hex
         (JSON.stringify
            (Prediction.signedPayload [0.5] [0.6] 0.75
               (JSON.toISOString 1700000000000)));
     ModelSnapshot.uploadConfirmed := Some false;
     ModelSnapshot.uploadConfirmedAt := None;
     ModelSnapshot.performanceTrackingStarted := Some false;
     ModelSnapshot.sourceId := None;
     ModelSnapshot.sourceType := None;
     ModelSnapshot.isLocked := Some true;
     ModelSnapshot.createdAt := Some 1700000000000%Z |}.

(** The database after the call that created that snapshot. *)
Definition untieredDatabase : Prediction.Database :=
  {| Prediction.modelSnapshots := [storedSnapshot];
     Prediction.predictionLogs := [] |}.

(** The prediction after moving the feature called [name] by [delta]
    (clamped to [0,1]), the vector being built in the order of
    [featureNames], as [optimizeFeatures] builds it for the current
    prediction. *)
Definition perturbedPrediction (currentFeatures : JS.Record float)
  (coefficients : list float) (intercept : float)
  (featureNames : list string) (name : string) (delta : float) : float :=
  ModelTraining.predict coefficients intercept
    (map (fun n =>
            let value := JS.nullish (JS.get currentFeatures n) 0 in
            if String.eqb n name
            then JS.Math_max 0 (JS.Math_min 1 (value + delta))
            else value)
       featureNames).

(** The name, the suggested value and the predicted gain of each
    suggestion, in the order of the result. *)
Definition summary (r : Optimization.OptimizationResult)
  : list (string * float * float) :=
  map (fun s => (Optimization.featureName s, Optimization.suggestedValue s,
                 Optimization.predictedGain s))
    (Optimization.suggestions r).

(** Every column of a snapshot row except the three that
    [confirmUpload] writes. *)
Definition lockedFields (s : ModelSnapshot.t) :=
  (ModelSnapshot.id s, ModelSnapshot.datasetId s, ModelSnapshot.modelId s,
   ModelSnapshot.featureVector s, ModelSnapshot.coefficientsUsed s,
   ModelSnapshot.predictedValue s, ModelSnapshot.predictedTier s,
   ModelSnapshot.confidence s, ModelSnapshot.hashSignature s,
   ModelSnapshot.sourceId s, ModelSnapshot.sourceType s,
   ModelSnapshot.isLocked s, ModelSnapshot.createdAt s).

(** Every column of a snapshot row except the signature. *)
Definition unsignedFields (s : ModelSnapshot.t) :=
  (ModelSnapshot.id s, ModelSnapshot.datasetId s, ModelSnapshot.modelId s,
   ModelSnapshot.featureVector s, ModelSnapshot.coefficientsUsed s,
   ModelSnapshot.predictedValue s, ModelSnapshot.predictedTier s,
   ModelSnapshot.confidence s, ModelSnapshot.uploadConfirmed s,
   ModelSnapshot.uploadConfirmedAt s,
   ModelSnapshot.performanceTrackingStarted s, ModelSnapshot.sourceId s,
   ModelSnapshot.sourceType s, ModelSnapshot.isLocked s,
   ModelSnapshot.createdAt s).

(** A [jsonb] array of numbers as a JSON value. *)
Definition storedArray (items : list (option float)) : JSON.value :=
  JSON.Array
    (map (fun item => match item with
                      | Some x => JSON.Number x
                      | None => JSON.Null
                      end)
       items).

(** The hash recomputed from a stored row, with the one time the row
    holds, [createdAt], as the timestamp. *)
Definition recomputedSignature (s : ModelSnapshot.t) : string :=
  Sha256.hex
    (JSON.stringify
       (JSON.Object
          [("featureVector"%string,
            storedArray (ModelSnapshot.featureVector s));
           ("coefficients"%string,
            storedArray (ModelSnapshot.coefficientsUsed s));
           ("predictedValue"%string,
            JSON.Number (ModelSnapshot.predictedValue s));
           ("timestamp"%string,
            JSON.Text
              (JSON.toISOString
                 (JS.nullish (ModelSnapshot.createdAt s) 0%Z)))])).

(** One prediction, snapshotted when the clock of the process reads
    [clock] and the database stamps the row at [now]. *)
Definition sampleSnapshot (clock now : Z)
  : JS.result (Prediction.Database * ModelSnapshot.t) :=
  Prediction.createPredictionSnapshot
    {| Prediction.clock := clock;
       Prediction.gen_random_uuid := "snapshot-1";
       Prediction.now := now;
       Prediction.real := Postgres.real |}
    emptyDatabase "videos" "model-1" [0.5; 1] [0.25; 0.5] 0.75 "top"
    0.875 None None.

(** ** The vocabulary of the further properties *)

(** A record no later than another. *)
Definition chronological (a b : ModelTraining.DatasetRecord) : Prop :=
  (ModelTraining.time_of a <= ModelTraining.time_of b)%Z.

(** A matrix of [rows] rows of [cols] entries each. *)
Definition shaped (rows cols : nat) (a : ModelTraining.Matrix) : Prop :=
  List.length a = rows /\ Forall (fun row => List.length row = cols) a.

(** The feature vector [predict] effectively reads: as many entries as
    there are coefficients, the missing ones being 0. *)
Definition alignedVector (n : nat) (featureVector : list float) : list float :=
  firstn n featureVector ++ repeat 0 (n - List.length featureVector).

(** The tiers from the lowest to the highest. *)
Definition tierRank (tier : string) : nat :=
  if String.eqb tier "low" then 0
  else if String.eqb tier "mid" then 1
  else 2.

(** The message of the error of [simulateDelta]. *)
Definition invalidFeatureIndex (i : nat) : string :=
  ("Invalid feature index: " ++ JS.show_nat i)%string.

(** What [optimizeFeatures] promises of a suggestion: it is about one of
    the feature names, starts from the value the feature has (0 when it
    is absent), has a positive predicted gain, and suggests the value
    one step up or one step down, clamped to [0,1]. *)
Definition sound (currentFeatures : JS.Record float) (stepSize : float)
  (featureNames : list string) (s : Optimization.OptimizationSuggestion)
  : Prop :=
  In (Optimization.featureName s) featureNames
  /\ Optimization.currentValue s
     = JS.nullish (JS.get currentFeatures (Optimization.featureName s)) 0
  /\ (0 <? Optimization.predictedGain s) = true
  /\ (Optimization.suggestedValue s
      = JS.Math_max 0 (JS.Math_min 1 (Optimization.currentValue s + stepSize))
      \/ Optimization.suggestedValue s
         = JS.Math_max 0
             (JS.Math_min 1 (Optimization.currentValue s - stepSize)))
  /\ unit_or_nan (Optimization.suggestedValue s)
  /\ Optimization.delta s
     = Optimization.suggestedValue s - Optimization.currentValue s.

(** No stored snapshot has this id. *)
Definition fresh (db : Prediction.Database) (snapshotId : string) : Prop :=
  forall s, In s (Prediction.modelSnapshots db) ->
            ModelSnapshot.id s <> snapshotId.

(** The three columns that [confirmUpload] writes. *)
Definition uploadFlags (s : ModelSnapshot.t) :=
  (ModelSnapshot.uploadConfirmed s, ModelSnapshot.uploadConfirmedAt s,
   ModelSnapshot.performanceTrackingStarted s).

(** Equal as JavaScript numbers: [===], or both NaN. *)
Definition sameNumber (a b : float) : Prop :=
  (a =? b) = true \/ (is_nan a = true /\ is_nan b = true).

(** A log that holds an actual value. *)
Definition validated (l : PredictionLog.t) : bool :=
  match PredictionLog.actualValue l with Some _ => true | None => false end.

(** The logs of a dataset. *)
Definition logsOf (db : Prediction.Database) (datasetId : string)
  : list PredictionLog.t :=
  filter (fun l => String.eqb (PredictionLog.datasetId l) datasetId)
    (Prediction.predictionLogs db).

(** What holds of the best lag [detectLagCorrelation] has found so far,
    and of its result. *)
Definition lagInvariant (maxLag sourceCount : nat)
  (best : CorrelationEngine.LagCorrelation) : Prop :=
  within (-1) 1 (CorrelationEngine.correlationStrength best)
  /\ (CorrelationEngine.lagDays best <= maxLag)%nat
  /\ (CorrelationEngine.sampleSize best <= sourceCount)%nat
  /\ ((CorrelationEngine.sampleSize best = 0%nat
       /\ CorrelationEngine.lagDays best = 0%nat
       /\ CorrelationEngine.correlationStrength best = 0)
      \/ ((2 <= CorrelationEngine.sampleSize best)%nat
          /\ (CorrelationEngine.correlationStrength best =? 0) = false)).

(** The result of [detectLagCorrelation] when no lag aligns two
    points. *)
Definition noCorrelation : CorrelationEngine.LagCorrelation :=
  {| CorrelationEngine.lagDays := 0;
     CorrelationEngine.correlationStrength := 0;
     CorrelationEngine.sampleSize := 0 |}.

(** The score of [checkPatternRetirement]: the mean of all the predicted
    values less the mean of the actual values on record, in standard
    deviations of the latter. *)
Definition retirementScore (predictions : list DriftDetection.PredictionLog)
  : float :=
  (computedMean (map DriftDetection.predictedValue predictions)
   - computedMean (DriftDetection.actualValues predictions))
  / computedStdDev (DriftDetection.actualValues predictions).

(** The samples of [computeEngagementVelocity]: an engagement and the
    time at which it was measured. *)
Definition samples (engagements timestamps : list float)
  : list (float * float) :=
  combine engagements timestamps.

(** The change of engagement per hour between two samples, 0 when no
    time has passed. *)
Definition velocityBetween (earliest latest : float * float) : float :=
  let hours := (snd latest - snd earliest) / DriftDetection.msPerHour in
  if hours <=? 0 then 0 else (fst latest - fst earliest) / hours.

(** One data point, and a pair of measurements taken out of order. *)
Definition onePoint : list DriftDetection.DataPoint.t :=
  [{| DriftDetection.DataPoint.value := 0.5;
      DriftDetection.DataPoint.timestamp := 1700000000000 |}].

Definition twoEngagements : list float := [10; 40].
Definition twoTimestamps : list float := [7200000; 0].

(** The bounds and the exploration rate [decideExplorationStrategy]
    works with. *)
Definition boundsOf (config : option Exploration.ExplorationConfig.t)
  : JS.Record Exploration.Bound :=
  match config with
  | Some c => Exploration.ExplorationConfig.mutationBounds c
  | None => Exploration.getDefaultMutationBounds
  end.

Definition epsilonOf (config : option Exploration.ExplorationConfig.t)
  (amiScore : option (option string)) : float :=
  Exploration.adjustEpsilon
    (match config with
     | Some c => Exploration.ExplorationConfig.epsilon c
     | None => 0.15
     end)
    (match amiScore with Some score => score | None => None end).

(** The statistics of a feature without observations. *)
Definition noStatistics : FeatureEngineering.FeatureStats :=
  {| FeatureEngineering.min := 0; FeatureEngineering.max := 0;
     FeatureEngineering.mean := 0; FeatureEngineering.stdDev := 0 |}.

(** Observations of one feature, and a record to normalize. *)
Definition paceObservations : JS.Record (list float) :=
  [("pace"%string, [0.5; 0.25; 0.75])].

Definition steadyObservations : JS.Record (list float) :=
  [("pace"%string, [0.5; 0.5; 0.5])].

Definition paceRecord : JS.Record float := [("pace"%string, 0.9)].

(** A signal without points, and a signal of one point. *)
Definition noSignal : list CorrelationEngine.Signal := [].

Definition onePointSignal : list CorrelationEngine.Signal :=
  [{| CorrelationEngine.value := 0.5;
      CorrelationEngine.timestamp := 1700000000000 |}].

(** A lowercase hexadecimal digit. *)
Definition isHexDigit (c : ascii) : bool :=
  existsb (Ascii.eqb c) (list_ascii_of_string "0123456789abcdef").

(** * Properties *)

(** ** Facts on binary64 numbers

    The primitive operations are specified by the Standard Library's
    [SpecFloat] through the axioms of [FloatAxioms]; the facts below are
    derived from that specification. *)

Lemma SFcompare_antisym (a b : spec_float) :
  SFcompare b a = option_map CompOpp (SFcompare a b).
Proof.
  destruct a as [sa|sa| |sa ma ea], b as [sb|sb| |sb mb eb]; simpl;
    try reflexivity; try (destruct sa; reflexivity);
    try (destruct sb; reflexivity);
    try (destruct sa, sb; reflexivity).
  change (Pos.compare_cont Eq ma mb) with (Pos.compare ma mb).
  change (Pos.compare_cont Eq mb ma) with (Pos.compare mb ma).
  rewrite (Z.compare_antisym ea eb), (Pos.compare_antisym ma mb).
  destruct sa, sb; simpl; try reflexivity;
    destruct (Z.compare ea eb); simpl; try reflexivity;
    destruct (Pos.compare ma mb); reflexivity.
Qed.

Lemma SFcompare_refl (a : spec_float) :
  a <> S754_nan -> SFcompare a a = Some Eq.
Proof.
  destruct a as [s|s| |s m e]; simpl; intros H; try congruence;
    try (destruct s; reflexivity).
  change (Pos.compare_cont Eq m m) with (Pos.compare m m).
  rewrite Z.compare_refl, Pos.compare_refl. destruct s; reflexivity.
Qed.

Lemma is_nan_Prim2SF (x : float) :
  is_nan x = true <-> Prim2SF x = S754_nan.
Proof.
  unfold is_nan. rewrite eqb_spec. unfold SFeqb. split.
  - intros H. destruct (Prim2SF x) as [s|s| |s m e] eqn:E; try reflexivity;
      rewrite SFcompare_refl in H by congruence; discriminate.
  - intros ->. reflexivity.
Qed.

Lemma is_nan_false_compare (a b : float) :
  is_nan a = false -> is_nan b = false ->
  exists c, SFcompare (Prim2SF a) (Prim2SF b) = Some c.
Proof.
  intros Ha Hb.
  assert (Prim2SF a <> S754_nan) as Na
    by (intros E; apply is_nan_Prim2SF in E; congruence).
  assert (Prim2SF b <> S754_nan) as Nb
    by (intros E; apply is_nan_Prim2SF in E; congruence).
  destruct (Prim2SF a) as [sa|sa| |sa ma ea], (Prim2SF b) as [sb|sb| |sb mb eb];
    simpl; try congruence; eauto.
Qed.

Lemma ltb_leb (a b : float) : (a <? b) = true -> (a <=? b) = true.
Proof.
  rewrite ltb_spec, leb_spec. unfold SFltb, SFleb.
  destruct (SFcompare (Prim2SF a) (Prim2SF b)) as [[]|]; congruence.
Qed.

Lemma not_ltb_leb (a b : float) :
  is_nan a = false -> is_nan b = false ->
  (a <? b) = false -> (b <=? a) = true.
Proof.
  intros Ha Hb. destruct (is_nan_false_compare a b Ha Hb) as [c Hc].
  rewrite ltb_spec, leb_spec. unfold SFltb, SFleb.
  rewrite (SFcompare_antisym (Prim2SF a) (Prim2SF b)), Hc.
  destruct c; simpl; congruence.
Qed.

Lemma leb_refl (a : float) : is_nan a = false -> (a <=? a) = true.
Proof.
  intros Ha. rewrite leb_spec. unfold SFleb.
  rewrite SFcompare_refl; [reflexivity|].
  intros E. apply is_nan_Prim2SF in E. congruence.
Qed.

Lemma Math_min_upper (hi q : float) :
  is_nan hi = false -> is_nan q = false ->
  is_zero hi && get_sign hi = false ->
  is_nan (JS.Math_min hi q) = false /\ (JS.Math_min hi q <=? hi) = true.
Proof.
  intros Hhi Hq Zhi. unfold JS.Math_min. rewrite Hhi, Hq, Zhi. simpl.
  destruct (hi <? q) eqn:H1.
  - split; [assumption|]. apply leb_refl; assumption.
  - assert ((q <=? hi) = true) by (apply not_ltb_leb; assumption).
    destruct (q <? hi); split; assumption.
Qed.

Lemma Math_max_lower (lo m hi : float) :
  is_nan lo = false -> is_nan m = false ->
  is_zero lo && get_sign lo = false ->
  (lo <=? hi) = true -> (m <=? hi) = true ->
  within lo hi (JS.Math_max lo m).
Proof.
  intros Hlo Hm Zlo Hle Hmh. unfold JS.Math_max, within.
  rewrite Hlo, Hm, Zlo. simpl.
  destruct (lo <? m) eqn:H1.
  - split; [apply ltb_leb|]; assumption.
  - destruct (m <? lo); split; auto using leb_refl.
Qed.

Lemma clamp_range (lo hi q : float) :
  is_nan lo = false -> is_nan hi = false -> (lo <=? hi) = true ->
  is_zero lo && get_sign lo = false ->
  is_zero hi && get_sign hi = false ->
  is_nan q = false ->
  within lo hi (JS.Math_max lo (JS.Math_min hi q)).
Proof.
  intros Hlo Hhi Hle Zlo Zhi Hq.
  destruct (Math_min_upper hi q Hhi Hq Zhi) as [Hm Hmh].
  apply Math_max_lower; assumption.
Qed.

Lemma clamp_nan (lo hi q : float) :
  is_nan q = true -> is_nan (JS.Math_max lo (JS.Math_min hi q)) = true.
Proof.
  intros Hq. unfold JS.Math_max, JS.Math_min. rewrite Hq, orb_true_r.
  change (is_nan nan) with true. rewrite orb_true_r. reflexivity.
Qed.

(** *** NaN, zero and the sign of a square root *)

Lemma Prim2SF_not_nan (x : float) :
  is_nan x = false -> Prim2SF x <> S754_nan.
Proof. intros H E. apply is_nan_Prim2SF in E. congruence. Qed.

Lemma ltb_nan_r (c d : float) : is_nan d = true -> (c <? d) = false.
Proof.
  intros Hd. apply is_nan_Prim2SF in Hd. rewrite ltb_spec, Hd.
  unfold SFltb. destruct (Prim2SF c); reflexivity.
Qed.

Lemma div_nan_r (x d : float) : is_nan d = true -> is_nan (x / d) = true.
Proof.
  intros Hd. apply is_nan_Prim2SF in Hd. apply is_nan_Prim2SF.
  rewrite div_spec, Hd. destruct (Prim2SF x); reflexivity.
Qed.

Lemma Prim2SF_zero : Prim2SF 0 = S754_zero false.
Proof. vm_compute. reflexivity. Qed.

(** A square root is NaN, a zero, or positive. *)
Lemma sqrt_sign (v : float) :
  is_nan (sqrt v) = true
  \/ ((sqrt v =? 0) = true /\ (0 <? sqrt v) = false)
  \/ ((sqrt v =? 0) = false /\ (0 <? sqrt v) = true).
Proof.
  destruct (is_nan (sqrt v)) eqn:Hnan; [left; reflexivity|right].
  apply Prim2SF_not_nan in Hnan.
  rewrite eqb_spec, ltb_spec, Prim2SF_zero in *.
  rewrite sqrt_spec in *. unfold SF64sqrt, SFsqrt in *.
  destruct (Prim2SF v) as [s|[|]| |[|] m e]; try congruence;
    try (left; split; reflexivity); try (right; split; reflexivity).
  destruct (SFsqrt_core_binary prec emax (Zpos m) e) as [[mz ez] lz].
  unfold binary_round_aux in *.
  destruct (shr_fexp prec emax mz ez lz) as [mrs' e'].
  destruct (shr_fexp prec emax _ e' loc_Exact) as [mrs'' e''].
  destruct (shr_m mrs'') as [|p|p]; try congruence.
  - left. split; reflexivity.
  - destruct (Z.leb e'' (emax - prec)); right; split; reflexivity.
Qed.

Lemma SFltb_smaller_mantissa (a b : positive) (e0 : Z) (x : spec_float) :
  (b <= a)%positive ->
  SFltb (S754_finite false a e0) x = true ->
  SFltb (S754_finite false b e0) x = true.
Proof.
  intros Hba. unfold SFltb, SFcompare.
  destruct x as [s|[|]| |[|] m e]; intros H; try exact H.
  change (Pos.compare_cont Eq a m) with (Pos.compare a m) in H.
  change (Pos.compare_cont Eq b m) with (Pos.compare b m).
  destruct (Z.compare e0 e); [|reflexivity|exact H].
  destruct (Pos.compare_spec a m) as [E|E|E]; try discriminate H.
  destruct (Pos.compare_spec b m) as [F|F|F]; try reflexivity; lia.
Qed.

Lemma three_lt_two_lt (d : float) : (3 <? d) = true -> (2 <? d) = true.
Proof.
  rewrite !ltb_spec.
  replace (Prim2SF 3) with (S754_finite false 6755399441055744 (-51))
    by (vm_compute; reflexivity).
  replace (Prim2SF 2) with (S754_finite false 4503599627370496 (-51))
    by (vm_compute; reflexivity).
  apply SFltb_smaller_mantissa. vm_compute. discriminate.
Qed.

(** *** Rounding of a product and of an integer *)

Local Open Scope Z_scope.

Lemma digits2_pos_size (p : positive) : digits2_pos p = Pos.size p.
Proof. induction p; simpl; congruence. Qed.

Lemma digits2_bounds (p : positive) :
  2 ^ (Zpos (digits2_pos p) - 1) <= Zpos p < 2 ^ Zpos (digits2_pos p).
Proof.
  rewrite digits2_pos_size.
  pose proof (Pos.size_gt p) as Hgt. pose proof (Pos.size_le p) as Hle.
  split.
  - assert (2 ^ Zpos (Pos.size p) <= 2 * Zpos p) as H.
    { change (2 * Zpos p) with (Zpos (p~0)). rewrite <- Pos2Z.inj_pow. 
      apply Pos2Z.pos_le_pos. exact Hle. }
    replace (Zpos (Pos.size p)) with (Z.succ (Zpos (Pos.size p) - 1)) in H by lia.
    rewrite Z.pow_succ_r in H by lia. lia.
  - rewrite <- Pos2Z.inj_pow. apply Pos2Z.pos_lt_pos. exact Hgt.
Qed.

Lemma iter_pos_nat {A} (f : A -> A) (p : positive) (x : A) :
  iter_pos f p x = Nat.iter (Pos.to_nat p) f x.
Proof.
  revert x. induction p as [p IH|p IH|]; intros x; cbn [iter_pos].
  - rewrite !IH, Pos2Nat.inj_xI.
    replace (S (2 * Pos.to_nat p))%nat
      with (Pos.to_nat p + S (Pos.to_nat p))%nat by lia.
    rewrite Nat.iter_add, Nat.iter_succ_r. reflexivity.
  - rewrite !IH, Pos2Nat.inj_xO.
    replace (2 * Pos.to_nat p)%nat
      with (Pos.to_nat p + Pos.to_nat p)%nat by lia.
    rewrite Nat.iter_add. reflexivity.
  - reflexivity.
Qed.

Lemma shr_1_m (mrs : shr_record) :
  0 <= shr_m mrs -> shr_m (shr_1 mrs) = shr_m mrs / 2.
Proof.
  destruct mrs as [m r s]. simpl. intros Hm.
  destruct m as [|[p|p|]|p]; simpl; try lia; try reflexivity.
  - rewrite Pos2Z.inj_xI. apply Z.div_unique with 1; lia.
  - rewrite Pos2Z.inj_xO. apply Z.div_unique with 0; lia.
Qed.

Lemma iter_shr_1_m (k : nat) (mrs : shr_record) :
  0 <= shr_m mrs ->
  shr_m (Nat.iter k shr_1 mrs) = shr_m mrs / 2 ^ Z.of_nat k.
Proof.
  intros Hm. induction k as [|k IH].
  - simpl. now rewrite Z.div_1_r.
  - rewrite Nat2Z.inj_succ, Z.pow_succ_r by lia. simpl Nat.iter.
    rewrite shr_1_m.
    + rewrite IH. rewrite Z.div_div by lia. f_equal. lia.
    + rewrite IH. apply Z.div_pos; lia.
Qed.

Lemma shr_m_shift (mrs : shr_record) (e s : Z) :
  0 <= shr_m mrs -> 0 <= s ->
  shr_m (fst (shr mrs e s)) = shr_m mrs / 2 ^ s /\ snd (shr mrs e s) = e + s.
Proof.
  intros Hm Hs. unfold shr. destruct s as [|p|p]; simpl; try lia.
  - rewrite Z.div_1_r. lia.
  - rewrite iter_pos_nat, iter_shr_1_m by assumption.
    rewrite positive_nat_Z. tauto.
Qed.

Lemma round_nearest_even_bounds (m : Z) (l : location) :
  m <= round_nearest_even m l <= m + 1.
Proof.
  destruct l as [|[]]; simpl; try lia. destruct (Z.even m); lia.
Qed.

Lemma digits_unique (p : positive) (d : Z) :
  2 ^ (d - 1) <= Zpos p < 2 ^ d -> 0 < d -> Zpos (digits2_pos p) = d.
Proof.
  intros [Hlo Hhi] Hd. pose proof (digits2_bounds p) as [Blo Bhi].
  set (g := Zpos (digits2_pos p)) in *.
  assert (0 < g) by (subst g; lia).
  assert (g - 1 < d).
  { apply (Z.pow_lt_mono_r_iff 2); lia. }
  assert (d - 1 < g).
  { apply (Z.pow_lt_mono_r_iff 2); lia. }
  lia.
Qed.

(** A mantissa of exactly 53 digits is left as it is. *)
Lemma binary_round_aux_canonical (p : positive) (e : Z) :
  Zpos (digits2_pos p) = 53 -> -1074 <= e <= 971 ->
  binary_round_aux prec emax false (Zpos p) e loc_Exact = S754_finite false p e.
Proof.
  intros Hd He. unfold binary_round_aux, shr_fexp, fexp, SpecFloat.emin.
  cbn [Zdigits2 shr_record_of_loc]. rewrite Hd.
  change prec with 53. change emax with 1024.
  replace (Z.max (53 + e - 53) (3 - 1024 - 53) - e) with 0 by lia.
  cbn [shr round_nearest_even shr_m loc_of_shr_record Zdigits2].
  rewrite Hd.
  replace (Z.max (53 + e - 53) (3 - 1024 - 53) - e) with 0 by lia.
  cbn [shr shr_m].
  destruct (Z.leb_spec e (1024 - 53)); [reflexivity|lia].
Qed.

Lemma iter_xO (p k : positive) :
  Zpos (Pos.iter xO p k) = Zpos p * 2 ^ Zpos k.
Proof.
  apply Pos.iter_ind with (P := fun k a => Zpos a = Zpos p * 2 ^ Zpos k).
  - rewrite Pos2Z.inj_xO. lia.
  - intros q a Ha. rewrite Pos2Z.inj_xO, Ha, Pos2Z.inj_succ.
    rewrite Z.pow_succ_r by lia. lia.
Qed.

(** The float of a positive integer below 2^53 has that integer as its
    value: the mantissa is the integer shifted to 53 digits. *)
Lemma binary_normalize_integer (q : positive) :
  Zpos q < 2 ^ 53 ->
  exists m : positive,
    binary_normalize prec emax (Zpos q) 0 false
    = S754_finite false m (Zpos (digits2_pos q) - 53)
    /\ Zpos m = Zpos q * 2 ^ (53 - Zpos (digits2_pos q))
    /\ Zpos (digits2_pos m) = 53.
Proof.
  intros Hq. pose proof (digits2_bounds q) as [Blo Bhi].
  set (d := Zpos (digits2_pos q)) in *.
  assert (0 < d) as Hd0 by (subst d; lia).
  assert (d <= 53) as Hd.
  { assert (d - 1 < 53); [|lia]. apply (Z.pow_lt_mono_r_iff 2); lia. }
  unfold binary_normalize, binary_round, fexp, SpecFloat.emin.
  change prec with 53. change emax with 1024. fold d.
  replace (Z.max (d + 0 - 53) (3 - 1024 - 53)) with (d - 53) by lia.
  unfold shl_align.
  destruct (d - 53 - 0) as [|k|k] eqn:Ek; try lia.
  - exists q. replace (53 - d) with 0 by lia.
    assert (Zpos (digits2_pos q) = 53) as D53 by (fold d; lia).
    rewrite binary_round_aux_canonical by (try assumption; lia).
    split; [f_equal; lia|]. split; [lia|assumption].
  - exists (Pos.iter xO q k).
    assert (Zpos (Pos.iter xO q k) = Zpos q * 2 ^ (53 - d)) as Hm.
    { rewrite iter_xO. f_equal. f_equal. lia. }
    assert (Zpos (digits2_pos (Pos.iter xO q k)) = 53) as D53.
    { apply digits_unique; [|lia]. rewrite Hm. split.
      - replace (53 - 1) with ((d - 1) + (53 - d)) by lia.
        rewrite Z.pow_add_r by lia. apply Z.mul_le_mono_nonneg_r; lia.
      - replace 53 with (d + (53 - d)) at 2 by lia.
        rewrite Z.pow_add_r by lia. apply Z.mul_lt_mono_pos_r; lia. }
    rewrite binary_round_aux_canonical by (try assumption; lia).
    split; [reflexivity|]. split; assumption.
Qed.

(** Rounding a mantissa of more than 53 digits: the result is the
    truncated mantissa or its successor, on the shifted exponent. *)
Lemma binary_round_aux_truncate (p : positive) (e : Z) :
  let s := Zpos (digits2_pos p) - 53 in
  0 < s -> -1074 <= e + s -> e + s < 971 ->
  exists (m : positive) (e' : Z),
    binary_round_aux prec emax false (Zpos p) e loc_Exact
    = S754_finite false m e'
    /\ e + s <= e' <= e + s + 1
    /\ Zpos p / 2 ^ s <= Zpos m * 2 ^ (e' - (e + s)) <= Zpos p / 2 ^ s + 1.
Proof.
  intros s Hs Hlo Hhi. pose proof (digits2_bounds p) as [Blo Bhi].
  set (d := Zpos (digits2_pos p)) in *.
  assert (d = s + 53) as Hd by (subst s; lia).
  unfold binary_round_aux, shr_fexp, fexp, SpecFloat.emin.
  change prec with 53. change emax with 1024.
  cbn [Zdigits2 shr_record_of_loc]. fold d.
  replace (Z.max (d + e - 53) (3 - 1024 - 53) - e) with s by lia.
  pose proof (shr_m_shift (shr_record_of_loc (Zpos p) loc_Exact) e s) as Hshr.
  cbn [shr_record_of_loc shr_m] in Hshr.
  destruct (shr {| shr_m := Zpos p; shr_r := false; shr_s := false |} e s)
    as [mrs' e1] eqn:E1.
  cbn [fst snd] in Hshr. destruct Hshr as [Hm1 He1]; try lia.
  set (m1 := shr_m mrs') in *.
  assert (2 ^ 52 <= m1 < 2 ^ 53) as Hm1b.
  { rewrite Hm1. split.
    - apply Z.div_le_lower_bound; [lia|].
      rewrite <- Z.pow_add_r by lia. replace (s + 52) with (d - 1) by lia.
      exact Blo.
    - apply Z.div_lt_upper_bound; [lia|].
      rewrite <- Z.pow_add_r by lia. replace (s + 53) with d by lia.
      exact Bhi. }
  pose proof (round_nearest_even_bounds m1 (loc_of_shr_record mrs')) as Hm2.
  set (m2 := round_nearest_even m1 (loc_of_shr_record mrs')) in *.
  destruct m2 as [|p2|p2] eqn:Ep2; try lia.
  destruct (Z.eq_dec (Zpos p2) (2 ^ 53)) as [Htop|Hnot].
  - (* the increment carried into a 54th digit *)
    assert (p2 = 9007199254740992%positive) as -> by lia.
    cbn [Zdigits2 digits2_pos Pos.succ shr_record_of_loc].
    replace (Z.max (54 + e1 - 53) (3 - 1024 - 53) - e1) with 1 by lia.
    cbn [shr iter_pos shr_1 shr_m].
    destruct (Z.leb_spec (e1 + 1) (1024 - 53)); [|lia].
    eexists _, _. split; [reflexivity|].
    replace (e1 + 1 - (e + s)) with 1 by lia. split; [lia|].
    rewrite <- Hm1. change (2 ^ 1) with 2. lia.
  - assert (Zpos (digits2_pos p2) = 53) as D53.
    { apply digits_unique; lia. }
    cbn [Zdigits2 shr_record_of_loc]. rewrite D53.
    replace (Z.max (53 + e1 - 53) (3 - 1024 - 53) - e1) with 0 by lia.
    cbn [shr shr_m].
    destruct (Z.leb_spec e1 (1024 - 53)); [|lia].
    eexists _, _. split; [reflexivity|].
    replace (e1 - (e + s)) with 0 by lia. split; [lia|].
    rewrite <- Hm1. change (2 ^ 0) with 1. lia.
Qed.

Lemma floor_core (N A S T m2 : Z) :
  3 <= N < 2 ^ 32 -> 2 ^ 21 <= A -> 0 < S <= 2 ^ 53 -> 0 < T ->
  T * S = 2 ^ 53 * A ->
  N * A * 7205759403792794 / S <= m2 <= N * A * 7205759403792794 / S + 1 ->
  m2 / T = 4 * N / 5.
Proof.
  intros HN HA HS HT HTS Hm2.
  set (P := N * A * 7205759403792794) in *.
  set (k := 4 * N / 5).
  assert (5 * k <= 4 * N < 5 * k + 5) as Hk.
  { subst k. pose proof (Z.div_mod (4 * N) 5 ltac:(lia)).
    pose proof (Z.mod_pos_bound (4 * N) 5 ltac:(lia)). lia. }
  assert (P / S * S <= P < (P / S + 1) * S) as Hdiv.
  { pose proof (Z.div_mod P S ltac:(lia)).
    pose proof (Z.mod_pos_bound P S ltac:(lia)).
    rewrite (Z.mul_comm (P / S) S), (Z.mul_comm (P / S + 1) S). lia. }
  change (2 ^ 32) with 4294967296 in *.
  change (2 ^ 21) with 2097152 in *.
  change (2 ^ 53) with 9007199254740992 in *.
  assert (k * 9007199254740992 <= N * 7205759403792794) as Hnum1 by lia.
  assert (N * 7205759403792794 + 8589934592 <= (k + 1) * 9007199254740992)
    as Hnum2 by lia.
  assert (0 <= k) as Hk0 by lia.
  assert (k * T <= m2) as Hlow.
  { apply Z.le_trans with (P / S); [|lia].
    apply Z.div_le_lower_bound; [lia|].
    replace (S * (k * T)) with (k * (T * S)) by ring. rewrite HTS.
    subst P.
    replace (k * (9007199254740992 * A)) with (k * 9007199254740992 * A) by ring.
    replace (N * A * 7205759403792794) with (N * 7205759403792794 * A) by ring.
    apply Z.mul_le_mono_nonneg_r; lia. }
  assert (m2 < (k + 1) * T) as Hup.
  { apply (Z.mul_lt_mono_pos_r S); [lia|].
    replace ((k + 1) * T * S) with ((k + 1) * (T * S)) by ring. rewrite HTS.
    apply Z.le_lt_trans with (P + S).
    - apply Z.le_trans with ((P / S + 1) * S).
      + apply Z.mul_le_mono_nonneg_r; lia.
      + rewrite Z.mul_add_distr_r. lia.
    - apply Z.lt_le_trans with ((N * 7205759403792794 + 8589934592) * A).
      + subst P. rewrite Z.mul_add_distr_r.
        replace (N * A * 7205759403792794) with (N * 7205759403792794 * A) by ring.
        assert (S < 8589934592 * A); [|lia].
        apply Z.le_lt_trans with 9007199254740992; [lia|].
        apply Z.lt_le_trans with (8589934592 * 2097152); [lia|].
        apply Z.mul_le_mono_nonneg_l; lia.
      + replace ((k + 1) * (9007199254740992 * A))
          with ((k + 1) * 9007199254740992 * A) by ring.
        apply Z.mul_le_mono_nonneg_r; lia. }
  symmetry. apply Z.div_unique with (m2 - k * T); lia.
Qed.

Lemma of_nat_spec (n : nat) :
  Z.of_nat n < 2 ^ 63 ->
  Prim2SF (JS.of_nat n) = binary_normalize prec emax (Z.of_nat n) 0 false.
Proof.
  intros Hn. unfold JS.of_nat. rewrite of_uint63_spec, Uint63.of_Z_spec.
  rewrite Z.mod_small; [reflexivity|]. split; [lia|exact Hn].
Qed.

Lemma ToIntegerOrInfinity_of_nat (n : nat) :
  Z.of_nat n < 2 ^ 53 ->
  JS.ToIntegerOrInfinity (JS.of_nat n) = JS.Int (Z.of_nat n).
Proof.
  intros Hn. unfold JS.ToIntegerOrInfinity.
  rewrite of_nat_spec by (change (2 ^ 53) with 9007199254740992 in Hn;
                          change (2 ^ 63) with 9223372036854775808; lia).
  destruct (Z.of_nat n) as [|q|q] eqn:Eq; try lia; [reflexivity|].
  destruct (binary_normalize_integer q Hn) as (m & -> & Hm & _).
  pose proof (digits2_bounds q) as [Blo Bhi].
  set (d := Zpos (digits2_pos q)) in *.
  assert (d <= 53).
  { assert (d - 1 < 53); [|lia]. apply (Z.pow_lt_mono_r_iff 2); lia. }
  f_equal. replace (d - 53) with (- (53 - d)) by lia.
  rewrite Z.shiftl_opp_r, Z.shiftr_div_pow2 by lia.
  rewrite Hm. apply Z.div_mul. apply Z.pow_nonzero; lia.
Qed.

Lemma Prim2SF_ratio :
  Prim2SF ModelTraining.defaultTrainRatio
  = S754_finite false 7205759403792794 (-53).
Proof. vm_compute. reflexivity. Qed.

Lemma floor_train_ratio (n : nat) :
  (3 <= n)%nat -> Z.of_nat n < 2 ^ 32 ->
  JS.ToIntegerOrInfinity
    (JS.Math_floor (JS.of_nat n * ModelTraining.defaultTrainRatio)%float)
  = JS.Int (4 * Z.of_nat n / 5).
Proof.
  intros H3 Hn.
  assert (3 <= Z.of_nat n) as HN by lia.
  assert (Prim2SF (JS.of_nat n)
          = binary_normalize prec emax (Z.of_nat n) 0 false) as Hof.
  { apply of_nat_spec. change (2 ^ 32) with 4294967296 in Hn.
    change (2 ^ 63) with 9223372036854775808. lia. }
  destruct (Z.of_nat n) as [|q|q] eqn:Eq; try lia.
  destruct (binary_normalize_integer q) as (mn & Hnorm & Hmn & Dmn).
  { change (2 ^ 32) with 4294967296 in Hn.
    change (2 ^ 53) with 9007199254740992. lia. }
  pose proof (digits2_bounds q) as [Blo Bhi].
  set (dn := Zpos (digits2_pos q)) in *.
  assert (0 < dn) as Hdn0 by (subst dn; lia).
  assert (dn <= 32) as Hdn.
  { assert (dn - 1 < 32); [|lia]. apply (Z.pow_lt_mono_r_iff 2); lia. }
  set (A := 2 ^ (53 - dn)) in *.
  assert (2 ^ 21 <= A) as HA.
  { subst A. apply Z.pow_le_mono_r; lia. }
  pose proof (digits2_bounds mn) as [Mlo Mhi]. rewrite Dmn in Mlo, Mhi.
  (* the product *)
  assert (Prim2SF (JS.of_nat n * ModelTraining.defaultTrainRatio)%float
          = binary_round_aux prec emax false
              (Zpos (mn * 7205759403792794)) (dn - 53 + -53) loc_Exact)
    as Hmul.
  { rewrite mul_spec, Hof, Hnorm, Prim2SF_ratio. reflexivity. }
  set (P := (mn * 7205759403792794)%positive) in *.
  assert (Zpos P = Zpos q * A * 7205759403792794) as HP.
  { subst P. rewrite Pos2Z.inj_mul, Hmn. reflexivity. }
  pose proof (digits2_bounds P) as [Plo Phi].
  set (dP := Zpos (digits2_pos P)) in *.
  assert (2 ^ 104 <= Zpos P < 2 ^ 106) as HPb.
  { subst P. rewrite Pos2Z.inj_mul.
    change (2 ^ 104) with (2 ^ 52 * 2 ^ 52).
    change (2 ^ 106) with (2 ^ 53 * 2 ^ 53).
    change (2 ^ (53 - 1)) with (2 ^ 52) in Mlo.
    split.
    - apply Z.mul_le_mono_nonneg; lia.
    - apply Z.mul_lt_mono_nonneg; lia. }
  assert (105 <= dP <= 106) as HdP.
  { assert (104 < dP) by (apply (Z.pow_lt_mono_r_iff 2); lia).
    assert (dP - 1 < 106) by (apply (Z.pow_lt_mono_r_iff 2); lia).
    lia. }
  destruct (binary_round_aux_truncate P (dn - 53 + -53))
    as (m3 & e3 & Hround & He3 & Hm3); fold dP; try lia.
  rewrite Hround in Hmul.
  set (s := dP - 53) in *.
  set (E := dn - 53 + -53 + s) in *.
  (* the floor *)
  unfold JS.Math_floor. rewrite Hmul.
  destruct (Z.ltb_spec e3 0) as [_|]; [|lia].
  assert (Z.shiftl (Zpos m3) e3 = 4 * Zpos q / 5) as Hfloor.
  { replace e3 with (- (- e3)) by lia.
    rewrite Z.shiftl_opp_r, Z.shiftr_div_pow2 by lia.
    assert (Zpos m3 / 2 ^ (- e3)
            = (Zpos m3 * 2 ^ (e3 - E)) / 2 ^ (- E)) as ->.
    { replace (- E) with ((e3 - E) + (- e3)) by lia.
      rewrite Z.pow_add_r by lia.
      rewrite (Z.mul_comm (Zpos m3)).
      rewrite Z.div_mul_cancel_l; try reflexivity;
        apply Z.pow_nonzero; lia. }
    apply floor_core with (A := A) (S := 2 ^ s); try lia.
    - split; [lia|]. apply Z.pow_le_mono_r; lia.
    - rewrite <- Z.pow_add_r by lia. subst A.
      rewrite <- Z.pow_add_r by lia. f_equal. lia.
    - rewrite <- HP. exact Hm3. }
  rewrite Hfloor.
  assert (0 <= 4 * Z.pos q / 5 < 2 ^ 53) as Hk.
  { split; [apply Z.div_pos; lia|].
    apply Z.div_lt_upper_bound; [lia|].
    change (2 ^ 32) with 4294967296 in Hn.
    change (2 ^ 53) with 9007199254740992. lia. }
  rewrite <- (Z2Nat.id (4 * Z.pos q / 5)) by lia.
  apply ToIntegerOrInfinity_of_nat. rewrite Z2Nat.id by lia. lia.
Qed.

Local Close Scope Z_scope.

(** ** The order of binary64 numbers *)

Lemma SFleb_trans (a b c : spec_float) :
  SFleb a b = true -> SFleb b c = true -> SFleb a c = true.
Proof.
  unfold SFleb.
  destruct a as [sa|sa| |sa ma ea], b as [sb|sb| |sb mb eb],
    c as [sc|sc| |sc mc ec]; simpl;
    try discriminate; try reflexivity;
    try (destruct sa; simpl; try discriminate; try reflexivity;
         destruct sb; simpl; try discriminate; try reflexivity;
         destruct sc; simpl; try discriminate; try reflexivity; fail);
    try (destruct sa, sb; simpl; try discriminate; try reflexivity; fail);
    try (destruct sa, sc; simpl; try discriminate; try reflexivity; fail);
    try (destruct sb, sc; simpl; try discriminate; try reflexivity; fail).
  all: destruct sa, sb, sc; simpl; try discriminate; try reflexivity.
  all: change (Pos.compare_cont Eq ?x ?y) with (Pos.compare x y).
  all: destruct (Z.compare_spec ea eb), (Z.compare_spec eb ec),
         (Z.compare_spec ea ec); simpl; try discriminate; try reflexivity;
       try lia; subst.
  all: destruct (Pos.compare_spec ma mb), (Pos.compare_spec mb mc),
         (Pos.compare_spec ma mc); simpl; try discriminate; try reflexivity;
       try lia.
Qed.

Lemma leb_trans (a b c : float) :
  (a <=? b) = true -> (b <=? c) = true -> (a <=? c) = true.
Proof. rewrite !leb_spec. apply SFleb_trans. Qed.

Lemma SFltb_leb_trans (a b c : spec_float) :
  SFltb a b = true -> SFleb b c = true -> SFltb a c = true.
Proof.
  unfold SFltb, SFleb.
  destruct a as [sa|sa| |sa ma ea], b as [sb|sb| |sb mb eb],
    c as [sc|sc| |sc mc ec]; simpl;
    try discriminate; try reflexivity;
    try (destruct sa; simpl; try discriminate; try reflexivity;
         destruct sb; simpl; try discriminate; try reflexivity;
         destruct sc; simpl; try discriminate; try reflexivity; fail);
    try (destruct sa, sb; simpl; try discriminate; try reflexivity; fail);
    try (destruct sa, sc; simpl; try discriminate; try reflexivity; fail);
    try (destruct sb, sc; simpl; try discriminate; try reflexivity; fail).
  all: destruct sa, sb, sc; simpl; try discriminate; try reflexivity.
  all: change (Pos.compare_cont Eq ?x ?y) with (Pos.compare x y).
  all: destruct (Z.compare_spec ea eb), (Z.compare_spec eb ec),
         (Z.compare_spec ea ec); simpl; try discriminate; try reflexivity;
       try lia; subst.
  all: destruct (Pos.compare_spec ma mb), (Pos.compare_spec mb mc),
         (Pos.compare_spec ma mc); simpl; try discriminate; try reflexivity;
       try lia.
Qed.

Lemma SFleb_ltb_trans (a b c : spec_float) :
  SFleb a b = true -> SFltb b c = true -> SFltb a c = true.
Proof.
  unfold SFltb, SFleb.
  destruct a as [sa|sa| |sa ma ea], b as [sb|sb| |sb mb eb],
    c as [sc|sc| |sc mc ec]; simpl;
    try discriminate; try reflexivity;
    try (destruct sa; simpl; try discriminate; try reflexivity;
         destruct sb; simpl; try discriminate; try reflexivity;
         destruct sc; simpl; try discriminate; try reflexivity; fail);
    try (destruct sa, sb; simpl; try discriminate; try reflexivity; fail);
    try (destruct sa, sc; simpl; try discriminate; try reflexivity; fail);
    try (destruct sb, sc; simpl; try discriminate; try reflexivity; fail).
  all: destruct sa, sb, sc; simpl; try discriminate; try reflexivity.
  all: change (Pos.compare_cont Eq ?x ?y) with (Pos.compare x y).
  all: destruct (Z.compare_spec ea eb), (Z.compare_spec eb ec),
         (Z.compare_spec ea ec); simpl; try discriminate; try reflexivity;
       try lia; subst.
  all: destruct (Pos.compare_spec ma mb), (Pos.compare_spec mb mc),
         (Pos.compare_spec ma mc); simpl; try discriminate; try reflexivity;
       try lia.
Qed.

Lemma ltb_leb_trans (a b c : float) :
  (a <? b) = true -> (b <=? c) = true -> (a <? c) = true.
Proof. rewrite !ltb_spec, leb_spec. apply SFltb_leb_trans. Qed.

Lemma leb_ltb_trans (a b c : float) :
  (a <=? b) = true -> (b <? c) = true -> (a <? c) = true.
Proof. rewrite !ltb_spec, leb_spec. apply SFleb_ltb_trans. Qed.

Lemma ltb_irrefl (a : float) : (a <? a) = false.
Proof.
  rewrite ltb_spec. unfold SFltb.
  destruct (Prim2SF a) as [s|s| |s m e] eqn:E; try reflexivity;
    rewrite SFcompare_refl by discriminate; reflexivity.
Qed.

Lemma eqb_reflexive (a : float) : is_nan a = false -> (a =? a) = true.
Proof.
  intros H. rewrite eqb_spec. unfold SFeqb.
  rewrite SFcompare_refl by (apply Prim2SF_not_nan; exact H). reflexivity.
Qed.

Lemma leb_not_nan (a b : float) :
  (a <=? b) = true -> is_nan a = false /\ is_nan b = false.
Proof.
  intros H. rewrite leb_spec in H. unfold SFleb in H.
  split.
  - destruct (is_nan a) eqn:E; [|reflexivity].
    apply is_nan_Prim2SF in E. rewrite E in H. discriminate.
  - destruct (is_nan b) eqn:E; [|reflexivity].
    apply is_nan_Prim2SF in E. rewrite E in H.
    destruct (Prim2SF a); discriminate.
Qed.

Lemma ltb_not_nan_r (a b : float) : (a <? b) = true -> is_nan b = false.
Proof.
  intros H. destruct (is_nan b) eqn:E; [|reflexivity].
  rewrite (ltb_nan_r a b E) in H. discriminate.
Qed.

Lemma is_nan_abs (c : float) : is_nan (abs c) = is_nan c.
Proof.
  destruct (is_nan c) eqn:E.
  - apply is_nan_Prim2SF in E. apply is_nan_Prim2SF.
    rewrite abs_spec, E. reflexivity.
  - destruct (is_nan (abs c)) eqn:E'; [|reflexivity].
    apply is_nan_Prim2SF in E'. rewrite abs_spec in E'.
    apply Prim2SF_not_nan in E.
    destruct (Prim2SF c); simpl in E'; congruence.
Qed.

(** A number whose magnitude exceeds another magnitude is neither NaN
    nor zero. *)
Lemma abs_ltb_nonzero (b c : float) :
  (abs b <? abs c) = true -> is_nan c = false /\ (c =? 0) = false.
Proof.
  intros H. split.
  - rewrite <- is_nan_abs. exact (ltb_not_nan_r _ _ H).
  - rewrite ltb_spec, !abs_spec in H. rewrite eqb_spec, Prim2SF_zero.
    destruct (Prim2SF c) as [sc|sc| |sc mc ec]; try reflexivity;
      try (destruct sc; reflexivity).
    destruct (Prim2SF b) as [sb|sb| |sb mb eb]; simpl in H; discriminate.
Qed.

Lemma ltb_infinity_l (c : float) : (infinity <? c) = false.
Proof.
  rewrite ltb_spec. change (Prim2SF infinity) with (S754_infinity false).
  destruct (Prim2SF c) as [s|s| |s m e]; try reflexivity;
    destruct s; reflexivity.
Qed.

Lemma SFmul_comm (x y : spec_float) :
  SFmul prec emax x y = SFmul prec emax y x.
Proof.
  destruct x as [sx|sx| |sx mx ex], y as [sy|sy| |sy my ey]; simpl;
    try reflexivity; try (rewrite (xorb_comm sx sy); reflexivity).
  rewrite (xorb_comm sx sy), (Pos.mul_comm mx my), (Z.add_comm ex ey).
  reflexivity.
Qed.

Lemma mul_commutative (a b : float) : a * b = b * a.
Proof.
  apply Prim2SF_inj. rewrite !mul_spec. apply SFmul_comm.
Qed.

(** The clamp [Math.max(lo, Math.min(hi, q))] for [lo <= hi]: a number
    of the interval, unless [q] is NaN. *)
Lemma clamp_between (lo hi q : float) :
  (lo <=? hi) = true -> is_nan q = false ->
  within lo hi (JS.Math_max lo (JS.Math_min hi q)).
Proof.
  intros Hle Hq. destruct (leb_not_nan lo hi Hle) as [Hlo Hhi].
  assert (exists m, JS.Math_min hi q = m /\ is_nan m = false
                    /\ (m <=? hi) = true) as (m & -> & Hm & Hmh).
  { unfold JS.Math_min. rewrite Hhi, Hq. cbn [orb].
    destruct (hi <? q) eqn:H1; [exists hi; auto using leb_refl|].
    assert ((q <=? hi) = true) by (apply not_ltb_leb; assumption).
    destruct (q <? hi); [exists q; auto|].
    destruct (is_zero hi && get_sign hi);
      [exists hi; auto using leb_refl|exists q; auto]. }
  unfold JS.Math_max, within. rewrite Hlo, Hm. cbn [orb].
  destruct (lo <? m) eqn:H1; [split; [apply ltb_leb|]; assumption|].
  assert ((lo <=? lo) = true) by (apply leb_refl; assumption).
  destruct (m <? lo) eqn:H2; [split; assumption|].
  assert ((lo <=? m) = true) by (apply not_ltb_leb; assumption).
  destruct (is_zero lo && get_sign lo); split; assumption.
Qed.

Lemma clamp_between_or_nan (lo hi q : float) :
  (lo <=? hi) = true ->
  let r := JS.Math_max lo (JS.Math_min hi q) in
  is_nan r = true \/ within lo hi r.
Proof.
  intros Hle r. subst r. destruct (is_nan q) eqn:Hq.
  - left. apply clamp_nan. exact Hq.
  - right. apply clamp_between; assumption.
Qed.

(** [Math.min] and [Math.max] of two numbers that are not NaN. *)
Lemma Math_min_lower (a b : float) :
  is_nan a = false -> is_nan b = false ->
  is_nan (JS.Math_min a b) = false
  /\ (JS.Math_min a b <=? a) = true /\ (JS.Math_min a b <=? b) = true.
Proof.
  intros Ha Hb. unfold JS.Math_min. rewrite Ha, Hb. cbn [orb].
  pose proof (leb_refl a Ha) as Raa. pose proof (leb_refl b Hb) as Rbb.
  destruct (a <? b) eqn:Lab; [auto using ltb_leb|].
  assert ((b <=? a) = true) as Lba' by (apply not_ltb_leb; assumption).
  destruct (b <? a) eqn:Lba; [auto|].
  assert ((a <=? b) = true) as Lab' by (apply not_ltb_leb; assumption).
  destruct (is_zero a && get_sign a); auto.
Qed.

Lemma Math_max_upper (a b : float) :
  is_nan a = false -> is_nan b = false ->
  is_nan (JS.Math_max a b) = false
  /\ (a <=? JS.Math_max a b) = true /\ (b <=? JS.Math_max a b) = true.
Proof.
  intros Ha Hb. unfold JS.Math_max. rewrite Ha, Hb. cbn [orb].
  pose proof (leb_refl a Ha) as Raa. pose proof (leb_refl b Hb) as Rbb.
  destruct (a <? b) eqn:Lab; [auto using ltb_leb|].
  assert ((b <=? a) = true) as Lba' by (apply not_ltb_leb; assumption).
  destruct (b <? a) eqn:Lba; [auto|].
  assert ((a <=? b) = true) as Lab' by (apply not_ltb_leb; assumption).
  destruct (is_zero a && get_sign a); auto.
Qed.

Lemma fold_Math_min_lower (xs : list float) :
  forall acc,
    is_nan acc = false -> Forall (fun v => is_nan v = false) xs ->
    is_nan (fold_left JS.Math_min xs acc) = false
    /\ (fold_left JS.Math_min xs acc <=? acc) = true
    /\ forall v, In v xs -> (fold_left JS.Math_min xs acc <=? v) = true.
Proof.
  induction xs as [|x xs IH]; intros acc Hacc Hxs; cbn [fold_left].
  - repeat split; [exact Hacc|apply leb_refl; exact Hacc|intros ? []].
  - inversion Hxs as [|? ? Hx Hrest]; subst.
    destruct (Math_min_lower acc x Hacc Hx) as (Hm & Hma & Hmx).
    destruct (IH _ Hm Hrest) as (H1 & H2 & H3).
    repeat split; [exact H1|eapply leb_trans; eassumption|].
    intros v [<-|Hv]; [eapply leb_trans; eassumption|exact (H3 v Hv)].
Qed.

Lemma fold_Math_max_upper (xs : list float) :
  forall acc,
    is_nan acc = false -> Forall (fun v => is_nan v = false) xs ->
    is_nan (fold_left JS.Math_max xs acc) = false
    /\ (acc <=? fold_left JS.Math_max xs acc) = true
    /\ forall v, In v xs -> (v <=? fold_left JS.Math_max xs acc) = true.
Proof.
  induction xs as [|x xs IH]; intros acc Hacc Hxs; cbn [fold_left].
  - repeat split; [exact Hacc|apply leb_refl; exact Hacc|intros ? []].
  - inversion Hxs as [|? ? Hx Hrest]; subst.
    destruct (Math_max_upper acc x Hacc Hx) as (Hm & Hma & Hmx).
    destruct (IH _ Hm Hrest) as (H1 & H2 & H3).
    repeat split; [exact H1|eapply leb_trans; eassumption|].
    intros v [<-|Hv]; [eapply leb_trans; eassumption|exact (H3 v Hv)].
Qed.

Lemma Math_min_infinity (c : float) :
  is_nan c = false -> JS.Math_min infinity c = c.
Proof.
  intros Hc. unfold JS.Math_min. rewrite Hc, ltb_infinity_l.
  change (is_nan infinity) with false. cbn [orb].
  change (is_zero infinity) with false. cbn [andb].
  destruct (c <? infinity); reflexivity.
Qed.

Lemma Math_max_neg_infinity (c : float) :
  is_nan c = false -> JS.Math_max neg_infinity c = c.
Proof.
  intros Hc. unfold JS.Math_max. rewrite Hc.
  change (is_nan neg_infinity) with false. cbn [orb].
  destruct (neg_infinity <? c) eqn:H1; [reflexivity|].
  change (is_zero neg_infinity) with false. cbn [andb].
  assert (c = neg_infinity) as ->.
  { apply Prim2SF_inj. rewrite ltb_spec in H1.
    change (Prim2SF neg_infinity) with (S754_infinity true) in *.
    apply Prim2SF_not_nan in Hc.
    destruct (Prim2SF c) as [s|s| |s m e]; try congruence;
      try discriminate H1.
    destruct s; [reflexivity|discriminate H1]. }
  destruct (neg_infinity <? neg_infinity); reflexivity.
Qed.

Lemma Math_min_same (c : float) : is_nan c = false -> JS.Math_min c c = c.
Proof.
  intros Hc. unfold JS.Math_min. rewrite Hc, ltb_irrefl. cbn [orb].
  destruct (is_zero c && get_sign c); reflexivity.
Qed.

Lemma Math_max_same (c : float) : is_nan c = false -> JS.Math_max c c = c.
Proof.
  intros Hc. unfold JS.Math_max. rewrite Hc, ltb_irrefl. cbn [orb].
  destruct (is_zero c && get_sign c); reflexivity.
Qed.

(** *** The sign of a difference *)

Local Open Scope Z_scope.

Lemma shr_record_of_loc_m (m : Z) (l : location) :
  shr_m (shr_record_of_loc m l) = m.
Proof. destruct l as [|[]]; reflexivity. Qed.

(** A positive mantissa on an exponent of the format stays positive
    through a rounding shift. *)
Lemma shr_fexp_positive (m e : Z) (l : location) :
  0 < m -> -1074 <= e ->
  0 < shr_m (fst (shr_fexp prec emax m e l))
  /\ -1074 <= snd (shr_fexp prec emax m e l).
Proof.
  intros Hm He. unfold shr_fexp, fexp, SpecFloat.emin.
  change prec with 53. change emax with 1024.
  destruct m as [|p|p]; try lia. cbn [Zdigits2].
  pose proof (digits2_bounds p) as [Blo Bhi].
  set (d := Zpos (digits2_pos p)) in *.
  set (s := Z.max (d + e - 53) (3 - 1024 - 53) - e).
  destruct (Z.le_gt_cases s 0) as [Hs|Hs].
  - unfold shr. destruct s as [|k|k]; try lia;
      cbn [fst snd]; rewrite shr_record_of_loc_m; lia.
  - destruct (shr_m_shift (shr_record_of_loc (Zpos p) l) e s) as [H1 H2];
      [rewrite shr_record_of_loc_m; lia|lia|].
    rewrite H1, H2, shr_record_of_loc_m. split; [|lia].
    assert (s = d - 53) as -> by lia.
    apply Z.div_str_pos. split; [lia|].
    apply Z.le_trans with (2 ^ (d - 1)); [|exact Blo].
    apply Z.pow_le_mono_r; lia.
Qed.

Lemma binary_round_aux_sign (sx : bool) (p : positive) (e : Z) :
  -1074 <= e ->
  (exists m e', binary_round_aux prec emax sx (Zpos p) e loc_Exact
                = S754_finite sx m e')
  \/ binary_round_aux prec emax sx (Zpos p) e loc_Exact = S754_infinity sx.
Proof.
  intros He. unfold binary_round_aux.
  pose proof (shr_fexp_positive (Zpos p) e loc_Exact ltac:(lia) He) as [H1 H2].
  destruct (shr_fexp prec emax (Zpos p) e loc_Exact) as [mrs' e1].
  cbn [fst snd] in H1, H2.
  pose proof (round_nearest_even_bounds (shr_m mrs') (loc_of_shr_record mrs'))
    as Hr.
  pose proof (shr_fexp_positive
                (round_nearest_even (shr_m mrs') (loc_of_shr_record mrs'))
                e1 loc_Exact ltac:(lia) H2) as [H3 H4].
  destruct (shr_fexp prec emax _ e1 loc_Exact) as [mrs'' e2].
  cbn [fst snd] in H3, H4.
  destruct (shr_m mrs'') as [|m|m]; try lia.
  destruct (e2 <=? emax - prec); [left; eauto|right; reflexivity].
Qed.

Lemma shl_align_exponent (m : positive) (e e' : Z) :
  -1074 <= e -> -1074 <= e' -> -1074 <= snd (shl_align m e e').
Proof.
  intros He He'. unfold shl_align. destruct (e' - e); cbn [snd]; lia.
Qed.

(** The sign of a normalised integer on an exponent of the format. *)
Lemma binary_normalize_sign (d e : Z) :
  -1074 <= e ->
  SFltb (S754_zero false) (binary_normalize prec emax d e false) = (0 <? d).
Proof.
  intros He. unfold binary_normalize.
  destruct d as [|p|p]; [reflexivity| |]; unfold binary_round.
  - pose proof (shl_align_exponent p e
                  (fexp prec emax (Zpos (digits2_pos p) + e)) He) as Hz.
    destruct (shl_align p e _) as [mz ez]. cbn [snd] in Hz.
    destruct (binary_round_aux_sign false mz ez) as [(m & e' & ->)| ->];
      [|reflexivity|reflexivity].
    apply Hz. unfold fexp, SpecFloat.emin.
    change prec with 53. change emax with 1024. lia.
  - pose proof (shl_align_exponent p e
                  (fexp prec emax (Zpos (digits2_pos p) + e)) He) as Hz.
    destruct (shl_align p e _) as [mz ez]. cbn [snd] in Hz.
    destruct (binary_round_aux_sign true mz ez) as [(m & e' & ->)| ->];
      [|reflexivity|reflexivity].
    apply Hz. unfold fexp, SpecFloat.emin.
    change prec with 53. change emax with 1024. lia.
Qed.

Lemma shl_align_value (m : positive) (e e' : Z) :
  e' <= e -> Zpos (fst (shl_align m e e')) = Zpos m * 2 ^ (e - e').
Proof.
  intros H. unfold shl_align. destruct (e' - e) as [|k|k] eqn:E; try lia.
  - cbn [fst]. replace (e - e') with 0 by lia. lia.
  - cbn [fst]. rewrite iter_xO. f_equal. f_equal. lia.
Qed.

(** The mantissa and the exponent of a valid binary64 number. *)
Lemma bounded_range (m : positive) (e : Z) :
  bounded prec emax m e = true ->
  -1074 <= e /\ Zpos m < 2 ^ 53 /\ (-1074 < e -> 2 ^ 52 <= Zpos m).
Proof.
  unfold bounded, canonical_mantissa, fexp, SpecFloat.emin.
  change prec with 53. change emax with 1024.
  intros H. apply andb_prop in H as [H _]. apply Z.eqb_eq in H.
  pose proof (digits2_bounds m) as [Blo Bhi].
  set (d := Zpos (digits2_pos m)) in *.
  split; [lia|]. split.
  - apply Z.lt_le_trans with (2 ^ d); [exact Bhi|].
    apply Z.pow_le_mono_r; lia.
  - intros He. apply Z.le_trans with (2 ^ (d - 1)); [|exact Blo].
    apply Z.pow_le_mono_r; lia.
Qed.

(** The order of two valid mantissas brought on the smaller exponent. *)
Lemma aligned_compare (mx my : positive) (ex ey : Z) :
  bounded prec emax mx ex = true -> bounded prec emax my ey = true ->
  let ez := Z.min ex ey in
  match Z.compare ey ex with
  | Lt => Lt
  | Gt => Gt
  | Eq => Pos.compare my mx
  end
  = Z.compare (Zpos (fst (shl_align my ey ez)))
      (Zpos (fst (shl_align mx ex ez))).
Proof.
  intros Hx Hy ez.
  destruct (bounded_range mx ex Hx) as (Hex & Hmx & Hnx).
  destruct (bounded_range my ey Hy) as (Hey & Hmy & Hny).
  rewrite !shl_align_value by (subst ez; lia).
  destruct (Z.compare_spec ey ex) as [E|L|G].
  - subst ey. subst ez. rewrite Z.min_id, Z.sub_diag, !Z.mul_1_r.
    reflexivity.
  - symmetry. apply Z.compare_lt_iff. subst ez.
    rewrite Z.min_r, Z.sub_diag, Z.mul_1_r by lia.
    apply Z.lt_le_trans with (2 ^ 53); [exact Hmy|].
    change (2 ^ 53) with (2 ^ 52 * 2 ^ 1).
    apply Z.mul_le_mono_nonneg; try lia.
    apply Z.pow_le_mono_r; lia.
  - symmetry. apply Z.compare_gt_iff. subst ez.
    rewrite Z.min_l, Z.sub_diag, Z.mul_1_r by lia.
    apply Z.lt_le_trans with (2 ^ 53); [exact Hmx|].
    change (2 ^ 53) with (2 ^ 52 * 2 ^ 1).
    apply Z.mul_le_mono_nonneg; try lia.
    apply Z.pow_le_mono_r; lia.
Qed.

Lemma SFsub_positive (x y : spec_float) :
  SpecFloat.valid_binary prec emax x = true ->
  SpecFloat.valid_binary prec emax y = true ->
  SFltb (S754_zero false) (SFsub prec emax x y) = SFltb y x.
Proof.
  intros Hx Hy.
  destruct x as [sx|sx| |sx mx ex], y as [sy|sy| |sy my ey];
    try (destruct sx; reflexivity); try (destruct sy; reflexivity);
    try (destruct sx, sy; reflexivity); try reflexivity.
  cbn [SpecFloat.valid_binary] in Hx, Hy. unfold SFsub.
  destruct (bounded_range mx ex Hx) as (Hex & _).
  destruct (bounded_range my ey Hy) as (Hey & _).
  rewrite binary_normalize_sign by lia.
  pose proof (aligned_compare mx my ex ey Hx Hy) as Hcmp. cbv zeta in Hcmp.
  set (ax := Zpos (fst (shl_align mx ex (Z.min ex ey)))) in *.
  set (ay := Zpos (fst (shl_align my ey (Z.min ex ey)))) in *.
  assert (0 < ax) by (subst ax; lia). assert (0 < ay) by (subst ay; lia).
  unfold SFltb, SFcompare.
  change (Pos.compare_cont Eq my mx) with (Pos.compare my mx).
  destruct sx, sy; cbn [cond_Zopp].
  - (* both negative *)
    assert (match Z.compare ey ex with
            | Eq => CompOpp (Pos.compare my mx)
            | Lt => Gt
            | Gt => Lt
            end = CompOpp (Z.compare ay ax)) as ->.
    { rewrite <- Hcmp. destruct (Z.compare ey ex); reflexivity. }
    destruct (Z.compare_spec ay ax); cbn [CompOpp];
      destruct (Z.ltb_spec 0 (- ax - - ay)); try reflexivity; lia.
  - destruct (Z.ltb_spec 0 (- ax - ay)); [lia|reflexivity].
  - destruct (Z.ltb_spec 0 (ax - - ay)); [reflexivity|lia].
  - (* both positive *)
    rewrite Hcmp.
    destruct (Z.compare_spec ay ax);
      destruct (Z.ltb_spec 0 (ax - ay)); try reflexivity; lia.
Qed.

(** The comparator [(a, b) => a - b] of a sort is positive exactly when
    [a] is above [b]. *)
Lemma sub_positive (a b : float) : (0 <? a - b)%float = (b <? a)%float.
Proof.
  rewrite !ltb_spec, sub_spec, Prim2SF_zero.
  apply SFsub_positive; apply Prim2SF_valid.
Qed.

(** *** Division by 1 *)

Lemma Prim2SF_one : Prim2SF 1 = S754_finite false 4503599627370496 (-52).
Proof. vm_compute. reflexivity. Qed.

(** Rounding leaves a valid mantissa as it is, also when it comes with
    one more binary digit. *)
Lemma binary_round_aux_valid (s : bool) (m : positive) (e : Z) :
  bounded prec emax m e = true ->
  binary_round_aux prec emax s (Zpos m) e loc_Exact = S754_finite s m e.
Proof.
  intros Hb. pose proof Hb as Hb'.
  unfold bounded, canonical_mantissa in Hb'.
  apply andb_prop in Hb' as [Hc He].
  apply Z.eqb_eq in Hc. apply Z.leb_le in He.
  unfold binary_round_aux, shr_fexp. cbn [Zdigits2 shr_record_of_loc].
  rewrite Hc, Z.sub_diag.
  cbn [shr round_nearest_even shr_m loc_of_shr_record Zdigits2
       shr_record_of_loc].
  rewrite Hc, Z.sub_diag. cbn [shr shr_m].
  destruct (Z.leb_spec e (emax - prec)); [reflexivity|lia].
Qed.

Lemma binary_round_aux_doubled (s : bool) (m : positive) (e : Z) :
  bounded prec emax m e = true -> -1074 < e ->
  binary_round_aux prec emax s (Zpos m~0) (e - 1) loc_Exact
  = S754_finite s m e.
Proof.
  intros Hb He. pose proof Hb as Hb'.
  unfold bounded, canonical_mantissa in Hb'.
  apply andb_prop in Hb' as [Hc Hmax].
  apply Z.eqb_eq in Hc. apply Z.leb_le in Hmax.
  assert (Zpos (digits2_pos m) = 53) as Hd.
  { revert Hc. unfold fexp, SpecFloat.emin.
    change prec with 53. change emax with 1024. lia. }
  unfold binary_round_aux, shr_fexp.
  cbn [Zdigits2 shr_record_of_loc digits2_pos].
  rewrite Pos2Z.inj_succ, Hd.
  replace (fexp prec emax (Z.succ 53 + (e - 1)) - (e - 1)) with 1
    by (unfold fexp, SpecFloat.emin; change prec with 53;
        change emax with 1024; lia).
  cbn [shr iter_pos shr_1 orb round_nearest_even shr_m loc_of_shr_record
       Zdigits2 shr_record_of_loc].
  rewrite Hd.
  replace (fexp prec emax (53 + (e - 1 + 1)) - (e - 1 + 1)) with 0
    by (unfold fexp, SpecFloat.emin; change prec with 53;
        change emax with 1024; lia).
  cbn [shr shr_m].
  replace (e - 1 + 1) with e by lia.
  destruct (Z.leb_spec e (emax - prec)); [reflexivity|lia].
Qed.

Lemma SFdiv_one (x : spec_float) :
  SpecFloat.valid_binary prec emax x = true ->
  SFdiv prec emax x (S754_finite false 4503599627370496 (-52)) = x.
Proof.
  intros Hx. destruct x as [s|s| |s m e]; cbn [SFdiv];
    try (rewrite xorb_false_r; reflexivity); try reflexivity.
  cbn [SpecFloat.valid_binary] in Hx.
  destruct (bounded_range m e Hx) as (Hlo & Hm & Hnormal).
  pose proof (digits2_bounds m) as [Blo Bhi].
  pose proof Hx as Hx'. unfold bounded, canonical_mantissa in Hx'.
  apply andb_prop in Hx' as [Hc _]. apply Z.eqb_eq in Hc.
  unfold SFdiv_core_binary. cbn [Zdigits2 digits2_pos Pos.succ].
  rewrite xorb_false_r.
  change (Zpos (digits2_pos 4503599627370496)) with 53.
  destruct (Z.eq_dec e (-1074)) as [->|Hne].
  - replace (Z.min (fexp prec emax (Zpos (digits2_pos m) + -1074 - (53 + -52)))
               (-1074 - -52)) with (-1074)
      by (revert Hc; unfold fexp, SpecFloat.emin; change prec with 53;
          change emax with 1024; lia).
    change (-1074 - -52 - -1074) with 52.
    rewrite Z.shiftl_mul_pow2 by lia.
    change (2 ^ 52) with 4503599627370496.
    pose proof (Z.div_eucl_eq (Zpos m * 4503599627370496) 4503599627370496
                  ltac:(lia)) as Heq.
    pose proof (Z.mod_pos_bound (Zpos m * 4503599627370496) 4503599627370496
                  ltac:(lia)) as Hmod.
    unfold Z.modulo in Hmod.
    destruct (Z.div_eucl (Zpos m * 4503599627370496) 4503599627370496)
      as [q r].
    assert (r = 0 /\ q = Zpos m) as [-> ->] by lia.
    apply binary_round_aux_valid. exact Hx.
  - assert (Zpos (digits2_pos m) = 53) as Hd.
    { revert Hc. unfold fexp, SpecFloat.emin.
      change prec with 53. change emax with 1024. lia. }
    rewrite Hd.
    replace (Z.min (fexp prec emax (53 + e - (53 + -52))) (e - -52))
      with (e - 1)
      by (unfold fexp, SpecFloat.emin; change prec with 53;
          change emax with 1024; lia).
    replace (e - -52 - (e - 1)) with 53 by lia.
    rewrite Z.shiftl_mul_pow2 by lia.
    change (2 ^ 53) with 9007199254740992.
    pose proof (Z.div_eucl_eq (Zpos m * 9007199254740992) 4503599627370496
                  ltac:(lia)) as Heq.
    pose proof (Z.mod_pos_bound (Zpos m * 9007199254740992) 4503599627370496
                  ltac:(lia)) as Hmod.
    unfold Z.modulo in Hmod.
    destruct (Z.div_eucl (Zpos m * 9007199254740992) 4503599627370496)
      as [q r].
    assert (r = 0 /\ q = Zpos m~0) as [-> ->] by lia.
    apply binary_round_aux_doubled; [exact Hx|lia].
Qed.

(** [x / 1] is [x], for every number. *)
Lemma div_one (x : float) : (x / 1)%float = x.
Proof.
  apply Prim2SF_inj. rewrite div_spec, Prim2SF_one.
  apply SFdiv_one, Prim2SF_valid.
Qed.

Local Close Scope Z_scope.

(** *** Numbers of at least 0.25 through a sum and a quotient *)

Local Open Scope Z_scope.

(** A positive mantissa stays positive through a rounding shift, and
    the exponent grows to what the format asks for the magnitude. *)
Lemma shr_fexp_exponent (m e : Z) (l : location) :
  0 < m -> -1074 <= e ->
  0 < shr_m (fst (shr_fexp prec emax m e l))
  /\ e <= snd (shr_fexp prec emax m e l)
  /\ Zdigits2 m + e - 53 <= snd (shr_fexp prec emax m e l).
Proof.
  intros Hm He.
  destruct (shr_fexp_positive m e l Hm He) as [Hpos _].
  split; [exact Hpos|]. clear Hpos.
  unfold shr_fexp, fexp, SpecFloat.emin.
  change prec with 53. change emax with 1024.
  destruct m as [|p|p]; try lia. cbn [Zdigits2].
  set (d := Zpos (digits2_pos p)) in *.
  set (s := Z.max (d + e - 53) (3 - 1024 - 53) - e).
  destruct (Z.le_gt_cases s 0) as [Hs|Hs].
  - unfold shr. destruct s as [|k|k] eqn:E; try lia; cbn [snd]; lia.
  - destruct (shr_m_shift (shr_record_of_loc (Zpos p) l) e s) as [_ H2];
      [rewrite shr_record_of_loc_m; lia|lia|].
    rewrite H2. lia.
Qed.

(** Rounding a positive mantissa never gives zero, and the exponent of
    the result is at least the one of the magnitude. *)
Lemma binary_round_aux_magnitude (sx : bool) (p : positive) (e : Z)
  (l : location) :
  -1074 <= e ->
  binary_round_aux prec emax sx (Zpos p) e l = S754_infinity sx
  \/ exists m e',
       binary_round_aux prec emax sx (Zpos p) e l = S754_finite sx m e'
       /\ Zpos (digits2_pos p) + e - 53 <= e'.
Proof.
  intros He. unfold binary_round_aux.
  pose proof (shr_fexp_exponent (Zpos p) e l ltac:(lia) He) as (H1 & H2 & H3).
  cbn [Zdigits2] in H3.
  destruct (shr_fexp prec emax (Zpos p) e l) as [mrs' e1].
  cbn [fst snd] in H1, H2, H3.
  pose proof (round_nearest_even_bounds (shr_m mrs') (loc_of_shr_record mrs'))
    as Hr.
  pose proof (shr_fexp_exponent
                (round_nearest_even (shr_m mrs') (loc_of_shr_record mrs'))
                e1 loc_Exact ltac:(lia) ltac:(lia)) as (H4 & H5 & _).
  destruct (shr_fexp prec emax _ e1 loc_Exact) as [mrs'' e2].
  cbn [fst snd] in H4, H5.
  destruct (shr_m mrs'') as [|m|m]; try lia.
  destruct (e2 <=? emax - prec); [right|left; reflexivity].
  exists m, e2. split; [reflexivity|lia].
Qed.

Lemma digits2_lower (q : positive) (n : Z) :
  2 ^ n <= Zpos q -> n + 1 <= Zpos (digits2_pos q).
Proof.
  intros H. pose proof (digits2_bounds q) as [_ Hhi].
  destruct (Z.le_gt_cases (n + 1) (Zpos (digits2_pos q))) as [|Hlt];
    [assumption|].
  exfalso. assert (2 ^ Zpos (digits2_pos q) <= 2 ^ n)
    by (apply Z.pow_le_mono_r; lia). lia.
Qed.

(** The same for a mantissa that is first aligned to the format. *)
Lemma binary_round_magnitude (sx : bool) (p : positive) (e n : Z) :
  -1074 <= e -> 2 ^ n <= Zpos p ->
  binary_round prec emax sx p e = S754_infinity sx
  \/ exists m e',
       binary_round prec emax sx p e = S754_finite sx m e'
       /\ n + e - 52 <= e'.
Proof.
  intros He Hp. unfold binary_round.
  set (target := fexp prec emax (Zpos (digits2_pos p) + e)).
  assert (-1074 <= target) as Ht.
  { subst target. unfold fexp, SpecFloat.emin.
    change prec with 53. change emax with 1024. lia. }
  pose proof (shl_align_exponent p e target He Ht) as Hz.
  assert (snd (shl_align p e target) <= e) as Hle.
  { unfold shl_align. destruct (target - e) eqn:E; cbn [snd]; lia. }
  pose proof (shl_align_value p e (snd (shl_align p e target))) as Hv.
  assert (fst (shl_align p e (snd (shl_align p e target)))
          = fst (shl_align p e target)) as Hsame.
  { unfold shl_align. destruct (target - e) eqn:E; cbn [snd fst].
    - rewrite Z.sub_diag. reflexivity.
    - rewrite Z.sub_diag. reflexivity.
    - rewrite E. reflexivity. }
  rewrite Hsame in Hv. specialize (Hv Hle).
  destruct (shl_align p e target) as [mz ez]. cbn [fst snd] in *.
  destruct (binary_round_aux_magnitude sx mz ez loc_Exact Hz)
    as [->|(m & e' & -> & Hmag)]; [left; reflexivity|right].
  exists m, e'. split; [reflexivity|].
  assert (2 ^ (n + (e - ez)) <= Zpos mz) as Hbig.
  { rewrite Hv.
    destruct (Z.le_gt_cases 0 n) as [Hn|Hn].
    - rewrite Z.pow_add_r by lia. apply Z.mul_le_mono_nonneg_r; [|exact Hp].
      apply Z.pow_nonneg. lia.
    - destruct (Z.le_gt_cases 0 (n + (e - ez))) as [Hs|Hs].
      + apply Z.le_trans with (1 * 2 ^ (e - ez)).
        * rewrite Z.mul_1_l. apply Z.pow_le_mono_r; lia.
        * apply Z.mul_le_mono_nonneg_r; [apply Z.pow_nonneg|]; lia.
      + rewrite Z.pow_neg_r by lia.
        apply Z.mul_nonneg_nonneg; [lia|apply Z.pow_nonneg; lia]. }
  apply digits2_lower in Hbig. lia.
Qed.

Lemma SFadd_big (x y : spec_float) :
  SpecFloat.valid_binary prec emax x = true ->
  SpecFloat.valid_binary prec emax y = true ->
  bigSF x -> bigSF y -> bigSF (SFadd prec emax x y).
Proof.
  intros Vx Vy Bx By.
  destruct x as [sx|sx| |sx mx ex], y as [sy|sy| |sy my ey];
    cbn [bigSF] in *; try contradiction; try exact I; subst;
    try destruct Bx as [-> Bx]; try destruct By as [-> By];
    cbn [SFadd bigSF]; try reflexivity; try (split; [reflexivity|lia]).
  cbn [cond_Zopp].
  cbn [SpecFloat.valid_binary] in Vx, Vy.
  apply bounded_range in Vx as (Vx1 & Vx2 & Vx3).
  apply bounded_range in Vy as (Vy1 & Vy2 & Vy3).
  set (ez := Z.min ex ey).
  pose proof (shl_align_value mx ex ez ltac:(lia)) as Hx.
  pose proof (shl_align_value my ey ez ltac:(lia)) as Hy.
  destruct (fst (shl_align mx ex ez)) as [] eqn:Ex;
    destruct (fst (shl_align my ey ez)) as [] eqn:Ey;
    cbn [Z.add binary_normalize];
    match goal with
    | |- bigSF (binary_round _ _ _ ?q _) =>
        destruct (binary_round_magnitude false q ez (52 + (ex - ez)))
          as [->|(m & e' & -> & Hmag)];
        [lia| |reflexivity|split; [reflexivity|lia]]
    end;
    (apply Z.le_trans with (Zpos mx * 2 ^ (ex - ez));
     [rewrite Z.pow_add_r by lia;
      apply Z.mul_le_mono_nonneg_r; [apply Z.pow_nonneg; lia|lia]
     |rewrite <- Hx, Pos2Z.inj_add; lia]).
Qed.

Lemma SFadd_zero_big (y : spec_float) :
  bigSF y -> bigSF (SFadd prec emax (S754_zero false) y).
Proof. destruct y as [s|s| |s m e]; cbn [bigSF SFadd]; tauto. Qed.

(** A number that is NaN or at least 0.25, divided by the number of a
    count from 1 to 2^53, is not zero. *)
Lemma SFdiv_big (x : spec_float) (m2 : positive) (e2 : Z) :
  SpecFloat.valid_binary prec emax x = true ->
  bigSF x ->
  Zpos m2 < 2 ^ 53 -> -52 <= e2 <= 0 ->
  match SFdiv prec emax x (S754_finite false m2 e2) with
  | S754_zero _ => False
  | _ => True
  end.
Proof.
  intros Vx Bx Hm2 He2.
  destruct x as [sx|sx| |sx mx ex]; cbn [bigSF] in Bx;
    try contradiction; try exact I.
  destruct Bx as [-> Bx]. cbn [SpecFloat.valid_binary] in Vx.
  apply bounded_range in Vx as (Vx1 & Vx2 & Vx3).
  specialize (Vx3 ltac:(lia)).
  cbn [SFdiv xorb]. unfold SFdiv_core_binary. cbn [Zdigits2].
  assert (Zpos (digits2_pos mx) = 53) as Hd1
    by (apply digits_unique; lia).
  pose proof (digits2_bounds m2) as [Blo Bhi].
  assert (1 <= Zpos (digits2_pos m2) <= 53) as Hd2.
  { split; [lia|].
    destruct (Z.le_gt_cases (Zpos (digits2_pos m2)) 53) as [|Hgt];
      [assumption|].
    exfalso. assert (2 ^ 53 <= 2 ^ (Zpos (digits2_pos m2) - 1))
      by (apply Z.pow_le_mono_r; lia). lia. }
  rewrite Hd1. unfold fexp, SpecFloat.emin.
  change prec with 53. change emax with 1024.
  set (d2 := Zpos (digits2_pos m2)) in *.
  replace (Z.min (Z.max (53 + ex - (d2 + e2) - 53) (3 - 1024 - 53))
             (ex - e2))
    with (ex - e2 - d2) by lia.
  replace (ex - e2 - (ex - e2 - d2)) with d2 by lia.
  subst d2. cbn match. rewrite Z.shiftl_mul_pow2 by lia.
  set (d2 := Zpos (digits2_pos m2)) in *.
  pose proof (Z.div_eucl_eq (Zpos mx * 2 ^ d2) (Zpos m2) ltac:(lia)) as Hdiv.
  pose proof (Z.mod_pos_bound (Zpos mx * 2 ^ d2) (Zpos m2) ltac:(lia)) as Hmod.
  unfold Z.modulo in Hmod.
  destruct (Z.div_eucl (Zpos mx * 2 ^ d2) (Zpos m2)) as [q r].
  assert (0 < q) as Hq.
  { assert (Zpos m2 * 1 <= Zpos mx * 2 ^ d2).
    { apply Z.le_trans with (1 * 2 ^ d2); [lia|].
      apply Z.mul_le_mono_nonneg_r; [apply Z.pow_nonneg|]; lia. }
    nia. }
  destruct q as [|q|q]; try lia.
  pose proof (binary_round_aux_magnitude false q (ex - e2 - d2)
                (new_location (Zpos m2) r) ltac:(lia)) as H.
  change prec with 53 in H. change emax with 1024 in H.
  destruct H as [->|(m & e' & -> & _)]; exact I.
Qed.

Local Close Scope Z_scope.

Lemma Prim2SF_quarter :
  Prim2SF 0.25 = S754_finite false 4503599627370496 (-54).
Proof. reflexivity. Qed.

Lemma not_below_quarter_big (x : float) : (x <? 0.25) = false -> big x.
Proof.
  unfold big. rewrite ltb_spec, Prim2SF_quarter. unfold SFltb.
  destruct (Prim2SF x) as [s|s| |s m e]; cbn [SFcompare bigSF].
  - discriminate.
  - destruct s; [discriminate|reflexivity].
  - intros _. exact I.
  - destruct s; [discriminate|].
    destruct (Z.compare_spec e (-54)%Z) as [->|Hlt|Hgt].
    + intros _. split; [reflexivity|lia].
    + discriminate.
    + intros _. split; [reflexivity|lia].
Qed.

Lemma add_big (s t : float) : big s -> big t -> big (s + t).
Proof.
  unfold big. rewrite add_spec. unfold SF64add.
  apply SFadd_big; apply Prim2SF_valid.
Qed.

Lemma add_zero_big (t : float) : big t -> big (0 + t).
Proof.
  unfold big. rewrite add_spec, Prim2SF_zero. unfold SF64add.
  apply SFadd_zero_big.
Qed.

Lemma abs_big (x : float) : big x -> big (abs x).
Proof.
  unfold big. rewrite abs_spec.
  destruct (Prim2SF x) as [s|s| |s m e]; cbn [SFabs bigSF]; tauto.
Qed.

(** Subtracting a zero, of either sign. *)
Lemma sub_zero_big (x p : float) : (p =? 0) = true -> big x -> big (x - p).
Proof.
  unfold big. rewrite eqb_spec, sub_spec, Prim2SF_zero. unfold SFeqb.
  destruct (Prim2SF p) as [sp|sp| |sp mp ep]; cbn [SFcompare];
    try discriminate; try (destruct sp; discriminate).
  intros _. unfold SF64sub.
  destruct (Prim2SF x) as [s|s| |s m e]; cbn [SFsub bigSF]; tauto.
Qed.

Lemma of_nat_count (k : nat) :
  (1 <= k)%nat -> (Z.of_nat k < 2 ^ 53)%Z ->
  exists m e,
    Prim2SF (JS.of_nat k) = S754_finite false m e
    /\ (Zpos m < 2 ^ 53)%Z /\ (-52 <= e <= 0)%Z.
Proof.
  intros H1 H53. rewrite of_nat_spec by lia.
  destruct (Z.of_nat k) as [|q|q] eqn:E; try lia.
  destruct (binary_normalize_integer q H53) as (m & -> & Hm & Hd).
  exists m, (Zpos (digits2_pos q) - 53)%Z. split; [reflexivity|].
  pose proof (digits2_bounds m) as [_ Hhi]. rewrite Hd in Hhi.
  split; [exact Hhi|].
  pose proof (digits2_bounds q) as [Blo Bhi].
  assert (Zpos (digits2_pos q) <= 53)%Z.
  { destruct (Z.le_gt_cases (Zpos (digits2_pos q)) 53) as [|Hgt];
      [assumption|].
    exfalso. assert (2 ^ 53 <= 2 ^ (Zpos (digits2_pos q) - 1))%Z
      by (apply Z.pow_le_mono_r; lia). lia. }
  lia.
Qed.

Lemma of_nat_big (k : nat) :
  (1 <= k)%nat -> (Z.of_nat k < 2 ^ 53)%Z -> big (JS.of_nat k).
Proof.
  intros H1 H53. unfold big.
  destruct (of_nat_count k H1 H53) as (m & e & -> & _ & He).
  split; [reflexivity|lia].
Qed.

(** A number that is NaN or at least 0.25 is not 0 after a division by
    a count. *)
Lemma div_count_not_zero (x : float) (k : nat) :
  (1 <= k)%nat -> (Z.of_nat k < 2 ^ 53)%Z -> big x ->
  (x / JS.of_nat k =? 0) = false.
Proof.
  intros H1 H53 Hx. rewrite eqb_spec, div_spec, Prim2SF_zero.
  unfold SF64div.
  destruct (of_nat_count k H1 H53) as (m & e & -> & Hm & He).
  pose proof (SFdiv_big (Prim2SF x) m e (Prim2SF_valid x) Hx Hm He) as H.
  unfold SFeqb.
  destruct (SFdiv prec emax (Prim2SF x) (S754_finite false m e))
    as [s|s| |s m' e']; cbn [SFcompare]; try reflexivity;
    [contradiction|destruct s; reflexivity|destruct s; reflexivity].
Qed.

(** ** exploration.ts: [adjustEpsilon] *)

(** C8, the claim as stated fails: in binary64 the product [0.15 * 1.5]
    is a tie between two neighbouring values and rounds to
    0.22499999999999998, which JavaScript's [==] tells apart from the
    literal [0.225]. *)
Lemma adjustEpsilon_media_not_0225 :
  (Exploration.adjustEpsilon 0.15 (Some "media_amplification"%string) =? 0.225)
  = false.
Proof. vm_compute. reflexivity. Qed.

(** C8, amended: [adjustEpsilon] multiplies the base by 0.7 for
    search_growth and buyer_interest, by 1.2 for early_noise, by 1.5 for
    media_amplification, and returns it unchanged for an unknown or absent
    stage; [adjustEpsilon(0.15, "search_growth") == 0.105] holds exactly,
    while [adjustEpsilon(0.15, "media_amplification")] is
    0.22499999999999998. *)
Theorem adjustEpsilon_factors :
  forall baseEpsilon : float,
    Exploration.adjustEpsilon baseEpsilon (Some "search_growth"%string)
      = baseEpsilon * 0.7
    /\ Exploration.adjustEpsilon baseEpsilon (Some "buyer_interest"%string)
      = baseEpsilon * 0.7
    /\ Exploration.adjustEpsilon baseEpsilon (Some "early_noise"%string)
      = baseEpsilon * 1.2
    /\ Exploration.adjustEpsilon baseEpsilon (Some "media_amplification"%string)
      = baseEpsilon * 1.5
    /\ Exploration.adjustEpsilon baseEpsilon None = baseEpsilon
    /\ (forall stage, known_stage stage = false ->
          Exploration.adjustEpsilon baseEpsilon (Some stage) = baseEpsilon)
    /\ (Exploration.adjustEpsilon 0.15 (Some "search_growth"%string) =? 0.105)
       = true
    /\ (Exploration.adjustEpsilon 0.15 (Some "media_amplification"%string)
          =? 0.22499999999999998) = true.
Proof.
  intros b. repeat split; try reflexivity.
  intros stage Hk. unfold known_stage in Hk.
  apply orb_false_elim in Hk as [Hk H4].
  apply orb_false_elim in Hk as [Hk H3].
  apply orb_false_elim in Hk as [H1 H2].
  unfold Exploration.adjustEpsilon.
  rewrite H1, H2, H3, H4. destruct (String.eqb stage ""); reflexivity.
Qed.

Lemma adjustEpsilon_factors_witness :
  known_stage "viral"%string = false
  /\ Exploration.adjustEpsilon 0.15 (Some "viral"%string) = 0.15.
Proof.
  split; [reflexivity|].
  exact (proj1 (proj2 (proj2 (proj2 (proj2 (proj2
           (adjustEpsilon_factors 0.15))))))
         "viral"%string eq_refl).
Defined.

(** ** Facts on the runtime model *)

Lemma insert_sorted_length {A} (after : A -> A -> bool) (x : A) (l : list A) :
  List.length (JS.insert_sorted after x l) = S (List.length l).
Proof.
  induction l as [|y l IH]; simpl; [reflexivity|].
  destruct (after x y); simpl; [rewrite IH|]; reflexivity.
Qed.

Lemma sort_length {A} (after : A -> A -> bool) (l : list A) :
  List.length (JS.sort after l) = List.length l.
Proof.
  unfold JS.sort. induction l as [|x l IH]; simpl; [reflexivity|].
  rewrite insert_sorted_length, IH. reflexivity.
Qed.

Lemma slice_prefix {A} (l : list A) (k : nat) :
  (k <= List.length l)%nat ->
  JS.slice l (JS.Int 0) (Some (JS.Int (Z.of_nat k))) = firstn k l.
Proof.
  intros Hk. unfold JS.slice, JS.relative_index.
  destruct (Z.ltb_spec (Z.of_nat k) 0); [lia|].
  rewrite Nat2Z.id. simpl. rewrite Nat.min_l, Nat.sub_0_r by exact Hk.
  reflexivity.
Qed.

Lemma slice_suffix {A} (l : list A) (k : nat) :
  (k <= List.length l)%nat ->
  JS.slice l (JS.Int (Z.of_nat k)) None = skipn k l.
Proof.
  intros Hk. unfold JS.slice, JS.relative_index.
  destruct (Z.ltb_spec (Z.of_nat k) 0); [lia|].
  rewrite Nat2Z.id, Nat.min_l by exact Hk.
  apply firstn_all2. rewrite length_skipn. lia.
Qed.

(** [l.slice(-k)] keeps the last [k] elements. *)
Lemma slice_last {A} (l : list A) (k : Z) :
  (0 < k)%Z ->
  JS.slice l (JS.Int (- k)) None = skipn (List.length l - Z.to_nat k) l.
Proof.
  intros Hk. unfold JS.slice, JS.relative_index.
  destruct (Z.ltb_spec (- k) 0); [|lia].
  replace (Z.to_nat (Z.max (Z.of_nat (List.length l) + - k) 0))
    with (List.length l - Z.to_nat k)%nat by lia.
  apply firstn_all2. rewrite length_skipn. lia.
Qed.

(** [l.slice(0, -k)] drops the last [k] elements. *)
Lemma slice_but_last {A} (l : list A) (k : Z) :
  (0 < k)%Z ->
  JS.slice l (JS.Int 0) (Some (JS.Int (- k)))
  = firstn (List.length l - Z.to_nat k) l.
Proof.
  intros Hk. unfold JS.slice, JS.relative_index.
  destruct (Z.ltb_spec (- k) 0); [|lia].
  destruct (Z.ltb_spec 0 0); [lia|].
  replace (Z.to_nat (Z.max (Z.of_nat (List.length l) + - k) 0))
    with (List.length l - Z.to_nat k)%nat by lia.
  simpl. rewrite Nat.sub_0_r. reflexivity.
Qed.

(** ** model-training.ts: [splitData] and [trainModel] *)

Lemma splitIndex_bounds (n : nat) :
  (3 <= n)%nat -> (1 <= splitIndex n < n)%nat.
Proof.
  intros Hn. unfold splitIndex.
  pose proof (Z.div_mod (4 * Z.of_nat n) 5 ltac:(lia)).
  pose proof (Z.mod_pos_bound (4 * Z.of_nat n) 5 ltac:(lia)). lia.
Qed.

Lemma splitData_default (records : list ModelTraining.DatasetRecord) :
  let n := List.length records in
  let sorted :=
    JS.sort (fun a b => (0 <? ModelTraining.time_of a
                              - ModelTraining.time_of b)%Z) records in
  (3 <= n)%nat -> (Z.of_nat n < 2 ^ 32)%Z ->
  ModelTraining.splitData records ModelTraining.defaultTrainRatio
  = {| ModelTraining.train := firstn (splitIndex n) sorted;
       ModelTraining.test := skipn (splitIndex n) sorted |}.
Proof.
  intros n sorted H3 H32. unfold ModelTraining.splitData. fold sorted.
  assert (List.length sorted = n) as Hlen by apply sort_length.
  rewrite Hlen, (floor_train_ratio n H3 H32).
  pose proof (splitIndex_bounds n H3) as Hk.
  replace (4 * Z.of_nat n / 5)%Z with (Z.of_nat (splitIndex n))
    by (unfold splitIndex; apply Z2Nat.id, Z.div_pos; lia).
  rewrite slice_prefix, slice_suffix by lia. reflexivity.
Qed.

Lemma splitData_default_lengths (records : list ModelTraining.DatasetRecord) :
  let n := List.length records in
  let split :=
    ModelTraining.splitData records ModelTraining.defaultTrainRatio in
  (3 <= n)%nat -> (Z.of_nat n < 2 ^ 32)%Z ->
  List.length (ModelTraining.train split) = splitIndex n
  /\ List.length (ModelTraining.test split) = (n - splitIndex n)%nat.
Proof.
  intros n split H3 H32. subst split.
  rewrite (splitData_default records H3 H32). cbn [ModelTraining.train
    ModelTraining.test].
  pose proof (splitIndex_bounds n H3).
  rewrite length_firstn, length_skipn, sort_length. fold n. lia.
Qed.

(** The sample counts of a training run that gets past both guards. *)
Lemma trainModel_counts (datasetId : string)
  (records : list ModelTraining.DatasetRecord) :
  let split :=
    ModelTraining.splitData records ModelTraining.defaultTrainRatio in
  (3 <= List.length records)%nat ->
  ModelTraining.trainSampleCount (ModelTraining.trainModel datasetId records)
  = List.length (ModelTraining.train split)
  /\ ModelTraining.testSampleCount
       (ModelTraining.trainModel datasetId records)
     = List.length (ModelTraining.test split).
Proof.
  intros split H3. unfold ModelTraining.trainModel. fold split.
  destruct (Nat.ltb_spec (List.length records) 3) as [|_]; [lia|].
  destruct (ModelTraining.train split) as [|first train'];
    [split; reflexivity|].
  destruct (ModelTraining.test split) as [|held test'];
    [split; reflexivity|].
  cbv zeta.
  match goal with
  | |- context [fold_left ?f ?l (0%float, 0%float, 0%float)] =>
      destruct (fold_left f l (0%float, 0%float, 0%float)) as [[ssRes ssTot] maeSum]
  end.
  split; reflexivity.
Qed.

(** The guards of [trainModel]: whatever list it is given, when the list
    has fewer than 3 records or a slice of the split is empty, the
    result has no coefficients, no feature names, and a zero intercept
    and zero metrics. *)
Lemma trainModel_guards (datasetId : string)
  (records : list ModelTraining.DatasetRecord) :
  let split :=
    ModelTraining.splitData records ModelTraining.defaultTrainRatio in
  (List.length records < 3)%nat
  \/ ModelTraining.train split = [] \/ ModelTraining.test split = [] ->
  exists trainCount testCount,
    ModelTraining.trainModel datasetId records
    = ModelTraining.zeroResult trainCount testCount.
Proof.
  intros split H. unfold ModelTraining.trainModel. fold split.
  destruct (Nat.ltb_spec (List.length records) 3) as [|Hge].
  - exists 0%nat, 0%nat. reflexivity.
  - destruct H as [H|[H|H]]; [lia| |]; rewrite H.
    + eexists _, _. reflexivity.
    + destruct (ModelTraining.train split); eexists _, _; reflexivity.
Qed.

(** C2: for every record list with fewer than 3 elements, and likewise
    whenever the train or the test slice of the split is empty,
    [trainModel] returns (it does not raise) the empty result: no
    coefficients, no feature names, intercept 0 and all four metrics 0.
    With fewer than 3 records the sample counts are 0 as well. *)
Theorem trainModel_insufficient_data :
  forall (datasetId : string) (records : list ModelTraining.DatasetRecord),
    let split :=
      ModelTraining.splitData records ModelTraining.defaultTrainRatio in
    (List.length records < 3)%nat
    \/ ModelTraining.train split = [] \/ ModelTraining.test split = [] ->
    let r := ModelTraining.trainModel datasetId records in
    ModelTraining.coefficients r = []
    /\ ModelTraining.featureNames r = []
    /\ ModelTraining.intercept r = 0
    /\ ModelTraining.rSquared r = 0
    /\ ModelTraining.mae r = 0
    /\ ModelTraining.tierAccuracy r = 0
    /\ ModelTraining.directionalAccuracy r = 0
    /\ ((List.length records < 3)%nat -> r = ModelTraining.zeroResult 0 0).
Proof.
  intros datasetId records split H r.
  destruct (trainModel_guards datasetId records H) as (a & b & Hr).
  subst r. rewrite Hr. repeat split.
  intros Hlt. rewrite <- Hr. unfold ModelTraining.trainModel.
  destruct (Nat.ltb_spec (List.length records) 3); [reflexivity|lia].
Qed.

Lemma trainModel_insufficient_data_witness :
  (List.length two_records < 3)%nat
  /\ ModelTraining.trainModel "videos" two_records
     = ModelTraining.zeroResult 0 0.
Proof.
  assert (List.length two_records < 3)%nat as H by (simpl; lia).
  split; [exact H|].
  exact (proj2 (proj2 (proj2 (proj2 (proj2 (proj2 (proj2
           (trainModel_insufficient_data "videos" two_records
              (or_introl H)))))))) H).
Defined.

Lemma combine_map {A B C} (f : A -> B) (g : A -> C) (l : list A) :
  combine (map f l) (map g l) = map (fun x => (f x, g x)) l.
Proof. induction l as [|x l IH]; [reflexivity|]. cbn. rewrite IH. reflexivity. Qed.

Lemma metrics_fold (meanActual : float) (cases : list (float * float)) :
  forall ssRes ssTot maeSum,
    snd (fold_left
           (fun '(ssRes, ssTot, maeSum) '(actual, predicted) =>
              let residual := actual - predicted in
              (ssRes + residual * residual,
               ssTot + (actual - meanActual) * (actual - meanActual),
               maeSum + abs residual))
           cases (ssRes, ssTot, maeSum))
    = fold_left (fun sum '(actual, predicted) => sum + abs (actual - predicted))
        cases maeSum.
Proof.
  induction cases as [|[actual predicted] cases IH]; intros ssRes ssTot maeSum;
    [reflexivity|].
  cbn [fold_left]. cbv zeta. apply IH.
Qed.

(** The mean absolute error and the tier accuracy of a training run
    that gets past both guards, in terms of its held-out cases. *)
Lemma trainModel_metrics (datasetId : string)
  (records : list ModelTraining.DatasetRecord) :
  let r := ModelTraining.trainModel datasetId records in
  let test :=
    ModelTraining.test
      (ModelTraining.splitData records ModelTraining.defaultTrainRatio) in
  (3 <= List.length records)%nat ->
  (Z.of_nat (List.length records) < 2 ^ 32)%Z ->
  (1 <= List.length test <= List.length records)%nat
  /\ ModelTraining.mae r
     = fold_left
         (fun sum '(actual, predicted) => sum + abs (actual - predicted))
         (testCases r test) 0
       / JS.of_nat (List.length test)
  /\ ModelTraining.tierAccuracy r
     = JS.of_nat
         (ModelTraining.count
            (fun '(actual, predicted) =>
               String.eqb (ModelTraining.classifyTier predicted)
                 (ModelTraining.classifyTier actual))
            (testCases r test))
       / JS.of_nat (List.length test).
Proof.
  intros r test H3 H32. subst r test.
  destruct (splitData_default_lengths records H3 H32) as [Htrain Htest].
  pose proof (splitIndex_bounds (List.length records) H3) as Hk.
  unfold ModelTraining.trainModel.
  destruct (Nat.ltb_spec (List.length records) 3) as [|_]; [lia|].
  set (split := ModelTraining.splitData records
                  ModelTraining.defaultTrainRatio) in *.
  destruct (ModelTraining.train split) as [|first train'];
    [cbn [List.length] in Htrain; lia|].
  destruct (ModelTraining.test split) as [|held test'] eqn:Etest;
    [cbn [List.length] in Htest; lia|].
  split; [lia|]. cbv zeta.
  match goal with
  | |- context [fold_left ?f ?l (0, 0, 0)] =>
      pose proof (metrics_fold _ l 0 0 0 : snd (fold_left f l (0, 0, 0)) = _)
        as Hfold;
      destruct (fold_left f l (0, 0, 0)) as [[ssRes ssTot] maeSum]
  end.
  cbn [snd] in Hfold. subst maeSum.
  cbn [ModelTraining.mae ModelTraining.tierAccuracy
       ModelTraining.coefficients ModelTraining.intercept
       ModelTraining.featureNames].
  unfold testCases. rewrite !combine_map, !length_map.
  split; reflexivity.
Qed.

Lemma eqb_zero_cases (p : float) : (p =? 0) = true -> p = 0 \/ p = -0.
Proof.
  rewrite eqb_spec, Prim2SF_zero. unfold SFeqb.
  destruct (Prim2SF p) as [s|s| |s m e] eqn:E; cbn [SFcompare];
    try discriminate; try (destruct s; discriminate).
  intros _. destruct s; [right|left]; apply Prim2SF_inj; rewrite E;
    reflexivity.
Qed.

(** A value of another tier than "low" is NaN or at least 0.25. *)
Lemma not_low_big (a : float) :
  String.eqb "low" (ModelTraining.classifyTier a) = false -> big a.
Proof.
  unfold ModelTraining.classifyTier. intros H.
  apply not_below_quarter_big.
  destruct (a <? 0.25) eqn:Hq; [exfalso|reflexivity].
  assert ((a <? 0.3) = true) as Hlow
    by (apply (ltb_leb_trans a 0.25 0.3 Hq); reflexivity).
  destruct (0.7 <? a) eqn:Htop.
  - assert ((0.7 <? 0.25) = true) as Habsurd
      by (apply (ltb_leb_trans 0.7 a 0.25 Htop), ltb_leb, Hq).
    vm_compute in Habsurd. discriminate.
  - rewrite Hlow in H. discriminate.
Qed.

Lemma fold_big {A} (term : A -> float) (l : list A) :
  Forall (fun x => big (term x)) l ->
  forall sum, big sum -> big (fold_left (fun sum x => sum + term x) l sum).
Proof.
  induction 1 as [|x l Hx _ IH]; intros sum Hsum; [exact Hsum|].
  cbn [fold_left]. apply IH, add_big; assumption.
Qed.

Lemma count_zero {A} (p : A -> bool) (l : list A) :
  ModelTraining.count p l = 0%nat -> Forall (fun x => p x = false) l.
Proof.
  unfold ModelTraining.count. induction l as [|x l IH]; [constructor|].
  cbn [filter]. destruct (p x) eqn:E; [discriminate|].
  intros H. constructor; [exact E|exact (IH H)].
Qed.

Lemma count_bound {A} (p : A -> bool) (l : list A) :
  (ModelTraining.count p l <= List.length l)%nat.
Proof. apply filter_length_le. Qed.

Lemma fold_left_over_map {A B C} (f : A -> B -> A) (g : C -> B)
  (l : list C) :
  forall a, fold_left f (map g l) a = fold_left (fun a x => f a (g x)) l a.
Proof. induction l as [|x l IH]; intros a; [reflexivity|apply IH]. Qed.

(** A training run that gets past the two guards never returns the
    zeroed result: without coefficients and with intercept 0 it
    predicts 0 for every held-out record, so either one of them is of
    the tier of 0 and the tier accuracy is not 0, or all of them are at
    least 0.25 (or NaN) and the mean absolute error is not 0. *)
Lemma trainModel_not_zeroed (datasetId : string)
  (records : list ModelTraining.DatasetRecord) :
  (3 <= List.length records)%nat ->
  (Z.of_nat (List.length records) < 2 ^ 32)%Z ->
  ~ zeroed (ModelTraining.trainModel datasetId records).
Proof.
  intros H3 H32 (Hcoefficients & _ & Hintercept & _ & Hmae & Htier & _).
  destruct (trainModel_metrics datasetId records H3 H32)
    as (Hsize & Emae & Etier).
  set (r := ModelTraining.trainModel datasetId records) in *.
  set (test := ModelTraining.test _) in *.
  set (intercept := ModelTraining.intercept r) in *.
  assert (Z.of_nat (List.length test) < 2 ^ 53)%Z as H53 by lia.
  assert (testCases r test
          = map (fun record => (ModelTraining.targetValue record, intercept))
              test) as Hcases.
  { unfold testCases. rewrite Hcoefficients. reflexivity. }
  rewrite Hcases in Emae, Etier. clear Hcases.
  assert (ModelTraining.classifyTier intercept = "low"%string) as Hlow.
  { destruct (eqb_zero_cases _ Hintercept) as [-> | ->]; reflexivity. }
  match type of Etier with
  | _ = JS.of_nat ?c / _ => destruct c as [|k] eqn:Ematches
  end.
  - (* no held-out record is of the tier of 0 *)
    apply count_zero in Ematches. rewrite Forall_map in Ematches.
    assert (forall record,
              In record test ->
              big (abs (ModelTraining.targetValue record - intercept)))
      as Hterm.
    { rewrite Forall_forall in Ematches. intros record Hin.
      specialize (Ematches record Hin). cbv beta iota in Ematches.
      rewrite Hlow in Ematches.
      apply abs_big, sub_zero_big;
        [exact Hintercept|apply not_low_big, Ematches]. }
    rewrite fold_left_over_map in Emae.
    assert ((ModelTraining.mae r =? 0) = false) as Hnot; [|congruence].
    rewrite Emae. apply div_count_not_zero; [lia|exact H53|].
    destruct test as [|held test']; [cbn [List.length] in Hsize; lia|].
    cbn [fold_left].
    apply (fold_big
             (fun record => abs (ModelTraining.targetValue record - intercept))).
    + apply Forall_forall. intros record Hin. apply Hterm. right. exact Hin.
    + apply add_zero_big, Hterm. left. reflexivity.
  - (* some held-out record is of the tier of 0 *)
    assert (S k <= List.length test)%nat as Hbound.
    { rewrite <- Ematches.
      eapply Nat.le_trans; [apply count_bound|]. rewrite length_map. lia. }
    assert ((ModelTraining.tierAccuracy r =? 0) = false) as Hnot;
      [|congruence].
    rewrite Etier. apply div_count_not_zero; [lia|exact H53|].
    apply of_nat_big; lia.
Qed.

(** C10: for every record list with at least 3 elements (an array has
    fewer than 2^32), the split index [floor(n * 0.8)] of the default
    ratio is the quotient of [4 * n] by 5 and lies between 1 and
    [n - 1], so that both slices of [splitData] are non-empty, the
    second guard of [trainModel] is never taken, and [trainModel]
    returns the zeroed result exactly when it is given fewer than 3
    records: with 3 records or more its result is not the zeroed one,
    whatever sample counts the zeroed one is given. *)
Theorem trainModel_zeroed_iff_fewer_than_3 :
  forall (datasetId : string) (records : list ModelTraining.DatasetRecord),
    let n := List.length records in
    let split :=
      ModelTraining.splitData records ModelTraining.defaultTrainRatio in
    (Z.of_nat n < 2 ^ 32)%Z ->
    ((3 <= n)%nat ->
       JS.ToIntegerOrInfinity
         (JS.Math_floor (JS.of_nat n * ModelTraining.defaultTrainRatio))
       = JS.Int (Z.of_nat (splitIndex n))
       /\ (1 <= splitIndex n < n)%nat
       /\ List.length (ModelTraining.train split) = splitIndex n
       /\ List.length (ModelTraining.test split) = (n - splitIndex n)%nat
       /\ ModelTraining.train split <> []
       /\ ModelTraining.test split <> []
       /\ ModelTraining.trainSampleCount
            (ModelTraining.trainModel datasetId records) = splitIndex n
       /\ ModelTraining.testSampleCount
            (ModelTraining.trainModel datasetId records)
          = (n - splitIndex n)%nat)
    /\ (ModelTraining.trainModel datasetId records
        = ModelTraining.zeroResult 0 0 <-> (n < 3)%nat)
    /\ (zeroed (ModelTraining.trainModel datasetId records) <-> (n < 3)%nat)
    /\ ((exists trainCount testCount,
           ModelTraining.trainModel datasetId records
           = ModelTraining.zeroResult trainCount testCount)
        <-> (n < 3)%nat).
Proof.
  intros datasetId records n split H32.
  assert ((3 <= n)%nat ->
          (1 <= splitIndex n < n)%nat
          /\ List.length (ModelTraining.train split) = splitIndex n
          /\ List.length (ModelTraining.test split) = (n - splitIndex n)%nat)
    as Hsizes.
  { intros H3. split; [apply splitIndex_bounds; exact H3|].
    apply splitData_default_lengths; assumption. }
  assert ((n < 3)%nat ->
          ModelTraining.trainModel datasetId records
          = ModelTraining.zeroResult 0 0) as Hfew.
  { intros Hlt. unfold ModelTraining.trainModel.
    destruct (Nat.ltb_spec (List.length records) 3); [reflexivity|].
    unfold n in Hlt. lia. }
  assert (forall trainCount testCount,
            zeroed (ModelTraining.zeroResult trainCount testCount))
    as Hzeroed by (intros; repeat split).
  assert (zeroed (ModelTraining.trainModel datasetId records) -> (n < 3)%nat)
    as Honly.
  { intros Hzero. destruct (Nat.lt_ge_cases n 3) as [|H3]; [assumption|].
    exfalso. exact (trainModel_not_zeroed datasetId records H3 H32 Hzero). }
  split; [|split; [|split]].
  - intros H3. destruct (Hsizes H3) as (Hk & Htrain & Htest).
    destruct (trainModel_counts datasetId records H3) as [Hc1 Hc2].
    fold split in Hc1, Hc2.
    split.
    { rewrite (floor_train_ratio n H3 H32). unfold splitIndex.
      rewrite Z2Nat.id by (apply Z.div_pos; lia). reflexivity. }
    repeat split; try lia; try congruence.
    + intros E. rewrite E in Htrain. simpl in Htrain. lia.
    + intros E. rewrite E in Htest. simpl in Htest. lia.
  - split; [|exact Hfew].
    intros Hzero. apply Honly. rewrite Hzero. apply Hzeroed.
  - split; [exact Honly|].
    intros Hlt. rewrite (Hfew Hlt). apply Hzeroed.
  - split.
    + intros (trainCount & testCount & Hzero). apply Honly.
      rewrite Hzero. apply Hzeroed.
    + intros Hlt. exists 0%nat, 0%nat. exact (Hfew Hlt).
Qed.

Lemma trainModel_zeroed_iff_fewer_than_3_witness :
  (Z.of_nat (List.length five_records) < 2 ^ 32)%Z
  /\ (3 <= List.length five_records)%nat
  /\ List.length
       (ModelTraining.train
          (ModelTraining.splitData five_records
             ModelTraining.defaultTrainRatio)) = 4%nat
  /\ ~ zeroed (ModelTraining.trainModel "videos" five_records).
Proof.
  assert (Z.of_nat (List.length five_records) < 2 ^ 32)%Z as H32
    by (vm_compute; reflexivity).
  assert (3 <= List.length five_records)%nat as H3 by (simpl; lia).
  split; [exact H32|]. split; [exact H3|]. split.
  - exact (proj1 (proj2 (proj2
             (proj1 (trainModel_zeroed_iff_fewer_than_3
                       "videos" five_records H32) H3)))).
  - intros Hzero.
    pose proof (proj1 (proj1 (proj2 (proj2
                  (trainModel_zeroed_iff_fewer_than_3
                     "videos" five_records H32)))) Hzero) as Hlt.
    cbn in Hlt. lia.
Defined.

(** ** feature-engineering.ts: [normalizeFeatures] *)

Lemma get_set_same {A} (o : JS.Record A) (k : string) (v : A) :
  JS.get (JS.set o k v) k = Some v.
Proof.
  induction o as [|[k' v'] o IH]; simpl.
  - rewrite String.eqb_refl. reflexivity.
  - destruct (String.eqb k' k) eqn:E; simpl; rewrite E; [reflexivity|exact IH].
Qed.

Lemma get_set_other {A} (o : JS.Record A) (k k' : string) (v : A) :
  k' <> k -> JS.get (JS.set o k' v) k = JS.get o k.
Proof.
  intros Hne. induction o as [|[k0 v0] o IH]; simpl.
  - destruct (String.eqb_spec k' k); [contradiction|reflexivity].
  - destruct (String.eqb_spec k0 k') as [->|]; simpl.
    + destruct (String.eqb_spec k' k); [contradiction|reflexivity].
    + destruct (String.eqb k0 k); [reflexivity|exact IH].
Qed.

Lemma In_set {A} (o : JS.Record A) (k k' : string) (v v' : A) :
  In (k, v) (JS.set o k' v') -> (k = k' /\ v = v') \/ In (k, v) o.
Proof.
  induction o as [|[k0 v0] o IH]; simpl.
  - intros [H|[]]. left. split; congruence.
  - destruct (String.eqb_spec k0 k') as [->|]; simpl.
    + intros [H|H]; [left; split; congruence|right; right; exact H].
    + intros [H|H]; [right; left; exact H|].
      destruct (IH H) as [?|?]; [left|right; right]; assumption.
Qed.

Lemma clamp_unit_or_nan (q : float) :
  unit_or_nan (JS.Math_max 0 (JS.Math_min 1 q)).
Proof.
  destruct (is_nan q) eqn:Hq.
  - left. apply clamp_nan. exact Hq.
  - right. apply clamp_range; try reflexivity. exact Hq.
Qed.

(** What one iteration writes: 0 for a degenerate feature, the clamped
    quotient otherwise. *)
Lemma normalizeEntry_written (stats : JS.Record FeatureEngineering.FeatureStats)
  (normalized : JS.Record float) (key : string) (value : float) :
  exists w,
    FeatureEngineering.normalizeEntry stats normalized (key, value)
    = JS.set normalized key w
    /\ (degenerate stats key = true -> w = 0)
    /\ (w = 0
        \/ exists s,
             JS.get stats key = Some s
             /\ degenerate stats key = false
             /\ w = JS.Math_max 0 (JS.Math_min 1 (normalizedQuotient s value))).
Proof.
  unfold FeatureEngineering.normalizeEntry, degenerate, normalizedQuotient.
  destruct (JS.get stats key) as [s|].
  - destruct (FeatureEngineering.max s =? FeatureEngineering.min s) eqn:E.
    + exists 0. repeat split. left. reflexivity.
    + eexists. split; [reflexivity|]. split; [discriminate|].
      right. exists s. repeat split.
  - exists 0. repeat split. left. reflexivity.
Qed.

Lemma explained_written (all : JS.Record float)
  (stats : JS.Record FeatureEngineering.FeatureStats) (key : string)
  (value w : float) :
  In (key, value) all ->
  (w = 0
   \/ exists s,
        JS.get stats key = Some s
        /\ degenerate stats key = false
        /\ w = JS.Math_max 0 (JS.Math_min 1 (normalizedQuotient s value))) ->
  explained all stats key w.
Proof.
  intros Hin [->|(s & Hs & Hdeg & ->)].
  - left. split; reflexivity.
  - destruct (is_nan (normalizedQuotient s value)) eqn:Hq.
    + right. split; [apply clamp_nan; exact Hq|].
      exists value, s. repeat split; assumption.
    + left. apply clamp_range; try reflexivity. exact Hq.
Qed.

Lemma normalizeFeatures_fold_explained
  (all : JS.Record float) (stats : JS.Record FeatureEngineering.FeatureStats)
  (features normalized : JS.Record float) :
  incl features all ->
  (forall key v, In (key, v) normalized -> explained all stats key v) ->
  forall key v,
    In (key, v)
      (fold_left (FeatureEngineering.normalizeEntry stats) features normalized)
    -> explained all stats key v.
Proof.
  revert normalized. induction features as [|[k value] features IH];
    intros normalized Hincl Hacc key v; cbn [fold_left]; [apply Hacc|].
  apply IH; [intros e He; apply Hincl; right; exact He|].
  intros key' v' Hin.
  destruct (normalizeEntry_written stats normalized k value)
    as (w & Hw & _ & Hcases).
  rewrite Hw in Hin. apply In_set in Hin as [[-> ->]|Hin];
    [|exact (Hacc _ _ Hin)].
  apply (explained_written all stats k value w);
    [apply Hincl; left; reflexivity|exact Hcases].
Qed.

Lemma normalizeFeatures_fold_zero
  (stats : JS.Record FeatureEngineering.FeatureStats) (key : string)
  (features normalized : JS.Record float) :
  degenerate stats key = true ->
  (exists value, In (key, value) features) \/ JS.get normalized key = Some 0 ->
  JS.get
    (fold_left (FeatureEngineering.normalizeEntry stats) features normalized)
    key = Some 0.
Proof.
  intros Hdeg. revert normalized.
  induction features as [|[k value] features IH]; intros normalized H;
    cbn [fold_left].
  - destruct H as [[? []]|H]; exact H.
  - apply IH.
    destruct (normalizeEntry_written stats normalized k value)
      as (w & Hw & Hzero & _).
    rewrite Hw. destruct (String.eqb_spec k key) as [->|Hne].
    + right. rewrite get_set_same, (Hzero Hdeg). reflexivity.
    + destruct H as [[value' [H|H]]|H].
      * congruence.
      * left. exists value'. exact H.
      * right. rewrite get_set_other by exact Hne. exact H.
Qed.

(** C3, the claim as stated fails: a value equal to (or below) the
    minimum normalizes to 0 although [max !== min]. *)
Lemma normalizeFeatures_zero_without_degeneracy :
  let stats :=
    [("pace"%string,
      {| FeatureEngineering.min := 0.2; FeatureEngineering.max := 0.8;
         FeatureEngineering.mean := 0.5; FeatureEngineering.stdDev := 0.1 |})]
  in
  JS.get (FeatureEngineering.normalizeFeatures [("pace"%string, 0.2)] stats)
    "pace" = Some 0
  /\ degenerate stats "pace" = false.
Proof. vm_compute. split; reflexivity. Qed.

(** C3, amended: every value returned by [normalizeFeatures] lies in
    [0,1], unless the quotient [(v - min) / (max - min)] of the feature
    is NaN, in which case the value is NaN; and the normalized value of
    a feature is 0 whenever the feature has no statistics or its
    statistics satisfy [max === min] (but not only then). *)
Theorem normalizeFeatures_unit_interval :
  forall (features : JS.Record float)
         (stats : JS.Record FeatureEngineering.FeatureStats),
    (forall key v,
        In (key, v) (FeatureEngineering.normalizeFeatures features stats) ->
        ((0 <=? v) = true /\ (v <=? 1) = true)
        \/ (is_nan v = true
            /\ exists value s,
                 In (key, value) features
                 /\ JS.get stats key = Some s
                 /\ (FeatureEngineering.max s =? FeatureEngineering.min s)
                    = false
                 /\ is_nan
                      ((value - FeatureEngineering.min s)
                       / (FeatureEngineering.max s - FeatureEngineering.min s))
                    = true))
    /\ (forall key value,
          In (key, value) features -> degenerate stats key = true ->
          JS.get (FeatureEngineering.normalizeFeatures features stats) key
          = Some 0).
Proof.
  intros features stats. split.
  - intros key v Hin.
    assert (explained features stats key v) as [H|(Hnan & value & s & H)].
    { apply (normalizeFeatures_fold_explained features stats features []);
        [apply incl_refl|intros ? ? []|exact Hin]. }
    + left. exact H.
    + right. split; [exact Hnan|]. exists value, s.
      destruct H as (H1 & H2 & H3 & H4). unfold degenerate in H3.
      rewrite H2 in H3. repeat split; assumption.
  - intros key value Hin Hdeg.
    apply normalizeFeatures_fold_zero; [exact Hdeg|].
    left. exists value. exact Hin.
Qed.

Lemma normalizeFeatures_unit_interval_witness :
  let features := [("pace"%string, 0.5); ("tone"%string, 3)] in
  let stats :=
    [("pace"%string,
      {| FeatureEngineering.min := 0.4; FeatureEngineering.max := 0.4;
         FeatureEngineering.mean := 0.4; FeatureEngineering.stdDev := 0 |})]
  in
  In ("pace"%string, 0.5) features
  /\ degenerate stats "pace" = true
  /\ JS.get (FeatureEngineering.normalizeFeatures features stats) "pace"
     = Some 0.
Proof.
  intros features stats.
  assert (In ("pace"%string, 0.5) features) as Hin by (left; reflexivity).
  assert (degenerate stats "pace" = true) as Hdeg by reflexivity.
  split; [exact Hin|]. split; [exact Hdeg|].
  exact (proj2 (normalizeFeatures_unit_interval features stats)
           "pace"%string 0.5 Hin Hdeg).
Defined.

(** ** correlation-engine.ts: [computePearsonCorrelation] *)

Lemma pearson_sums (meanX meanY : float) (x y : list float) :
  List.length x = List.length y ->
  forall c a b,
    exists covariance,
      fold_left
        (fun '(covariance, varX, varY) '(xi, yi) =>
           let dx := xi - meanX in
           let dy := yi - meanY in
           (covariance + dx * dy, varX + dx * dx, varY + dy * dy))
        (combine x y) (c, a, b)
      = (covariance,
         fold_left (fun acc v => acc + (v - meanX) * (v - meanX)) x a,
         fold_left (fun acc v => acc + (v - meanY) * (v - meanY)) y b).
Proof.
  revert y. induction x as [|xi x IH]; intros [|yi y] Hlen c a b;
    try discriminate; simpl.
  - exists c. reflexivity.
  - injection Hlen as Hlen. apply (IH y Hlen).
Qed.

Lemma pearson_cases (x y : list float) :
  CorrelationEngine.computePearsonCorrelation x y = 0
  \/ exists pearsonR,
       CorrelationEngine.computePearsonCorrelation x y
       = JS.Math_max (-1) (JS.Math_min 1 pearsonR).
Proof.
  unfold CorrelationEngine.computePearsonCorrelation.
  destruct (negb (List.length x =? List.length y)%nat
            || (List.length x =? 0)%nat); [left; reflexivity|].
  match goal with
  | |- context [fold_left ?f ?l (0, 0, 0)] =>
      destruct (fold_left f l (0, 0, 0)) as [[covariance varX] varY]
  end.
  cbv zeta.
  match goal with
  | |- context [if ?b then 0 else _] => destruct b
  end; [left; reflexivity|right; eexists; reflexivity].
Qed.

(** The deviations of a constant series from its mean are 0 once the
    mean is computed exactly. *)
Lemma Prim2SF_finite_cases (c : float) :
  is_finite c = true ->
  (exists s, Prim2SF c = S754_zero s)
  \/ (exists s m e, Prim2SF c = S754_finite s m e).
Proof.
  unfold is_finite. intros H. apply negb_true_iff in H.
  apply orb_false_elim in H as [Hnan Hinf].
  apply Prim2SF_not_nan in Hnan. unfold is_infinity in Hinf.
  rewrite eqb_spec, abs_spec in Hinf.
  replace (Prim2SF infinity) with (S754_infinity false) in Hinf
    by (vm_compute; reflexivity).
  destruct (Prim2SF c) as [s|s| |s m e]; try congruence; eauto.
  simpl in Hinf. discriminate.
Qed.

Lemma sub_diag_finite (c : float) : is_finite c = true -> c - c = 0.
Proof.
  intros Hc. apply Prim2SF_inj. rewrite sub_spec, Prim2SF_zero.
  destruct (Prim2SF_finite_cases c Hc) as [[s ->]|(s & m & e & ->)].
  - destruct s; reflexivity.
  - unfold SF64sub, SFsub. rewrite Z.sub_diag. reflexivity.
Qed.

Lemma squares_of_constant (c : float) (n : nat) :
  is_finite c = true ->
  fold_left (fun acc v => acc + (v - c) * (v - c)) (repeat c n) 0 = 0.
Proof.
  intros Hc. induction n as [|n IH]; [reflexivity|].
  cbn [repeat fold_left]. rewrite (sub_diag_finite c Hc).
  change (0 + 0 * 0) with 0. exact IH.
Qed.

Lemma zero_div_count (n : nat) :
  (1 <= n)%nat -> (Z.of_nat n < 2 ^ 53)%Z -> 0 / JS.of_nat n = 0.
Proof.
  intros H1 Hn. apply Prim2SF_inj. rewrite div_spec, Prim2SF_zero.
  rewrite of_nat_spec
    by (change (2 ^ 53)%Z with 9007199254740992%Z in Hn;
        change (2 ^ 63)%Z with 9223372036854775808%Z; lia).
  destruct (Z.of_nat n) as [|q|q] eqn:Eq; try lia.
  destruct (binary_normalize_integer q Hn) as (m & -> & _). reflexivity.
Qed.

Lemma computedStdDev_constant (c : float) (n : nat) :
  (1 <= n)%nat -> (Z.of_nat n < 2 ^ 53)%Z -> is_finite c = true ->
  computedMean (repeat c n) = c ->
  computedStdDev (repeat c n) = 0.
Proof.
  intros H1 Hn Hc Hmean. unfold computedStdDev. unfold computedMean in Hmean.
  cbv zeta. rewrite Hmean, (squares_of_constant c n Hc).
  rewrite repeat_length, (zero_div_count n H1 Hn). reflexivity.
Qed.

(** C9: [computePearsonCorrelation] does not return 0 for every series
    without variance.  The mean of [0.1, 0.1, 0.1] is computed as
    0.10000000000000002, so the deviations and the standard deviation
    that the function tests against 0 are not 0, and two such series
    come out perfectly correlated: the result is 1, as it is for
    [0.7, 0.7, 0.7]. *)
Lemma pearson_constant_series_not_zero :
  (CorrelationEngine.computePearsonCorrelation
     [0.1; 0.1; 0.1] [0.1; 0.1; 0.1] =? 1) = true
  /\ (CorrelationEngine.computePearsonCorrelation
        [0.1; 0.1; 0.1] [0.1; 0.1; 0.1] =? 0) = false
  /\ (computedStdDev [0.1; 0.1; 0.1] =? 0) = false
  /\ (CorrelationEngine.computePearsonCorrelation
        [0.7; 0.7; 0.7] [0.7; 0.7; 0.7] =? 1) = true.
Proof. vm_compute. repeat split; reflexivity. Qed.

Lemma pearson_zero_deviation (x y : list float) :
  List.length x = List.length y ->
  (computedStdDev x =? 0) = true \/ (computedStdDev y =? 0) = true ->
  CorrelationEngine.computePearsonCorrelation x y = 0.
Proof.
  intros Hlen Hstd. unfold CorrelationEngine.computePearsonCorrelation.
  destruct (negb (List.length x =? List.length y)%nat
            || (List.length x =? 0)%nat); [reflexivity|].
  destruct (pearson_sums
              (JS.sum x / JS.of_nat (List.length x))
              (JS.sum y / JS.of_nat (List.length x)) x y Hlen 0 0 0)
    as [covariance Hfold].
  cbv zeta in Hfold |- *. rewrite Hfold.
  unfold computedStdDev in Hstd. cbv zeta in Hstd. rewrite <- Hlen in Hstd.
  destruct Hstd as [Hstd|Hstd]; rewrite Hstd;
    [|rewrite orb_true_r]; reflexivity.
Qed.

Lemma pearson_length_mismatch (x y : list float) :
  List.length x <> List.length y ->
  CorrelationEngine.computePearsonCorrelation x y = 0.
Proof.
  intros Hne. unfold CorrelationEngine.computePearsonCorrelation.
  destruct (Nat.eqb_spec (List.length x) (List.length y));
    [contradiction|reflexivity].
Qed.

Lemma pearson_empty (x y : list float) :
  x = [] -> CorrelationEngine.computePearsonCorrelation x y = 0.
Proof.
  intros ->. unfold CorrelationEngine.computePearsonCorrelation.
  rewrite orb_true_r. reflexivity.
Qed.

Lemma computedStdDev_constant_series (c : float) (x : list float) :
  x <> [] -> (Z.of_nat (List.length x) < 2 ^ 32)%Z ->
  x = repeat c (List.length x) -> is_finite c = true ->
  computedMean x = c ->
  (computedStdDev x =? 0) = true.
Proof.
  intros Hne Hlen Hx Hc Hmean. rewrite Hx in Hmean |- *.
  rewrite computedStdDev_constant; try assumption; [reflexivity| |].
  - destruct x; [contradiction|simpl; lia].
  - change (2 ^ 32)%Z with 4294967296%Z in Hlen.
    change (2 ^ 53)%Z with 9007199254740992%Z. lia.
Qed.

(** X28: [computePearsonCorrelation] returns 0 whenever the arrays
    have different lengths, are empty, or the standard deviation it
    computes for either series is 0, which is the case of a constant
    series of a finite value whose mean is computed exactly; its result
    lies in [-1,1] or is NaN; and
    [computePearsonCorrelation([1,2,3],[2,4,6]) == 1] and
    [computePearsonCorrelation([1,2,3],[3,2,1]) == -1] hold exactly. *)
Theorem computePearsonCorrelation_contract :
  forall x y : list float,
    let r := CorrelationEngine.computePearsonCorrelation x y in
    (List.length x <> List.length y -> r = 0)
    /\ (x = [] -> r = 0)
    /\ (List.length x = List.length y ->
        (computedStdDev x =? 0) = true \/ (computedStdDev y =? 0) = true ->
        r = 0)
    /\ (forall c,
          (Z.of_nat (List.length x) < 2 ^ 32)%Z ->
          x = repeat c (List.length x) -> is_finite c = true ->
          computedMean x = c -> r = 0)
    /\ (forall c,
          (Z.of_nat (List.length y) < 2 ^ 32)%Z ->
          y = repeat c (List.length y) -> is_finite c = true ->
          computedMean y = c -> r = 0)
    /\ (is_nan r = true \/ ((-1 <=? r) = true /\ (r <=? 1) = true))
    /\ (CorrelationEngine.computePearsonCorrelation [1; 2; 3] [2; 4; 6] =? 1)
       = true
    /\ (CorrelationEngine.computePearsonCorrelation [1; 2; 3] [3; 2; 1]
          =? -1) = true.
Proof.
  intros x y r. subst r.
  split; [apply pearson_length_mismatch|].
  split; [apply pearson_empty|].
  split; [apply pearson_zero_deviation|].
  split; [|split]; [| |split; [|split; reflexivity]].
  - intros c Hlen Hx Hc Hmean.
    destruct (Nat.eq_dec (List.length x) (List.length y)) as [E|NE];
      [|apply pearson_length_mismatch; exact NE].
    destruct x as [|x0 x']; [apply pearson_empty; reflexivity|].
    apply pearson_zero_deviation; [exact E|]. left.
    apply (computedStdDev_constant_series c); try assumption. discriminate.
  - intros c Hlen Hy Hc Hmean.
    destruct (Nat.eq_dec (List.length x) (List.length y)) as [E|NE];
      [|apply pearson_length_mismatch; exact NE].
    destruct y as [|y0 y'].
    { apply pearson_empty. destruct x; [reflexivity|discriminate E]. }
    apply pearson_zero_deviation; [exact E|]. right.
    apply (computedStdDev_constant_series c); try assumption. discriminate.
  - destruct (pearson_cases x y) as [->|[pearsonR ->]].
    + right. split; reflexivity.
    + destruct (is_nan pearsonR) eqn:Hq.
      * left. apply clamp_nan. exact Hq.
      * right. apply clamp_range; try reflexivity. exact Hq.
Qed.

Lemma computePearsonCorrelation_contract_witness :
  (Z.of_nat (List.length [5; 5; 5]) < 2 ^ 32)%Z
  /\ [5; 5; 5] = repeat 5 (List.length [5; 5; 5])
  /\ is_finite 5 = true
  /\ computedMean [5; 5; 5] = 5
  /\ CorrelationEngine.computePearsonCorrelation [1; 2; 3] [5; 5; 5] = 0.
Proof.
  assert (Z.of_nat (List.length [5; 5; 5]) < 2 ^ 32)%Z as Hlen
    by (vm_compute; reflexivity).
  assert (computedMean [5; 5; 5] = 5) as Hmean by (vm_compute; reflexivity).
  split; [exact Hlen|]. split; [reflexivity|]. split; [reflexivity|].
  split; [exact Hmean|].
  exact (proj1 (proj2 (proj2 (proj2 (proj2
           (computePearsonCorrelation_contract [1; 2; 3] [5; 5; 5])))))
           5 Hlen eq_refl eq_refl Hmean).
Defined.

(** ** correlation-engine.ts: [computeAMI] *)

(** C7, the claim as stated fails: a layer with a negative score has
    non-zero data but is not counted, [computeAMI({1: -0.5})] has
    confidence 0.2 where the formula of the claim gives 0.4. *)
Lemma computeAMI_negative_layer_not_counted :
  (CorrelationEngine.confidence
     (CorrelationEngine.computeAMI [("1"%string, -0.5)]) =? 0.2) = true
  /\ (confidenceFromNonZeroLayers [("1"%string, -0.5)] =? 0.4) = true
  /\ (CorrelationEngine.confidence
        (CorrelationEngine.computeAMI [("1"%string, -0.5)])
      =? confidenceFromNonZeroLayers [("1"%string, -0.5)]) = false.
Proof. vm_compute. repeat split; reflexivity. Qed.

(** C7, amended: [computeAMI] returns the weighted sum
    0.2 cultural + 0.3 search + 0.25 marketplace + 0.25 media of the
    scores of layers 1 to 4 (0 for an absent layer), clamped to [0,1];
    the stage follows the ordered rules of the claim; the confidence is
    [min(1, (k / 4) * 0.8 + 0.2)] where [k] is the number of layers of
    the map with a score above 0; and
    [computeAMI({1: 0.8, 2: 0.1, 3: 0, 4: 0})] has stage early_noise. *)
Theorem computeAMI_contract :
  forall layerSignals : JS.Record float,
    let cultural := layerScore layerSignals "1" in
    let search := layerScore layerSignals "2" in
    let marketplace := layerScore layerSignals "3" in
    let media := layerScore layerSignals "4" in
    let r := CorrelationEngine.computeAMI layerSignals in
    CorrelationEngine.ami r
    = JS.Math_max 0
        (JS.Math_min 1
           (cultural * 0.2 + search * 0.3 + marketplace * 0.25
            + media * 0.25))
    /\ (is_nan (CorrelationEngine.ami r) = true
        \/ ((0 <=? CorrelationEngine.ami r) = true
            /\ (CorrelationEngine.ami r <=? 1) = true))
    /\ ((0.6 <? cultural) && (search <? 0.3) = true ->
        CorrelationEngine.stage r = CorrelationEngine.early_noise)
    /\ ((0.6 <? cultural) && (search <? 0.3) = false ->
        (0.5 <? search) = true ->
        CorrelationEngine.stage r = CorrelationEngine.search_growth)
    /\ ((0.6 <? cultural) && (search <? 0.3) = false ->
        (0.5 <? search) = false -> (0.5 <? marketplace) = true ->
        CorrelationEngine.stage r = CorrelationEngine.buyer_interest)
    /\ ((0.6 <? cultural) && (search <? 0.3) = false ->
        (0.5 <? search) = false -> (0.5 <? marketplace) = false ->
        (0.6 <? media) = true ->
        CorrelationEngine.stage r = CorrelationEngine.media_amplification)
    /\ ((0.6 <? cultural) && (search <? 0.3) = false ->
        (0.5 <? search) = false -> (0.5 <? marketplace) = false ->
        (0.6 <? media) = false ->
        CorrelationEngine.stage r = CorrelationEngine.early_noise)
    /\ CorrelationEngine.confidence r
       = JS.Math_min 1
           ((JS.of_nat (positiveLayers layerSignals) / 4) * 0.8 + 0.2)
    /\ CorrelationEngine.stage
         (CorrelationEngine.computeAMI
            [("1"%string, 0.8); ("2"%string, 0.1); ("3"%string, 0);
             ("4"%string, 0)])
       = CorrelationEngine.early_noise.
Proof.
  intros layerSignals cultural search marketplace media r.
  subst r. unfold CorrelationEngine.computeAMI.
  cbn [CorrelationEngine.ami CorrelationEngine.stage
         CorrelationEngine.confidence].
  fold (layerScore layerSignals "1") (layerScore layerSignals "2")
    (layerScore layerSignals "3") (layerScore layerSignals "4").
  fold cultural search marketplace media.
  split; [reflexivity|]. split; [apply clamp_unit_or_nan|].
  split; [intros ->; reflexivity|].
  split; [intros -> ->; reflexivity|].
  split; [intros -> -> ->; reflexivity|].
  split; [intros -> -> -> ->; reflexivity|].
  split; [intros -> -> -> ->; reflexivity|].
  split; reflexivity.
Qed.

Lemma computeAMI_contract_witness :
  let layerSignals := [("2"%string, 0.7); ("4"%string, 0.9)] in
  (0.6 <? layerScore layerSignals "1")
  && (layerScore layerSignals "2" <? 0.3) = false
  /\ (0.5 <? layerScore layerSignals "2") = true
  /\ CorrelationEngine.stage (CorrelationEngine.computeAMI layerSignals)
     = CorrelationEngine.search_growth.
Proof.
  intros layerSignals.
  assert ((0.6 <? layerScore layerSignals "1")
          && (layerScore layerSignals "2" <? 0.3) = false) as H1
    by reflexivity.
  assert ((0.5 <? layerScore layerSignals "2") = true) as H2 by reflexivity.
  split; [exact H1|]. split; [exact H2|].
  exact (proj1 (proj2 (proj2 (proj2 (computeAMI_contract layerSignals))))
           H1 H2).
Defined.

(** ** drift-detection.ts: [detectDrift] *)

Lemma engagementDrop_verdict (actuals : list float) :
  verdict (DriftDetection.engagementDrop actuals)
  = if (2 <=? List.length (earlierThan 5 actuals))%nat
       && negb (computedStdDev (earlierThan 5 actuals) =? 0)
    then
      if 3 <? engagementDeviation actuals
      then (DriftDetection.severe, DriftDetection.increase_exploration)
      else if 2 <? engagementDeviation actuals
      then (DriftDetection.moderate, DriftDetection.increase_exploration)
      else (DriftDetection.sev_none, DriftDetection.rec_none)
    else (DriftDetection.sev_none, DriftDetection.rec_none).
Proof.
  unfold DriftDetection.engagementDrop, engagementDeviation.
  pose proof (slice_last actuals 5 ltac:(lia)) as Hrecent.
  pose proof (slice_but_last actuals 5 ltac:(lia)) as Hearlier.
  cbn [Z.opp] in Hrecent, Hearlier. rewrite Hrecent, Hearlier.
  clear Hrecent Hearlier. change (Z.to_nat 5) with 5%nat.
  fold (earlierThan 5 actuals) (mostRecent 5 actuals).
  set (earlier := earlierThan 5 actuals).
  set (recent := mostRecent 5 actuals).
  assert (List.length earlier = (List.length actuals - 5)%nat) as Hlen.
  { subst earlier. unfold earlierThan. rewrite length_firstn. lia. }
  cbv zeta.
  fold (computedMean earlier) (computedMean recent).
  change (sqrt (fold_left
                  (fun s v => s + (v - computedMean earlier)
                                  * (v - computedMean earlier))
                  earlier 0 / JS.of_nat (List.length earlier)))
    with (computedStdDev earlier).
  destruct (Nat.leb_spec 5 (List.length actuals)) as [H5|H5].
  2:{ destruct (Nat.leb_spec 2 (List.length earlier)); [lia|reflexivity]. }
  destruct (Nat.leb_spec 2 (List.length earlier)) as [H2|H2];
    [|reflexivity].
  cbn [andb].
  pose proof (sqrt_sign
                (fold_left
                   (fun s v => s + (v - computedMean earlier)
                                   * (v - computedMean earlier))
                   earlier 0 / JS.of_nat (List.length earlier))) as Hsign.
  change (sqrt (fold_left
                  (fun s v => s + (v - computedMean earlier)
                                  * (v - computedMean earlier))
                  earlier 0 / JS.of_nat (List.length earlier)))
    with (computedStdDev earlier) in Hsign.
  set (sd := computedStdDev earlier) in *.
  set (dev := (computedMean earlier - computedMean recent) / sd).
  destruct Hsign as [Hnan|[[Hz Hp]|[Hz Hp]]].
  - (* NaN: the code rejects it, the deviation of the claim is NaN *)
    assert (is_nan dev = true) as Hdev by (apply div_nan_r; exact Hnan).
    rewrite (ltb_nan_r 0 sd Hnan), (ltb_nan_r 3 dev Hdev),
      (ltb_nan_r 2 dev Hdev).
    destruct (negb (sd =? 0)); reflexivity.
  - rewrite Hz, Hp. reflexivity.
  - rewrite Hz, Hp. cbn [negb].
    destruct (3 <? dev) eqn:H3.
    + rewrite (three_lt_two_lt dev H3). reflexivity.
    + destruct (2 <? dev); reflexivity.
Qed.

Lemma validatedPairs_count (l : list DriftDetection.PredictionLog) :
  List.length (validatedPairs l)
  = List.length (filter DriftDetection.is_validated l).
Proof.
  induction l as [|p l IH]; [reflexivity|].
  cbn [validatedPairs filter].
  change (DriftDetection.is_validated p)
    with (match DriftDetection.actualValue p with
          | Some _ => true
          | None => false
          end).
  destruct (DriftDetection.actualValue p); cbn [List.length];
    rewrite IH; reflexivity.
Qed.

Lemma validatedPairs_overestimated (l : list DriftDetection.PredictionLog) :
  List.length (filter overestimated (validatedPairs l))
  = List.length (filter DriftDetection.overestimates l).
Proof.
  induction l as [|p l IH]; [reflexivity|].
  cbn [validatedPairs filter].
  change (DriftDetection.overestimates p)
    with (match DriftDetection.actualValue p with
          | Some actual => actual <? DriftDetection.predictedValue p
          | None => false
          end).
  destruct (DriftDetection.actualValue p) as [actual|]; [|exact IH].
  cbn [filter overestimated].
  destruct (actual <? DriftDetection.predictedValue p);
    cbn [List.length]; rewrite IH; reflexivity.
Qed.

Lemma validatedPairs_actuals (l : list DriftDetection.PredictionLog) :
  map snd (validatedPairs l)
  = DriftDetection.actualValues (filter DriftDetection.is_validated l).
Proof.
  unfold DriftDetection.actualValues.
  induction l as [|p l IH]; [reflexivity|].
  cbn [validatedPairs filter].
  change (DriftDetection.is_validated p)
    with (match DriftDetection.actualValue p with
          | Some _ => true
          | None => false
          end).
  destruct (DriftDetection.actualValue p) as [actual|] eqn:E; [|exact IH].
  cbn [map snd flat_map app]. rewrite E, IH. reflexivity.
Qed.

Lemma slice_from {A} (l : list A) (start : Z) :
  (0 <= start)%Z -> JS.slice l (JS.Int start) None = skipn (Z.to_nat start) l.
Proof.
  intros H. unfold JS.slice, JS.relative_index.
  destruct (Z.ltb_spec start 0) as [|_]; [lia|].
  destruct (Nat.le_gt_cases (Z.to_nat start) (List.length l)) as [Hin|Hout].
  - rewrite Nat.min_l by exact Hin. apply firstn_all2.
    rewrite length_skipn. lia.
  - rewrite Nat.min_r by lia. rewrite Nat.sub_diag.
    rewrite !skipn_all2 by lia. reflexivity.
Qed.

(** The window that [detectDrift] takes. *)
Lemma slice_lastEntries {A} (l : list A) (windowSize : Z) :
  JS.slice l (JS.Int (- windowSize)) None = lastEntries windowSize l.
Proof.
  unfold lastEntries. destruct (Z.ltb_spec 0 windowSize) as [Hpos|Hneg].
  - apply slice_last. exact Hpos.
  - apply slice_from. lia.
Qed.

Lemma detectDrift_verdict (predictions : list DriftDetection.PredictionLog)
  (windowSize : Z) :
  verdict (DriftDetection.detectDrift predictions windowSize)
  = driftVerdict predictions windowSize.
Proof.
  unfold driftVerdict, DriftDetection.detectDrift.
  destruct predictions as [|p ps].
  { unfold lastEntries, mostRecent.
    destruct (0 <? windowSize)%Z; rewrite skipn_nil; reflexivity. }
  rewrite slice_lastEntries.
  set (window := lastEntries windowSize (p :: ps)).
  cbv zeta. unfold driftRules, overestimationFraction.
  rewrite validatedPairs_actuals, validatedPairs_overestimated,
    validatedPairs_count, <- engagementDrop_verdict.
  destruct (List.length (filter DriftDetection.is_validated window))
    as [|k]; cbn [Nat.ltb Nat.leb Nat.eqb negb andb].
  - reflexivity.
  - destruct (0.8 <? _); [reflexivity|].
    destruct (0.6 <? _); reflexivity.
Qed.

Lemma engagementDrop_flag (actuals : list float) :
  DriftDetection.driftDetected (DriftDetection.engagementDrop actuals)
  = detected (DriftDetection.severity (DriftDetection.engagementDrop actuals)).
Proof.
  unfold DriftDetection.engagementDrop. cbv zeta.
  repeat match goal with
         | |- context [if ?b then _ else _] => destruct b
         end; reflexivity.
Qed.

Lemma detectDrift_flag (predictions : list DriftDetection.PredictionLog)
  (windowSize : Z) :
  DriftDetection.driftDetected
    (DriftDetection.detectDrift predictions windowSize)
  = detected
      (DriftDetection.severity
         (DriftDetection.detectDrift predictions windowSize)).
Proof.
  unfold DriftDetection.detectDrift.
  destruct predictions as [|p ps]; [reflexivity|]. cbv zeta.
  destruct (0 <? List.length _)%nat; [|apply engagementDrop_flag].
  destruct (0.8 <? _); [reflexivity|].
  destruct (0.6 <? _); [reflexivity|apply engagementDrop_flag].
Qed.

(** C4, the claim as stated fails: the window is taken before the
    entries without an actual value are left out.  On ten validated
    predictions, nine of them above the actual value, followed by ten
    predictions that are not validated yet, the ten most recent
    validated entries give severe / retrain, while [detectDrift] with
    the default window looks at the last ten entries, finds none of
    them validated, and reports no drift. *)
Lemma detectDrift_window_before_validation :
  claimedVerdict twenty_predictions DriftDetection.defaultWindowSize
  = (DriftDetection.severe, DriftDetection.retrain)
  /\ verdict
       (DriftDetection.detectDrift twenty_predictions
          DriftDetection.defaultWindowSize)
     = (DriftDetection.sev_none, DriftDetection.rec_none)
  /\ DriftDetection.driftDetected
       (DriftDetection.detectDrift twenty_predictions
          DriftDetection.defaultWindowSize) = false.
Proof. vm_compute. repeat split. Qed.

(** C4, amended: over those of the last [windowSize] entries of the
    log list that have a validated actual value (the entries without
    one count towards the window; the window is the whole list when
    [windowSize] is 0), [detectDrift] applies the rules in strict
    priority order: severe / retrain when the fraction with
    predicted > actual exceeds 0.8; else moderate / reduce_confidence
    when it exceeds 0.6; else the engagement-drop test (at least 2
    actuals before the last 5, a non-zero standard deviation; severe
    above 3 deviations, moderate above 2, increase_exploration); else no
    drift.  On 10 predictions, all validated, of which 9 have
    predicted > actual it returns severe / retrain. *)
Theorem detectDrift_priority_order :
  forall (predictions : list DriftDetection.PredictionLog) (windowSize : Z),
    let status := DriftDetection.detectDrift predictions windowSize in
    (DriftDetection.severity status, DriftDetection.recommendation status)
    = driftVerdict predictions windowSize
    /\ DriftDetection.driftDetected status
       = detected (DriftDetection.severity status)
    /\ (List.length predictions = 10%nat ->
        List.length (validatedPairs predictions) = 10%nat ->
        List.length (filter overestimated (validatedPairs predictions))
        = 9%nat ->
        let default :=
          DriftDetection.detectDrift predictions
            DriftDetection.defaultWindowSize in
        DriftDetection.severity default = DriftDetection.severe
        /\ DriftDetection.recommendation default = DriftDetection.retrain).
Proof.
  intros predictions windowSize status. split; [|split].
  - apply (detectDrift_verdict predictions windowSize).
  - apply detectDrift_flag.
  - intros Hlen Hvalid Hover default.
    assert (verdict default
            = (DriftDetection.severe, DriftDetection.retrain)) as H.
    { subst default. rewrite detectDrift_verdict.
      unfold driftVerdict, lastEntries, mostRecent,
        DriftDetection.defaultWindowSize.
      cbn [Z.ltb Z.compare]. rewrite Hlen.
      change (10 - Z.to_nat 10)%nat with 0%nat. cbn [skipn].
      unfold driftRules, overestimationFraction. rewrite Hover, Hvalid.
      reflexivity. }
    unfold verdict in H. injection H as H1 H2. split; assumption.
Qed.

Lemma detectDrift_priority_order_witness :
  List.length ten_predictions = 10%nat
  /\ List.length (validatedPairs ten_predictions) = 10%nat
  /\ List.length (filter overestimated (validatedPairs ten_predictions))
     = 9%nat
  /\ DriftDetection.severity
       (DriftDetection.detectDrift ten_predictions
          DriftDetection.defaultWindowSize) = DriftDetection.severe
  /\ DriftDetection.recommendation
       (DriftDetection.detectDrift ten_predictions
          DriftDetection.defaultWindowSize) = DriftDetection.retrain.
Proof.
  assert (List.length ten_predictions = 10%nat) as Hlen by reflexivity.
  assert (List.length (validatedPairs ten_predictions) = 10%nat)
    as Hvalid by reflexivity.
  assert (List.length (filter overestimated (validatedPairs ten_predictions))
          = 9%nat) as Hover by reflexivity.
  split; [exact Hlen|]. split; [exact Hvalid|]. split; [exact Hover|].
  exact (proj2 (proj2 (detectDrift_priority_order ten_predictions
                         DriftDetection.defaultWindowSize))
           Hlen Hvalid Hover).
Defined.

(** ** prediction.ts: [validatePrediction] *)

(** The [real] columns of the sample surroundings: a number is stored
    in single precision and read back as the shortest decimal that
    identifies it there, a number of a few digits comes back as it
    was, and a number beyond single precision is refused. *)
Lemma real_column_examples :
  Postgres.real (0.1 + 0.2) = JS.Ok 0.3
  /\ Postgres.real (0.8 - 0.9) = JS.Ok (-0.1)
  /\ Postgres.real 0.8 = JS.Ok 0.8
  /\ Postgres.real 16777217 = JS.Ok 16777216
  /\ (exists message, Postgres.real 1e300 = JS.Throw message)
  /\ Postgres.jsonb [0.1; nan; -0] = [Some 0.1; None; Some 0].
Proof.
  vm_compute. repeat split; try reflexivity. eexists. reflexivity.
Qed.

(** The sample database is the one that [createPredictionSnapshot]
    leaves. *)
Lemma untieredDatabase_created :
  Prediction.createPredictionSnapshot
    (environment 1700000000000 "snapshot-1") emptyDatabase
    "videos" "model-1" [0.5] [0.6] 0.75 "" 0.875 None None
  = JS.Ok (untieredDatabase, storedSnapshot).
Proof. vm_compute. reflexivity. Qed.

(** C5, the claim as stated fails: for a snapshot stored with an empty
    tier the code falls back on the tier of the predicted value, so
    [tierCorrect] is true, in the value returned and in the log, although
    the stored tier is not the tier of the actual value. *)
Lemma validatePrediction_tier_fallback :
  match
    Prediction.validatePrediction (environment 1700000500000 "log-1")
      untieredDatabase "snapshot-1" 1
  with
  | JS.Ok (_, validation) =>
      Prediction.tierCorrect validation = true
      /\ PredictionLog.tierCorrect (Prediction.log validation) = Some true
      /\ map ModelSnapshot.predictedTier
           (Prediction.modelSnapshots untieredDatabase) = [Some ""%string]
      /\ ModelTraining.classifyTier 1 = "top"%string
  | JS.Throw _ => False
  end.
Proof. vm_compute. repeat split; reflexivity. Qed.

Lemma find_none_iff (snapshotId : string) (rows : list ModelSnapshot.t) :
  find (Prediction.has_id snapshotId) rows = None
  <-> forall s, In s rows -> ModelSnapshot.id s <> snapshotId.
Proof.
  unfold Prediction.has_id. induction rows as [|r rows IH]; simpl.
  - split; [intros _ s []|reflexivity].
  - destruct (String.eqb_spec (ModelSnapshot.id r) snapshotId) as [E|NE].
    + split; [discriminate|]. intros H. exfalso.
      apply (H r); [left; reflexivity|exact E].
    + rewrite IH. split.
      * intros H s [<-|Hin]; [exact NE|exact (H s Hin)].
      * intros H s Hin. apply H. right. exact Hin.
Qed.

(** What a successful [validatePrediction] has done to the database. *)
Lemma validatePrediction_rows (env : Prediction.Environment)
  (db : Prediction.Database) (snapshotId : string) (actualValue : float)
  (db' : Prediction.Database) (validation : Prediction.Validation) :
  Prediction.validatePrediction env db snapshotId actualValue
  = JS.Ok (db', validation) ->
  Prediction.predictionLogs db'
  = Prediction.predictionLogs db ++ [Prediction.log validation]
  /\ Prediction.modelSnapshots db' = Prediction.modelSnapshots db
     /\ PredictionLog.datasetId (Prediction.log validation)
        = match find (Prediction.has_id snapshotId)
                  (Prediction.modelSnapshots db) with
          | Some snapshot => ModelSnapshot.datasetId snapshot
          | None => ""%string
          end.
Proof.
  unfold Prediction.validatePrediction.
  destruct (find (Prediction.has_id snapshotId)
              (Prediction.modelSnapshots db)) as [snapshot|]; [|discriminate].
  cbv zeta.
  destruct (Prediction.real env (ModelSnapshot.predictedValue snapshot));
    [|discriminate].
  destruct (Prediction.real env actualValue); [|discriminate].
  destruct (Prediction.real env _); [|discriminate].
  destruct (Prediction.real env _); [|discriminate].
  cbn [JS.bind]. intros H. injection H as <- <-. repeat split.
Qed.

(** [validatePrediction] on the id of a stored snapshot: when it
    succeeds, and what it then returns and stores. *)
Lemma validatePrediction_found (env : Prediction.Environment)
  (db : Prediction.Database) (snapshotId : string) (actualValue : float)
  (snapshot : ModelSnapshot.t) :
  find (Prediction.has_id snapshotId) (Prediction.modelSnapshots db)
  = Some snapshot ->
  let predicted := ModelSnapshot.predictedValue snapshot in
  let error := predicted - actualValue in
  let outcome :=
    Prediction.validatePrediction env db snapshotId actualValue in
  (forall storedPredicted storedActual storedError storedAbsolute,
     Prediction.real env predicted = JS.Ok storedPredicted ->
     Prediction.real env actualValue = JS.Ok storedActual ->
     Prediction.real env error = JS.Ok storedError ->
     Prediction.real env (abs error) = JS.Ok storedAbsolute ->
     exists db' validation, outcome = JS.Ok (db', validation))
  /\ (forall db' validation,
        outcome = JS.Ok (db', validation) ->
        let log := Prediction.log validation in
        Prediction.predictionLogs db' = Prediction.predictionLogs db ++ [log]
        /\ Prediction.modelSnapshots db' = Prediction.modelSnapshots db
        /\ PredictionLog.snapshotId log = Some snapshotId
        /\ PredictionLog.datasetId log = ModelSnapshot.datasetId snapshot
        /\ PredictionLog.modelId log
           = JS.nullish (Prediction.truthy (ModelSnapshot.modelId snapshot))
               ""%string
        /\ PredictionLog.predictedTier log
           = ModelSnapshot.predictedTier snapshot
        /\ stored env predicted (Some (PredictionLog.predictedValue log))
        /\ stored env actualValue (PredictionLog.actualValue log)
        /\ stored env error (PredictionLog.error log)
        /\ stored env (abs error) (PredictionLog.absoluteError log)
        /\ PredictionLog.directionallyCorrect log
           = Some (Prediction.directionallyCorrect validation)
        /\ PredictionLog.tierCorrect log
           = Some (Prediction.tierCorrect validation)
        /\ Prediction.predicted validation = predicted
        /\ Prediction.actualValue validation = actualValue
        /\ Prediction.error validation = error
        /\ Prediction.absoluteError validation = abs error
        /\ Prediction.directionallyCorrect validation
           = sameSideOfHalf predicted actualValue
        /\ Prediction.tierCorrect validation
           = String.eqb (effectiveTier snapshot)
               (ModelTraining.classifyTier actualValue)).
Proof.
  intros Hfind predicted error outcome. subst outcome.
  unfold Prediction.validatePrediction. rewrite Hfind. cbv zeta.
  fold predicted. fold error. split.
  - intros p a e ae Hp Ha He Hae. rewrite Hp, Ha, He, Hae.
    eexists _, _. reflexivity.
  - intros db' validation. unfold stored.
    destruct (Prediction.real env predicted) as [p|]; [|discriminate].
    destruct (Prediction.real env actualValue) as [a|]; [|discriminate].
    destruct (Prediction.real env error) as [e|]; [|discriminate].
    destruct (Prediction.real env (abs error)) as [ae|]; [|discriminate].
    cbn [JS.bind]. intros H. injection H as <- <-.
    cbn [Prediction.predictionLogs Prediction.modelSnapshots Prediction.log
         Prediction.error Prediction.directionallyCorrect
         Prediction.tierCorrect Prediction.predicted Prediction.actualValue
         Prediction.absoluteError PredictionLog.error
         PredictionLog.snapshotId PredictionLog.predictedValue
         PredictionLog.actualValue PredictionLog.absoluteError
         PredictionLog.directionallyCorrect PredictionLog.tierCorrect
         PredictionLog.datasetId PredictionLog.modelId
         PredictionLog.predictedTier].
    repeat (split; [first [reflexivity|eexists; split; reflexivity]|]).
    reflexivity.
Qed.

(** C5, amended: [validatePrediction] throws "Snapshot not found" when
    no snapshot has the id.  Otherwise it succeeds exactly when the
    database accepts the four numbers of the log in its [real] columns,
    and then appends exactly one PredictionLog and leaves the snapshots
    as they are.  The log holds, as the column stores them, the
    predicted value, the actual value, error = predicted - actual and
    its absolute value; its two flags are those of the value returned:
    directionallyCorrect iff predicted and actual are on the same side
    of 0.5, and tierCorrect iff the stored predictedTier, or
    [classifyTier(predicted)] when no tier or an empty tier is stored,
    equals [classifyTier(actualValue)].  The error of the value
    returned is the difference itself. *)
Theorem validatePrediction_contract :
  forall (env : Prediction.Environment) (db : Prediction.Database)
         (snapshotId : string) (actualValue : float),
    let outcome :=
      Prediction.validatePrediction env db snapshotId actualValue in
    ((forall s, In s (Prediction.modelSnapshots db) ->
                ModelSnapshot.id s <> snapshotId) ->
     outcome = JS.Throw "Snapshot not found")
    /\ (forall snapshot,
          find (Prediction.has_id snapshotId) (Prediction.modelSnapshots db)
          = Some snapshot ->
          let predicted := ModelSnapshot.predictedValue snapshot in
          let error := predicted - actualValue in
          (forall storedPredicted storedActual storedError storedAbsolute,
             Prediction.real env predicted = JS.Ok storedPredicted ->
             Prediction.real env actualValue = JS.Ok storedActual ->
             Prediction.real env error = JS.Ok storedError ->
             Prediction.real env (abs error) = JS.Ok storedAbsolute ->
             exists db' validation,
               outcome = JS.Ok (db', validation))
          /\ (forall db' validation,
                outcome = JS.Ok (db', validation) ->
                let log := Prediction.log validation in
                Prediction.predictionLogs db'
                = Prediction.predictionLogs db ++ [log]
                /\ Prediction.modelSnapshots db'
                   = Prediction.modelSnapshots db
                /\ PredictionLog.snapshotId log = Some snapshotId
                /\ stored env predicted
                     (Some (PredictionLog.predictedValue log))
                /\ stored env actualValue (PredictionLog.actualValue log)
                /\ stored env error (PredictionLog.error log)
                /\ stored env (abs error) (PredictionLog.absoluteError log)
                /\ PredictionLog.directionallyCorrect log
                   = Some (Prediction.directionallyCorrect validation)
                /\ PredictionLog.tierCorrect log
                   = Some (Prediction.tierCorrect validation)
                /\ Prediction.error validation = error
                /\ Prediction.directionallyCorrect validation
                   = sameSideOfHalf predicted actualValue
                /\ (Prediction.tierCorrect validation = true
                    <-> effectiveTier snapshot
                        = ModelTraining.classifyTier actualValue)
                /\ (forall tier,
                      ModelSnapshot.predictedTier snapshot = Some tier ->
                      tier <> ""%string ->
                      (Prediction.tierCorrect validation = true
                       <-> tier = ModelTraining.classifyTier actualValue)))).
Proof.
  intros env db snapshotId actualValue outcome. subst outcome. split.
  - intros Hnone. apply find_none_iff in Hnone.
    unfold Prediction.validatePrediction. rewrite Hnone. reflexivity.
  - intros snapshot Hfind predicted error.
    destruct (validatePrediction_found env db snapshotId actualValue snapshot
                Hfind) as [Hsuccess Hcontent].
    split; [exact Hsuccess|].
    intros db' validation Hvalidated log.
    destruct (Hcontent db' validation Hvalidated)
      as (Hlogs & Hrows & Hid & _ & _ & _ & Hp & Ha & He & Hae & Hd & Ht & _
          & _ & Herror & _ & Hdirectional & Htier).
    repeat (split; [assumption|]).
    rewrite Htier. split; [apply String.eqb_eq|].
    intros tier Hstored Hne. rewrite <- String.eqb_eq.
    unfold effectiveTier, Prediction.truthy. rewrite Hstored.
    destruct (String.eqb_spec tier ""); [contradiction|]. reflexivity.
Qed.

Lemma validatePrediction_contract_witness :
  find (Prediction.has_id "snapshot-1"%string)
    (Prediction.modelSnapshots untieredDatabase) = Some storedSnapshot
  /\ Prediction.real (environment 1700000500000 "log-1") 0.75 = JS.Ok 0.75
  /\ Prediction.real (environment 1700000500000 "log-1") 1 = JS.Ok 1
  /\ Prediction.real (environment 1700000500000 "log-1") (0.75 - 1)
     = JS.Ok (-0.25)
  /\ Prediction.real (environment 1700000500000 "log-1") (abs (0.75 - 1))
     = JS.Ok 0.25
  /\ exists db' validation,
       Prediction.validatePrediction (environment 1700000500000 "log-1")
         untieredDatabase "snapshot-1" 1
       = JS.Ok (db', validation).
Proof.
  assert (find (Prediction.has_id "snapshot-1"%string)
            (Prediction.modelSnapshots untieredDatabase)
          = Some storedSnapshot) as Hfind by (vm_compute; reflexivity).
  assert (Prediction.real (environment 1700000500000 "log-1") 0.75
          = JS.Ok 0.75) as Hp by (vm_compute; reflexivity).
  assert (Prediction.real (environment 1700000500000 "log-1") 1 = JS.Ok 1)
    as Ha by (vm_compute; reflexivity).
  assert (Prediction.real (environment 1700000500000 "log-1") (0.75 - 1)
          = JS.Ok (-0.25)) as He by (vm_compute; reflexivity).
  assert (Prediction.real (environment 1700000500000 "log-1")
            (abs (0.75 - 1)) = JS.Ok 0.25) as Hae
    by (vm_compute; reflexivity).
  split; [exact Hfind|]. split; [exact Hp|]. split; [exact Ha|].
  split; [exact He|]. split; [exact Hae|].
  exact (proj1 (proj2 (validatePrediction_contract
                         (environment 1700000500000 "log-1")
                         untieredDatabase "snapshot-1" 1)
                  storedSnapshot Hfind)
           0.75 1 (-0.25) 0.25 Hp Ha He Hae).
Defined.

(** ** optimization.ts: [optimizeFeatures] *)

Lemma get_of_key {A} (o : JS.Record A) (name : string) :
  In name (JS.keys o) -> exists v, JS.get o name = Some v.
Proof.
  unfold JS.keys. induction o as [|[k v] o IH]; simpl; [intros []|].
  intros [->|Hin].
  - rewrite String.eqb_refl. eauto.
  - destruct (String.eqb k name); [eauto|exact (IH Hin)].
Qed.

(** On the keys of the feature object itself, the index addresses the
    feature it names and [simulateDelta] is the perturbation the claim
    describes. *)
Lemma simulateDelta_on_own_keys (featureVector : JS.Record float)
  (i : nat) (name : string) (delta : float) (coefficients : list float)
  (intercept : float) :
  nth_error (JS.keys featureVector) i = Some name ->
  Optimization.simulateDelta featureVector i delta coefficients intercept
  = JS.Ok (perturbedPrediction featureVector coefficients intercept
             (JS.keys featureVector) name delta).
Proof.
  intros Hi. unfold Optimization.simulateDelta, perturbedPrediction.
  rewrite Hi. cbv zeta. f_equal. f_equal. apply map_ext. intros n.
  destruct (get_of_key featureVector name (nth_error_In _ _ Hi)) as [v Hv].
  rewrite get_set_same, Hv. cbn [JS.nullish].
  destruct (String.eqb_spec n name) as [->|Hne].
  - rewrite get_set_same, Hv. reflexivity.
  - rewrite !get_set_other by congruence. reflexivity.
Qed.

(** C6, the code at the failing input: the model is
    [prediction = 0 * a + 1 * b] and the feature object lists [b]
    before [a].  Moving [a] leaves the prediction at 0.2 and moving [b]
    up by 0.05 gains 0.05; [simulateDelta] however moves the feature at
    the same position among the keys of the object, and pairs the values
    with the coefficients in the order of the keys, so that
    [optimizeFeatures] reports a gain of 0.75 for [b] and suggests to
    lower [a] for a gain of 0.7.  With the keys in the order of the
    feature names the same call gives the one suggestion the claim
    describes. *)
Theorem optimizeFeatures_key_order :
  let coefficients := [0; 1] in
  let featureNames := ["a"%string; "b"%string] in
  let perturbed :=
    perturbedPrediction [("b"%string, 0.2); ("a"%string, 0.9)]
      coefficients 0 featureNames in
  perturbed "a"%string 0 = 0.2
  /\ perturbed "a"%string 0.05 = 0.2
  /\ perturbed "a"%string (-0.05) = 0.2
  /\ perturbed "b"%string 0.05 = 0.25
  /\ match
       Optimization.optimizeFeatures
         [("b"%string, 0.2); ("a"%string, 0.9)] coefficients 0
         featureNames Optimization.defaultStepSize
     with
     | JS.Ok r => summary r = [("b"%string, 0.25, 0.75);
                               ("a"%string, 0.85, 0.7)]
     | JS.Throw _ => False
     end
  /\ match
       Optimization.optimizeFeatures
         [("a"%string, 0.9); ("b"%string, 0.2)] coefficients 0
         featureNames Optimization.defaultStepSize
     with
     | JS.Ok r => summary r = [("b"%string, 0.25, 0.25 - 0.2)]
     | JS.Throw _ => False
     end.
Proof. vm_compute. repeat split; reflexivity. Qed.

(** ** prediction.ts: [createPredictionSnapshot] and the locked fields *)

(** C1, the claim as stated fails: the timestamp that enters the hash
    is read from the clock of the process and is not stored.  Two
    snapshots created one millisecond apart, which the database stamps
    alike, agree on every stored column but the signature; and the hash
    recomputed from a row with [createdAt] differs from the stored one
    as soon as the two clocks differ. *)
Lemma hashSignature_not_recomputable :
  match sampleSnapshot 1700000000000 1700000000002,
        sampleSnapshot 1700000000001 1700000000002 with
  | JS.Ok (_, first), JS.Ok (_, second) =>
      unsignedFields first = unsignedFields second
      /\ ModelSnapshot.hashSignature first
         <> ModelSnapshot.hashSignature second
      /\ recomputedSignature first <> ModelSnapshot.hashSignature first
  | _, _ => False
  end.
Proof. vm_compute. repeat split; discriminate. Qed.

Lemma lockedFields_confirmed (env : Prediction.Environment)
  (s : ModelSnapshot.t) :
  lockedFields (Prediction.confirmed env s) = lockedFields s.
Proof. reflexivity. Qed.

(** What a successful [createPredictionSnapshot] has done to the
    database. *)
Lemma createPredictionSnapshot_appends (env : Prediction.Environment)
  (db : Prediction.Database) (datasetId modelId : string)
  (featureVector coefficients : list float) (predictedValue : float)
  (predictedTier : string) (confidence : float)
  (sourceId sourceType : option string) (db' : Prediction.Database)
  (snapshot : ModelSnapshot.t) :
  Prediction.createPredictionSnapshot env db datasetId modelId featureVector
    coefficients predictedValue predictedTier confidence sourceId sourceType
  = JS.Ok (db', snapshot) ->
  Prediction.modelSnapshots db' = Prediction.modelSnapshots db ++ [snapshot]
  /\ Prediction.predictionLogs db' = Prediction.predictionLogs db
  /\ ModelSnapshot.id snapshot = Prediction.gen_random_uuid env
  /\ ModelSnapshot.datasetId snapshot = datasetId
  /\ ModelSnapshot.modelId snapshot = Some modelId
  /\ ModelSnapshot.predictedTier snapshot = Some predictedTier
  /\ Prediction.real env predictedValue
     = JS.Ok (ModelSnapshot.predictedValue snapshot).
Proof.
  unfold Prediction.createPredictionSnapshot. cbv zeta.
  destruct (Prediction.real env predictedValue); [|discriminate].
  destruct (Prediction.real env confidence); [|discriminate].
  cbn [JS.bind]. intros H. injection H as <- <-. repeat split.
Qed.

Lemma step_lockedFields (db : Prediction.Database)
  (call : Prediction.Environment * Prediction.Operation) :
  exists created,
    map lockedFields (Prediction.modelSnapshots (Prediction.step db call))
    = map lockedFields (Prediction.modelSnapshots db) ++ created.
Proof.
  destruct call as [env operation]. destruct operation; cbn [Prediction.step].
  - destruct (Prediction.createPredictionSnapshot _ _ _ _ _ _ _ _ _ _ _)
      as [[db' snapshot]|message] eqn:Hcreated.
    + apply createPredictionSnapshot_appends in Hcreated as (Hrows & _).
      exists [lockedFields snapshot]. rewrite Hrows, map_app. reflexivity.
    + exists []. rewrite app_nil_r. reflexivity.
  - exists []. rewrite app_nil_r.
    cbn [Prediction.confirmUpload fst Prediction.modelSnapshots].
    rewrite map_map. apply map_ext. intros s.
    destruct (Prediction.has_id snapshotId s);
      [apply lockedFields_confirmed|reflexivity].
  - exists []. rewrite app_nil_r.
    destruct (Prediction.validatePrediction env db snapshotId actualValue)
      as [[db' validation]|message] eqn:Hvalidated; [|reflexivity].
    destruct (find (Prediction.has_id snapshotId)
                (Prediction.modelSnapshots db)) as [snapshot|] eqn:Hfind.
    + destruct (proj2 (validatePrediction_rows env db snapshotId actualValue
                         db' validation Hvalidated)) as [-> _].
      reflexivity.
    + unfold Prediction.validatePrediction in Hvalidated.
      rewrite Hfind in Hvalidated. discriminate.
  - exists []. rewrite app_nil_r. reflexivity.
Qed.

Lemma run_lockedFields (calls : list (Prediction.Environment
                                      * Prediction.Operation))
  (db : Prediction.Database) :
  exists created,
    map lockedFields (Prediction.modelSnapshots (Prediction.run db calls))
    = map lockedFields (Prediction.modelSnapshots db) ++ created.
Proof.
  unfold Prediction.run. revert db.
  induction calls as [|call calls IH]; intros db; cbn [fold_left].
  - exists []. rewrite app_nil_r. reflexivity.
  - destruct (IH (Prediction.step db call)) as [later Hlater].
    destruct (step_lockedFields db call) as [created Hcreated].
    exists (created ++ later). rewrite Hlater, Hcreated, app_assoc.
    reflexivity.
Qed.

(** C1, amended: [createPredictionSnapshot] succeeds exactly when the
    database accepts the predicted value and the confidence in its
    [real] columns.  The snapshot it then persists holds the feature
    vector and the coefficients as [jsonb] keeps them, the predicted
    value as the [real] column stores it, is locked, and has as
    [hashSignature] the SHA-256 digest (in hexadecimal) of the JSON text
    of [{featureVector, coefficients, predictedValue, timestamp}] with
    the values as they were given, where [timestamp] is the ISO text of
    the clock of the process at the call; and whatever exported
    operations run afterwards, the rows already stored keep every column
    but the three upload flags, so that featureVector, coefficientsUsed,
    predictedValue and hashSignature are never written again. *)
Theorem createPredictionSnapshot_signed_and_locked :
  forall (env : Prediction.Environment) (db : Prediction.Database)
         (datasetId modelId : string) (featureVector coefficients : list float)
         (predictedValue : float) (predictedTier : string)
         (confidence : float) (sourceId sourceType : option string)
         (calls : list (Prediction.Environment * Prediction.Operation)),
    let outcome :=
      Prediction.createPredictionSnapshot env db datasetId modelId
        featureVector coefficients predictedValue predictedTier confidence
        sourceId sourceType in
    (forall storedValue storedConfidence,
       Prediction.real env predictedValue = JS.Ok storedValue ->
       Prediction.real env confidence = JS.Ok storedConfidence ->
       exists db' snapshot, outcome = JS.Ok (db', snapshot))
    /\ (forall db' snapshot,
          outcome = JS.Ok (db', snapshot) ->
          Prediction.modelSnapshots db'
          = Prediction.modelSnapshots db ++ [snapshot]
          /\ Prediction.predictionLogs db' = Prediction.predictionLogs db
          /\ ModelSnapshot.featureVector snapshot
             = Postgres.jsonb featureVector
          /\ ModelSnapshot.coefficientsUsed snapshot
             = Postgres.jsonb coefficients
          /\ stored env predictedValue
               (Some (ModelSnapshot.predictedValue snapshot))
          /\ stored env confidence (ModelSnapshot.confidence snapshot)
          /\ ModelSnapshot.isLocked snapshot = Some true
          /\ ModelSnapshot.hashSignature snapshot
             = Sha256.hex
                 (JSON.stringify
                    (JSON.Object
                       [("featureVector"%string,
                         JSON.Array (map JSON.Number featureVector));
                        ("coefficients"%string,
                         JSON.Array (map JSON.Number coefficients));
                        ("predictedValue"%string,
                         JSON.Number predictedValue);
                        ("timestamp"%string,
                         JSON.Text
                           (JSON.toISOString (Prediction.clock env)))]))
          /\ exists later,
               map lockedFields
                 (Prediction.modelSnapshots (Prediction.run db' calls))
               = map lockedFields (Prediction.modelSnapshots db)
                 ++ lockedFields snapshot :: later).
Proof.
  intros env db datasetId modelId featureVector coefficients predictedValue
    predictedTier confidence sourceId sourceType calls outcome.
  subst outcome. split.
  - intros storedValue storedConfidence Hvalue Hconfidence.
    unfold Prediction.createPredictionSnapshot. cbv zeta.
    rewrite Hvalue, Hconfidence. eexists _, _. reflexivity.
  - intros db' snapshot Hcreated.
    destruct (createPredictionSnapshot_appends _ _ _ _ _ _ _ _ _ _ _ _ _
                Hcreated) as (Hrows & Hlogs & _).
    split; [exact Hrows|]. split; [exact Hlogs|].
    destruct (run_lockedFields calls db') as [later Hlater].
    unfold Prediction.createPredictionSnapshot in Hcreated.
    cbv zeta in Hcreated. unfold stored.
    destruct (Prediction.real env predictedValue) as [v|]; [|discriminate].
    destruct (Prediction.real env confidence) as [c|]; [|discriminate].
    cbn [JS.bind] in Hcreated. injection Hcreated as Hdb <-.
    cbn [ModelSnapshot.featureVector ModelSnapshot.coefficientsUsed
         ModelSnapshot.predictedValue ModelSnapshot.confidence
         ModelSnapshot.isLocked ModelSnapshot.hashSignature].
    split; [reflexivity|]. split; [reflexivity|].
    split; [exists v; split; reflexivity|].
    split; [exists c; split; reflexivity|].
    split; [reflexivity|]. split; [reflexivity|].
    exists later. rewrite Hlater, Hrows, map_app, <- app_assoc.
    reflexivity.
Qed.

Lemma createPredictionSnapshot_signed_and_locked_witness :
  Prediction.real (environment 1700000000000 "snapshot-1") 0.75
  = JS.Ok 0.75
  /\ Prediction.real (environment 1700000000000 "snapshot-1") 0.875
     = JS.Ok 0.875
  /\ exists db' snapshot,
       Prediction.createPredictionSnapshot
         (environment 1700000000000 "snapshot-1") emptyDatabase
         "videos" "model-1" [0.5] [0.6] 0.75 "" 0.875 None None
       = JS.Ok (db', snapshot).
Proof.
  assert (Prediction.real (environment 1700000000000 "snapshot-1") 0.75
          = JS.Ok 0.75) as Hvalue by (vm_compute; reflexivity).
  assert (Prediction.real (environment 1700000000000 "snapshot-1") 0.875
          = JS.Ok 0.875) as Hconfidence by (vm_compute; reflexivity).
  split; [exact Hvalue|]. split; [exact Hconfidence|].
  exact (proj1 (createPredictionSnapshot_signed_and_locked
                  (environment 1700000000000 "snapshot-1") emptyDatabase
                  "videos" "model-1" [0.5] [0.6] 0.75 "" 0.875 None None [])
           0.75 0.875 Hvalue Hconfidence).
Defined.

(** * Further properties of the modules

    Properties of the remaining functions of the modules, and of the
    way the functions compose. *)

(** ** Lists, records and sorting *)

Lemma slice_split {A} (l : list A) (i : JS.integer) :
  JS.slice l (JS.Int 0) (Some i) ++ JS.slice l i None = l.
Proof.
  unfold JS.slice.
  set (k := JS.relative_index (List.length l) i).
  assert (k <= List.length l)%nat as Hk.
  { subst k. unfold JS.relative_index. destruct i as [|z|]; try lia.
    destruct (Z.ltb_spec z 0); lia. }
  assert (JS.relative_index (List.length l) (JS.Int 0) = 0%nat) as ->.
  { unfold JS.relative_index. simpl. lia. }
  rewrite Nat.sub_0_r. cbn [skipn].
  rewrite (firstn_all2 (skipn k l)) by (rewrite length_skipn; lia).
  apply firstn_skipn.
Qed.

Lemma insert_sorted_permutation {A} (after : A -> A -> bool) (x : A)
  (l : list A) : Permutation (x :: l) (JS.insert_sorted after x l).
Proof.
  induction l as [|y l IH]; simpl; [apply Permutation_refl|].
  destruct (after x y); [|apply Permutation_refl].
  eapply perm_trans; [apply perm_swap|]. apply perm_skip. exact IH.
Qed.

Lemma sort_permutation {A} (after : A -> A -> bool) (l : list A) :
  Permutation l (JS.sort after l).
Proof.
  unfold JS.sort. induction l as [|x l IH]; simpl; [apply perm_nil|].
  eapply perm_trans; [apply perm_skip, IH|]. apply insert_sorted_permutation.
Qed.

Lemma insert_sorted_key {A} (key : A -> Z) (x : A) (l : list A) :
  StronglySorted (fun a b => (key a <= key b)%Z) l ->
  StronglySorted (fun a b => (key a <= key b)%Z)
    (JS.insert_sorted (fun a b => (0 <? key a - key b)%Z) x l).
Proof.
  intros Hl. induction Hl as [|y l Hl IH Hy]; simpl.
  - constructor; constructor.
  - destruct (Z.ltb_spec 0 (key x - key y)).
    + constructor; [exact IH|].
      eapply Permutation_Forall; [apply insert_sorted_permutation|].
      constructor; [lia|exact Hy].
    + constructor; [constructor; assumption|].
      constructor; [lia|].
      eapply Forall_impl; [|exact Hy]. simpl. intros; lia.
Qed.

Lemma sort_key {A} (key : A -> Z) (l : list A) :
  StronglySorted (fun a b => (key a <= key b)%Z)
    (JS.sort (fun a b => (0 <? key a - key b)%Z) l).
Proof.
  unfold JS.sort. induction l as [|x l IH]; simpl; [constructor|].
  apply insert_sorted_key. exact IH.
Qed.

Lemma StronglySorted_app_inv {A} (R : A -> A -> Prop) (l1 l2 : list A) :
  StronglySorted R (l1 ++ l2) ->
  StronglySorted R l1 /\ StronglySorted R l2
  /\ forall a b, In a l1 -> In b l2 -> R a b.
Proof.
  induction l1 as [|x l1 IH]; simpl; intros H.
  - repeat split; [constructor|exact H|intros ? ? []].
  - inversion H as [|? ? Hs Hx]; subst.
    destruct (IH Hs) as (H1 & H2 & H3).
    repeat split; [constructor; [exact H1|]|exact H2|].
    + rewrite Forall_app in Hx. apply Hx.
    + intros a b [<-|Ha] Hb.
      * rewrite Forall_forall in Hx. apply Hx, in_or_app. right. exact Hb.
      * apply H3; assumption.
Qed.

(** An insertion sort orders by any relation its comparator decides. *)
Lemma insert_sorted_ordered {A} (after : A -> A -> bool) (R : A -> A -> Prop)
  (D : A -> Prop) :
  (forall x y, D x -> D y -> after x y = true -> R y x) ->
  (forall x y, D x -> D y -> after x y = false -> R x y) ->
  (forall x y z, D x -> D y -> D z -> R x y -> R y z -> R x z) ->
  forall (x : A) (l : list A),
    D x -> Forall D l -> StronglySorted R l ->
    StronglySorted R (JS.insert_sorted after x l).
Proof.
  intros Hafter Hbefore Htrans x l Hx Hl Hsorted.
  induction Hsorted as [|y l Hsorted IH Hy]; cbn [JS.insert_sorted].
  - constructor; constructor.
  - inversion Hl as [|? ? Dy Dl]; subst.
    destruct (after x y) eqn:E.
    + constructor; [exact (IH Dl)|].
      eapply Permutation_Forall; [apply insert_sorted_permutation|].
      constructor; [exact (Hafter x y Hx Dy E)|exact Hy].
    + pose proof (Hbefore x y Hx Dy E) as Hxy.
      constructor; [constructor; assumption|].
      constructor; [exact Hxy|].
      rewrite Forall_forall in *. intros z Hz.
      exact (Htrans x y z Hx Dy (Dl z Hz) Hxy (Hy z Hz)).
Qed.

Lemma sort_ordered {A} (after : A -> A -> bool) (R : A -> A -> Prop)
  (D : A -> Prop) :
  (forall x y, D x -> D y -> after x y = true -> R y x) ->
  (forall x y, D x -> D y -> after x y = false -> R x y) ->
  (forall x y z, D x -> D y -> D z -> R x y -> R y z -> R x z) ->
  forall l : list A, Forall D l -> StronglySorted R (JS.sort after l).
Proof.
  intros Hafter Hbefore Htrans l Hl. unfold JS.sort.
  induction Hl as [|x l Hx Hl IH]; cbn [fold_right]; [constructor|].
  apply (insert_sorted_ordered after R D Hafter Hbefore Htrans);
    [exact Hx| |exact IH].
  eapply Permutation_Forall; [apply sort_permutation|exact Hl].
Qed.

Lemma sorted_first_last {A} (R : A -> A -> Prop) (d : A) (l : list A) :
  (forall x, In x l -> R x x) ->
  StronglySorted R l ->
  forall x, In x l ->
            R (nth 0 l d) x /\ R x (nth (List.length l - 1) l d).
Proof.
  intros Hrefl Hsorted. induction Hsorted as [|y l Hsorted IH Hy];
    [intros ? []|].
  intros x Hx. rewrite Forall_forall in Hy. split.
  - cbn [nth].
    destruct Hx as [<-|Hx]; [apply Hrefl; left; reflexivity|exact (Hy x Hx)].
  - replace (List.length (y :: l) - 1)%nat with (List.length l)
      by (cbn [List.length]; lia).
    destruct l as [|z l].
    { destruct Hx as [<-|[]]. apply Hrefl. left. reflexivity. }
    assert (forall x, In x (z :: l) -> R x x) as Hrefl'
      by (intros w Hw; apply Hrefl; right; exact Hw).
    specialize (IH Hrefl').
    change (nth (List.length (z :: l)) (y :: z :: l) d)
      with (nth (List.length l) (z :: l) d).
    replace (List.length (z :: l) - 1)%nat with (List.length l) in IH
      by (cbn [List.length]; lia).
    destruct Hx as [<-|Hx].
    + apply Hy. apply nth_In. cbn [List.length]. lia.
    + exact (proj2 (IH x Hx)).
Qed.

Lemma fold_left_ext_in {A B} (f g : A -> B -> A) (l : list B) (a : A) :
  (forall x y, In y l -> f x y = g x y) -> fold_left f l a = fold_left g l a.
Proof.
  revert a. induction l as [|y l IH]; intros a H; simpl; [reflexivity|].
  rewrite (H a y) by (left; reflexivity).
  apply IH. intros x z Hz. apply H. right. exact Hz.
Qed.

Lemma map_unchanged {A} (f : A -> A) (l : list A) :
  (forall x, In x l -> f x = x) -> map f l = l.
Proof.
  intros H. rewrite <- (map_id l) at 2. apply map_ext_in. exact H.
Qed.

Lemma find_app_fresh {A} (p : A -> bool) (l1 l2 : list A) :
  find p l1 = None -> find p (l1 ++ l2) = find p l2.
Proof.
  induction l1 as [|x l1 IH]; simpl; [reflexivity|].
  destruct (p x); [discriminate|exact IH].
Qed.

Lemma filter_firstn_length {A} (p : A -> bool) (n : nat) (l : list A) :
  (List.length (filter p (firstn n l)) <= List.length (filter p l))%nat.
Proof.
  revert n. induction l as [|x l IH]; intros [|n]; simpl; try lia.
  specialize (IH n). destruct (p x); simpl; lia.
Qed.

Lemma filter_permutation_length {A} (p : A -> bool) (l l' : list A) :
  Permutation l l' ->
  List.length (filter p l) = List.length (filter p l').
Proof.
  induction 1 as [|x l l' _ IH|x y l|l l' l'' _ IH1 _ IH2]; simpl.
  - reflexivity.
  - destruct (p x); simpl; lia.
  - destruct (p x), (p y); reflexivity.
  - lia.
Qed.

Lemma get_none_not_key {A} (o : JS.Record A) (name : string) :
  ~ In name (JS.keys o) -> JS.get o name = None.
Proof.
  unfold JS.keys. induction o as [|[k v] o IH]; simpl; [reflexivity|].
  intros H. destruct (String.eqb_spec k name) as [E|NE].
  - exfalso. apply H. left. exact E.
  - apply IH. intros Hin. apply H. right. exact Hin.
Qed.

Lemma keys_set {A} (o : JS.Record A) (k : string) (v : A) :
  JS.keys (JS.set o k v)
  = if existsb (String.eqb k) (JS.keys o) then JS.keys o
    else JS.keys o ++ [k].
Proof.
  unfold JS.keys. induction o as [|[k' v'] o IH]; simpl; [reflexivity|].
  rewrite (String.eqb_sym k k').
  destruct (String.eqb k' k) eqn:E; simpl; [reflexivity|].
  rewrite IH. destruct (existsb _ _); reflexivity.
Qed.

Lemma slice_from_one_length {A} (l : list A) :
  List.length (JS.slice l (JS.Int 1) None) = (List.length l - 1)%nat.
Proof.
  unfold JS.slice, JS.relative_index. cbn [Z.ltb Z.compare].
  rewrite length_firstn, length_skipn. lia.
Qed.

Lemma slice_past_end {A} (l : list A) (start : Z) :
  (Z.of_nat (List.length l) <= start)%Z ->
  JS.slice l (JS.Int start) None = [].
Proof.
  intros H. unfold JS.slice, JS.relative_index.
  destruct (Z.ltb_spec start 0); [lia|].
  replace (Nat.min (Z.to_nat start) (List.length l)) with (List.length l)
    by lia.
  rewrite Nat.sub_diag. reflexivity.
Qed.

(** ** Sums with zero, and the order of sorted numbers *)

(** A number is NaN, an infinity, a zero, or finite and not zero. *)
Lemma float_cases (v : float) :
  v = nan \/ v = infinity \/ v = neg_infinity \/ v = 0 \/ v = -0
  \/ exists s m e, Prim2SF v = S754_finite s m e.
Proof.
  destruct (Prim2SF v) as [s|s| |s m e] eqn:E.
  - right. right. right. destruct s; [right; left|left];
      apply Prim2SF_inj; rewrite E; reflexivity.
  - right. destruct s; [right; left|left];
      apply Prim2SF_inj; rewrite E; reflexivity.
  - left. apply Prim2SF_inj. rewrite E. reflexivity.
  - repeat right. eauto.
Qed.

Lemma add_zero_finite (v : float) (s : bool) (m : positive) (e : Z) :
  Prim2SF v = S754_finite s m e -> 0 + v = v.
Proof.
  intros E. apply Prim2SF_inj. rewrite add_spec, Prim2SF_zero, E.
  reflexivity.
Qed.

Lemma is_finite_of_finite (v : float) (s : bool) (m : positive) (e : Z) :
  Prim2SF v = S754_finite s m e -> is_finite v = true.
Proof.
  intros E. unfold is_finite, is_nan, is_infinity.
  rewrite !eqb_spec, abs_spec, E. cbn [SFabs].
  change (Prim2SF infinity) with (S754_infinity false).
  unfold SFeqb. rewrite SFcompare_refl by discriminate. reflexivity.
Qed.

(** The standard deviation of a single value, as the functions compute
    it, is not above 0. *)
Lemma single_value_is_flat (v : float) :
  (0 <? sqrt ((0 + (v - (0 + v) / 1) * (v - (0 + v) / 1)) / 1)) = false.
Proof.
  rewrite !div_one.
  destruct (float_cases v) as [->|[->|[->|[->|[->|(s & m & e & E)]]]]];
    try (vm_compute; reflexivity).
  rewrite (add_zero_finite v s m e E).
  rewrite (sub_diag_finite v (is_finite_of_finite v s m e E)).
  vm_compute. reflexivity.
Qed.

(** A magnitude added to 0 is the magnitude. *)
Lemma add_zero_abs (x : float) : 0 + abs x = abs x.
Proof.
  destruct (float_cases x) as [->|[->|[->|[->|[->|(s & m & e & E)]]]]];
    try (vm_compute; reflexivity).
  apply (add_zero_finite (abs x) false m e).
  rewrite abs_spec, E. reflexivity.
Qed.

(** Sorting numbers that are not NaN with the comparator
    [(a, b) => key(a) - key(b)], and with the opposite comparator. *)
Lemma sort_ascending {A} (key : A -> float) (l : list A) :
  Forall (fun a => is_nan (key a) = false) l ->
  StronglySorted (fun a b => (key a <=? key b) = true)
    (JS.sort (fun a b => 0 <? key a - key b) l).
Proof.
  apply sort_ordered.
  - intros x y Hx Hy H. rewrite sub_positive in H. apply ltb_leb. exact H.
  - intros x y Hx Hy H. rewrite sub_positive in H.
    apply not_ltb_leb; assumption.
  - intros x y z _ _ _. apply leb_trans.
Qed.

Lemma sort_descending {A} (key : A -> float) (l : list A) :
  Forall (fun a => is_nan (key a) = false) l ->
  StronglySorted (fun a b => (key b <=? key a) = true)
    (JS.sort (fun a b => 0 <? key b - key a) l).
Proof.
  apply sort_ordered.
  - intros x y Hx Hy H. rewrite sub_positive in H.
    apply ltb_leb. exact H.
  - intros x y Hx Hy H. rewrite sub_positive in H.
    apply not_ltb_leb; assumption.
  - intros x y z _ _ _ H1 H2. exact (leb_trans _ _ _ H2 H1).
Qed.

(** ** model-training.ts: [splitData], [classifyTier], [predict], the
    matrices and [trainModel] *)

(** X1: whatever the ratio (a fraction, NaN, a negative number, a
    number above 1), [splitData] loses and duplicates no record: the
    train slice followed by the test slice is a permutation of the
    records. *)
Theorem splitData_keeps_every_record :
  forall (records : list ModelTraining.DatasetRecord) (trainRatio : float),
    let split := ModelTraining.splitData records trainRatio in
    Permutation records (ModelTraining.train split ++ ModelTraining.test split).
Proof.
  intros records trainRatio split. subst split. unfold ModelTraining.splitData.
  cbn [ModelTraining.train ModelTraining.test].
  rewrite slice_split. apply sort_permutation.
Qed.

(** X2: whatever the ratio, both slices of [splitData] are in
    chronological order, a record without a date counting as the epoch,
    and no train record is later than a test record. *)
Theorem splitData_chronological :
  forall (records : list ModelTraining.DatasetRecord) (trainRatio : float),
    let split := ModelTraining.splitData records trainRatio in
    StronglySorted chronological (ModelTraining.train split)
    /\ StronglySorted chronological (ModelTraining.test split)
    /\ (forall a b,
          In a (ModelTraining.train split) -> In b (ModelTraining.test split) ->
          chronological a b).
Proof.
  intros records trainRatio split.
  apply StronglySorted_app_inv. subst split. unfold ModelTraining.splitData.
  cbn [ModelTraining.train ModelTraining.test].
  rewrite slice_split. apply (sort_key ModelTraining.time_of).
Qed.

(** X3: [classifyTier] is monotone: a value that is not below another
    never gets a lower tier (low, then mid, then top). *)
Theorem classifyTier_monotone :
  forall a b : float,
    (a <=? b) = true ->
    (tierRank (ModelTraining.classifyTier a)
     <= tierRank (ModelTraining.classifyTier b))%nat.
Proof.
  intros a b Hle. unfold ModelTraining.classifyTier.
  destruct (0.7 <? a) eqn:Ha.
  - rewrite (ltb_leb_trans _ _ _ Ha Hle). apply Nat.le_refl.
  - destruct (a <? 0.3) eqn:La; [cbn; lia|].
    destruct (0.7 <? b); [cbn; lia|].
    destruct (b <? 0.3) eqn:Lb; [|apply Nat.le_refl].
    rewrite (leb_ltb_trans _ _ _ Hle Lb) in La. discriminate.
Qed.

Lemma classifyTier_monotone_witness :
  (0.25 <=? 0.75) = true
  /\ (tierRank (ModelTraining.classifyTier 0.25)
      <= tierRank (ModelTraining.classifyTier 0.75))%nat.
Proof.
  assert ((0.25 <=? 0.75) = true) as H by reflexivity.
  split; [exact H|exact (classifyTier_monotone 0.25 0.75 H)].
Defined.

Lemma alignedVector_read (n i : nat) (featureVector : list float) :
  (i < n)%nat ->
  JS.nullish (nth_error (alignedVector n featureVector) i) 0
  = JS.nullish (nth_error featureVector i) 0.
Proof.
  intros Hi. unfold alignedVector.
  destruct (Nat.lt_ge_cases i (List.length featureVector)) as [Hlt|Hge].
  - rewrite nth_error_app1 by (rewrite length_firstn; lia).
    rewrite nth_error_firstn.
    destruct (Nat.ltb_spec i n); [reflexivity|lia].
  - rewrite nth_error_app2 by (rewrite length_firstn; lia).
    rewrite length_firstn.
    assert (nth_error featureVector i = None) as ->
      by (apply nth_error_None; exact Hge).
    destruct (nth_error (repeat 0 (n - List.length featureVector))
                (i - Nat.min n (List.length featureVector))) eqn:E;
      [|reflexivity].
    apply nth_error_In, repeat_spec in E. subst. reflexivity.
Qed.

(** X4: [predict] reads exactly as many features as there are
    coefficients: a missing feature counts as 0 and the features beyond
    the coefficients are ignored. *)
Theorem predict_reads_aligned_vector :
  forall (coefficients : list float) (intercept : float)
         (featureVector : list float),
    ModelTraining.predict coefficients intercept featureVector
    = ModelTraining.predict coefficients intercept
        (alignedVector (List.length coefficients) featureVector)
    /\ List.length (alignedVector (List.length coefficients) featureVector)
       = List.length coefficients.
Proof.
  intros coefficients intercept featureVector. split.
  - unfold ModelTraining.predict. apply fold_left_ext_in.
    intros result i Hi. apply in_seq in Hi.
    rewrite alignedVector_read by lia. reflexivity.
  - unfold alignedVector. rewrite length_app, length_firstn, repeat_length. lia.
Qed.

Lemma first_row_length (rows cols : nat) (a : ModelTraining.Matrix) :
  (0 < rows)%nat -> shaped rows cols a -> List.length (nth 0 a []) = cols.
Proof.
  intros Hr [Hlen Hrows]. destruct a as [|r a']; [simpl in Hlen; lia|].
  apply Forall_inv in Hrows. exact Hrows.
Qed.

Lemma matrixTranspose_shape (rows cols : nat) (a : ModelTraining.Matrix) :
  (0 < rows)%nat -> shaped rows cols a ->
  shaped cols rows (ModelTraining.matrixTranspose a).
Proof.
  intros Hr [Hlen Hrows]. unfold ModelTraining.matrixTranspose, shaped.
  rewrite (first_row_length rows cols a Hr (conj Hlen Hrows)).
  rewrite Hlen, length_map, length_seq. split; [reflexivity|].
  apply Forall_map, Forall_forall. intros j _.
  rewrite length_map, length_seq. reflexivity.
Qed.

Lemma matrixTranspose_entry (rows cols : nat) (a : ModelTraining.Matrix)
  (i j : nat) :
  (0 < rows)%nat -> shaped rows cols a -> (i < rows)%nat -> (j < cols)%nat ->
  ModelTraining.entry (ModelTraining.matrixTranspose a) j i
  = ModelTraining.entry a i j.
Proof.
  intros Hr [Hlen Hrows] Hi Hj. unfold ModelTraining.matrixTranspose.
  rewrite (first_row_length rows cols a Hr (conj Hlen Hrows)).
  rewrite Hlen. unfold ModelTraining.entry at 1.
  rewrite (nth_indep _ [] (map (fun i0 => ModelTraining.entry a i0 0) (seq 0 rows)))
    by (rewrite length_map, length_seq; exact Hj).
  rewrite (map_nth (fun j0 => map (fun i0 => ModelTraining.entry a i0 j0) (seq 0 rows))
             (seq 0 cols) 0%nat j).
  rewrite seq_nth by exact Hj. cbn [Nat.add].
  rewrite (nth_indep _ nan (ModelTraining.entry a 0 j))
    by (rewrite length_map, length_seq; exact Hi).
  rewrite (map_nth (fun i0 => ModelTraining.entry a i0 j) (seq 0 rows) 0%nat i).
  rewrite seq_nth by exact Hi. reflexivity.
Qed.

Lemma matrix_by_entries (rows cols : nat) (a : ModelTraining.Matrix) :
  shaped rows cols a ->
  a = map (fun i => map (fun j => ModelTraining.entry a i j) (seq 0 cols))
        (seq 0 rows).
Proof.
  intros [Hlen Hrows].
  apply (nth_ext _ _ [] []).
  - rewrite length_map, length_seq. exact Hlen.
  - intros i Hi. rewrite Hlen in Hi.
    rewrite (nth_indep (map _ _) [] (map (fun j => ModelTraining.entry a 0 j) (seq 0 cols)))
      by (rewrite length_map, length_seq; exact Hi).
    rewrite (map_nth (fun i0 => map (fun j => ModelTraining.entry a i0 j) (seq 0 cols))
               (seq 0 rows) 0%nat i).
    rewrite seq_nth by exact Hi. cbn [Nat.add].
    assert (List.length (nth i a []) = cols) as Hrow.
    { rewrite Forall_forall in Hrows. apply Hrows, nth_In. lia. }
    apply (nth_ext _ _ nan nan).
    + rewrite length_map, length_seq. exact Hrow.
    + intros j Hj. rewrite Hrow in Hj.
      rewrite (nth_indep (map _ _) nan (ModelTraining.entry a i 0))
        by (rewrite length_map, length_seq; exact Hj).
      rewrite (map_nth (fun j0 => ModelTraining.entry a i j0) (seq 0 cols) 0%nat j).
      rewrite seq_nth by exact Hj. reflexivity.
Qed.

(** X5: on a matrix with at least one row and one column, all rows
    having the same length, transposing twice gives the matrix back. *)
Theorem matrixTranspose_involutive :
  forall (rows cols : nat) (a : ModelTraining.Matrix),
    (0 < rows)%nat -> (0 < cols)%nat -> shaped rows cols a ->
    ModelTraining.matrixTranspose (ModelTraining.matrixTranspose a) = a.
Proof.
  intros rows cols a Hr Hc Ha.
  pose proof (matrixTranspose_shape rows cols a Hr Ha) as Ht.
  rewrite (matrix_by_entries rows cols a Ha) at 2.
  pose proof (matrixTranspose_shape cols rows _ Hc Ht) as Htt.
  rewrite (matrix_by_entries rows cols _ Htt).
  apply map_ext_in. intros i Hi. apply in_seq in Hi.
  apply map_ext_in. intros j Hj. apply in_seq in Hj.
  rewrite (matrixTranspose_entry cols rows _ j i Hc Ht) by lia.
  apply (matrixTranspose_entry rows cols a i j Hr Ha); lia.
Qed.

Lemma matrixTranspose_involutive_witness :
  (0 < 2)%nat /\ (0 < 3)%nat
  /\ shaped 2 3 [[1; 2; 3]; [4; 5; 6]]
  /\ ModelTraining.matrixTranspose
       (ModelTraining.matrixTranspose [[1; 2; 3]; [4; 5; 6]])
     = [[1; 2; 3]; [4; 5; 6]].
Proof.
  assert (0 < 2)%nat as Hr by lia.
  assert (0 < 3)%nat as Hc by lia.
  assert (shaped 2 3 [[1; 2; 3]; [4; 5; 6]]) as Hs.
  { split; [reflexivity|]. repeat constructor. }
  split; [exact Hr|]. split; [exact Hc|]. split; [exact Hs|].
  exact (matrixTranspose_involutive 2 3 _ Hr Hc Hs).
Defined.

Lemma set_row_length (rows : ModelTraining.Matrix) (i : nat) (row : list float) :
  List.length (ModelTraining.set_row rows i row) = List.length rows.
Proof.
  revert i. induction rows as [|r rows IH]; intros [|i]; simpl; auto.
Qed.

Lemma eliminateColumn_length (n : nat) (augmented : ModelTraining.Matrix)
  (col : nat) :
  List.length augmented = n ->
  List.length (ModelTraining.eliminateColumn n augmented col) = n.
Proof.
  intros Hn. unfold ModelTraining.eliminateColumn.
  destruct (fold_left _ _ _) as [maxRow maxVal].
  destruct (maxVal <? 1e-12).
  - rewrite set_row_length. exact Hn.
  - rewrite length_map, length_seq. reflexivity.
Qed.

Lemma matrixInverse_length (a : ModelTraining.Matrix) :
  List.length (ModelTraining.matrixInverse a) = List.length a.
Proof.
  unfold ModelTraining.matrixInverse. rewrite length_map.
  set (n := List.length a).
  assert (forall cols m, List.length m = n ->
            List.length (fold_left (ModelTraining.eliminateColumn n) cols m) = n)
    as H.
  { induction cols as [|c cols IH]; intros m Hm; simpl; [exact Hm|].
    apply IH, eliminateColumn_length, Hm. }
  apply H. rewrite length_map, length_seq. reflexivity.
Qed.

Lemma matrixMultiply_length (a b : ModelTraining.Matrix) :
  List.length (ModelTraining.matrixMultiply a b) = List.length a.
Proof.
  unfold ModelTraining.matrixMultiply. rewrite length_map, length_seq.
  reflexivity.
Qed.

Lemma matrixTranspose_length (a : ModelTraining.Matrix) :
  List.length (ModelTraining.matrixTranspose a) = List.length (nth 0 a []).
Proof.
  unfold ModelTraining.matrixTranspose. rewrite length_map, length_seq.
  reflexivity.
Qed.

(** X6: whatever the records, the result of [trainModel] has exactly
    one coefficient for each of its feature names (the intercept is
    held apart). *)
Theorem trainModel_one_coefficient_per_feature :
  forall (datasetId : string) (records : list ModelTraining.DatasetRecord),
    let r := ModelTraining.trainModel datasetId records in
    List.length (ModelTraining.coefficients r)
    = List.length (ModelTraining.featureNames r).
Proof.
  intros datasetId records r. subst r. unfold ModelTraining.trainModel.
  destruct (List.length records <? 3)%nat; [reflexivity|].
  destruct (ModelTraining.train _) as [|first train'] eqn:Etrain;
    [reflexivity|].
  destruct (ModelTraining.test _) as [|held test']; [reflexivity|].
  cbv zeta.
  match goal with
  | |- context [fold_left ?f ?l (0%float, 0%float, 0%float)] =>
      destruct (fold_left f l (0%float, 0%float, 0%float))
        as [[ssRes ssTot] maeSum]
  end.
  cbn [ModelTraining.coefficients ModelTraining.featureNames].
  rewrite length_map, slice_from_one_length, matrixMultiply_length,
    matrixInverse_length, matrixMultiply_length, matrixTranspose_length.
  cbn [map nth List.length]. rewrite length_map. lia.
Qed.

(** ** optimization.ts: [simulateDelta] and [optimizeFeatures] *)

Lemma simulateDelta_index (featureVector : JS.Record float) (i : nat)
  (delta : float) (coefficients : list float) (intercept : float) :
  ((i < List.length (JS.keys featureVector))%nat ->
   exists p,
     Optimization.simulateDelta featureVector i delta coefficients intercept
     = JS.Ok p)
  /\ ((List.length (JS.keys featureVector) <= i)%nat ->
      Optimization.simulateDelta featureVector i delta coefficients intercept
      = JS.Throw (invalidFeatureIndex i)).
Proof.
  unfold Optimization.simulateDelta. split; intros Hi.
  - destruct (nth_error (JS.keys featureVector) i) eqn:E; [eauto|].
    apply nth_error_None in E. lia.
  - apply nth_error_None in Hi. rewrite Hi. reflexivity.
Qed.

Lemma suggestionFor_cases (currentFeatures : JS.Record float)
  (coefficients : list float) (intercept stepSize currentPrediction : float)
  (i : nat) (featureName : string) :
  ((List.length (JS.keys currentFeatures) <= i)%nat ->
   Optimization.suggestionFor currentFeatures coefficients intercept stepSize
     currentPrediction i featureName
   = JS.Throw (invalidFeatureIndex i))
  /\ ((i < List.length (JS.keys currentFeatures))%nat ->
      Optimization.suggestionFor currentFeatures coefficients intercept
        stepSize currentPrediction i featureName = JS.Ok None
      \/ exists s,
           Optimization.suggestionFor currentFeatures coefficients intercept
             stepSize currentPrediction i featureName = JS.Ok (Some s)
           /\ Optimization.featureName s = featureName
           /\ forall names, In featureName names ->
                            sound currentFeatures stepSize names s).
Proof.
  unfold Optimization.suggestionFor. split; intros Hi.
  - rewrite (proj2 (simulateDelta_index currentFeatures i stepSize
                      coefficients intercept) Hi).
    reflexivity.
  - destruct (proj1 (simulateDelta_index currentFeatures i stepSize
                       coefficients intercept) Hi) as [p ->].
    destruct (proj1 (simulateDelta_index currentFeatures i (- stepSize)
                       coefficients intercept) Hi) as [q ->].
    cbn [JS.bind]. cbv zeta.
    set (currentValue := JS.nullish (JS.get currentFeatures featureName) 0).
    destruct ((q - currentPrediction <? p - currentPrediction)
              && (0 <? p - currentPrediction)) eqn:Hup.
    + apply andb_prop in Hup. destruct Hup as [_ Hgain]. rewrite Hgain.
      right. eexists. split; [reflexivity|]. split; [reflexivity|].
      intros names Hin. unfold sound.
      cbn [Optimization.featureName Optimization.currentValue
           Optimization.predictedGain Optimization.suggestedValue
           Optimization.delta].
      repeat split; try assumption; try reflexivity.
      * left. reflexivity.
      * apply clamp_unit_or_nan.
    + destruct (0 <? q - currentPrediction) eqn:Hdown.
      * rewrite Hdown.
        right. eexists. split; [reflexivity|]. split; [reflexivity|].
        intros names Hin. unfold sound.
        cbn [Optimization.featureName Optimization.currentValue
             Optimization.predictedGain Optimization.suggestedValue
             Optimization.delta].
        repeat split; try assumption; try reflexivity.
        -- right. reflexivity.
        -- apply clamp_unit_or_nan.
      * left. reflexivity.
Qed.

Lemma collectSuggestions_throws (currentFeatures : JS.Record float)
  (coefficients : list float) (intercept stepSize currentPrediction : float)
  (names : list string) :
  forall (i : nat) (suggestions : list Optimization.OptimizationSuggestion),
    (i <= List.length (JS.keys currentFeatures))%nat ->
    (List.length (JS.keys currentFeatures) < i + List.length names)%nat ->
    Optimization.collectSuggestions currentFeatures coefficients intercept
      stepSize currentPrediction i names suggestions
    = JS.Throw (invalidFeatureIndex (List.length (JS.keys currentFeatures))).
Proof.
  induction names as [|name names IH]; intros i suggestions Hi Hlen;
    [simpl in Hlen; lia|].
  cbn [Optimization.collectSuggestions].
  destruct (suggestionFor_cases currentFeatures coefficients intercept
              stepSize currentPrediction i name) as [Hthrow Hok].
  destruct (Nat.eq_dec i (List.length (JS.keys currentFeatures))) as [E|NE].
  - rewrite Hthrow by lia. rewrite E. reflexivity.
  - assert (i < List.length (JS.keys currentFeatures))%nat as Hlt by lia.
    destruct (Hok Hlt) as [->|(s & -> & _)]; cbn [JS.bind];
      apply IH; simpl in Hlen; lia.
Qed.

Lemma collectSuggestions_sound (currentFeatures : JS.Record float)
  (coefficients : list float) (intercept stepSize currentPrediction : float)
  (all : list string) (names : list string) :
  forall (i : nat) (suggestions : list Optimization.OptimizationSuggestion),
    (i + List.length names <= List.length (JS.keys currentFeatures))%nat ->
    incl names all ->
    Forall (sound currentFeatures stepSize all) suggestions ->
    exists collected,
      Optimization.collectSuggestions currentFeatures coefficients intercept
        stepSize currentPrediction i names suggestions
      = JS.Ok collected
      /\ Forall (sound currentFeatures stepSize all) collected
      /\ (List.length collected
          <= List.length suggestions + List.length names)%nat.
Proof.
  induction names as [|name names IH]; intros i suggestions Hlen Hincl Hs.
  - exists suggestions. cbn. repeat split; [exact Hs|lia].
  - cbn [Optimization.collectSuggestions].
    assert (In name all) as Hname by (apply Hincl; left; reflexivity).
    assert (incl names all) as Hrest
      by (intros n Hn; apply Hincl; right; exact Hn).
    cbn [List.length] in Hlen.
    destruct (proj2 (suggestionFor_cases currentFeatures coefficients
                       intercept stepSize currentPrediction i name))
      as [->|(s & -> & _ & Hsound)]; [lia| |]; cbn [JS.bind].
    + destruct (IH (S i) suggestions ltac:(lia) Hrest Hs)
        as (collected & E & Hc & Hn).
      exists collected. cbn [List.length]. repeat split; [exact E|exact Hc|lia].
    + destruct (IH (S i) (suggestions ++ [s]) ltac:(lia) Hrest)
        as (collected & E & Hc & Hn).
      { apply Forall_app. split; [exact Hs|].
        constructor; [apply Hsound; exact Hname|constructor]. }
      exists collected. rewrite length_app in Hn. cbn [List.length] in *.
      repeat split; [exact E|exact Hc|lia].
Qed.

(** X7: [optimizeFeatures] throws exactly when there are more feature
    names than the feature object has keys, with the message
    "Invalid feature index: k" for k the number of keys; a name that is
    merely absent from the object does not make it throw. *)
Theorem optimizeFeatures_throws_on_too_few_keys :
  forall (currentFeatures : JS.Record float) (coefficients : list float)
         (intercept : float) (featureNames : list string) (stepSize : float),
    ((List.length (JS.keys currentFeatures) < List.length featureNames)%nat ->
     Optimization.optimizeFeatures currentFeatures coefficients intercept
       featureNames stepSize
     = JS.Throw (invalidFeatureIndex (List.length (JS.keys currentFeatures))))
    /\ ((List.length featureNames <= List.length (JS.keys currentFeatures))%nat
        -> exists r,
             Optimization.optimizeFeatures currentFeatures coefficients
               intercept featureNames stepSize = JS.Ok r).
Proof.
  intros currentFeatures coefficients intercept featureNames stepSize.
  unfold Optimization.optimizeFeatures. split; intros Hlen.
  - rewrite collectSuggestions_throws by lia. reflexivity.
  - destruct (collectSuggestions_sound currentFeatures coefficients intercept
                stepSize
                (ModelTraining.predict coefficients intercept
                   (map (fun name =>
                           JS.nullish (JS.get currentFeatures name) 0)
                      featureNames))
                featureNames featureNames 0 [] ltac:(simpl; lia)
                (incl_refl _) (Forall_nil _))
      as (collected & -> & _).
    cbn [JS.bind]. eauto.
Qed.

Lemma optimizeFeatures_throws_on_too_few_keys_witness :
  Nat.lt (List.length (JS.keys [("pace"%string, 0.5)]))
    (List.length ["pace"; "tone"]%string)
  /\ Optimization.optimizeFeatures [("pace"%string, 0.5)] [1; 1] 0
       ["pace"; "tone"]%string Optimization.defaultStepSize
     = JS.Throw "Invalid feature index: 1".
Proof.
  assert (Nat.lt (List.length (JS.keys [("pace"%string, 0.5)]))
            (List.length ["pace"; "tone"]%string)) as H
    by (unfold Nat.lt; simpl; lia).
  split; [exact H|].
  exact (proj1 (optimizeFeatures_throws_on_too_few_keys
                  [("pace"%string, 0.5)] [1; 1] 0 ["pace"; "tone"]%string
                  Optimization.defaultStepSize) H).
Defined.

(** X8: when [optimizeFeatures] returns, every suggestion is about one
    of the feature names, starts from the current value of that feature
    (0 when absent), has a predicted gain above 0, suggests the value
    one step up or down clamped to [0,1], and reports their difference
    as delta; there is at most one suggestion per name, and the
    suggestions come in the order of non-increasing predicted gain. *)
Theorem optimizeFeatures_suggestions_sound_and_ordered :
  forall (currentFeatures : JS.Record float) (coefficients : list float)
         (intercept : float) (featureNames : list string) (stepSize : float),
    match
      Optimization.optimizeFeatures currentFeatures coefficients intercept
        featureNames stepSize
    with
    | JS.Ok r =>
        Forall (sound currentFeatures stepSize featureNames)
          (Optimization.suggestions r)
        /\ (List.length (Optimization.suggestions r)
            <= List.length featureNames)%nat
        /\ StronglySorted
             (fun a b =>
                (Optimization.predictedGain b <=? Optimization.predictedGain a)
                = true)
             (Optimization.suggestions r)
    | JS.Throw _ => True
    end.
Proof.
  intros currentFeatures coefficients intercept featureNames stepSize.
  destruct (Nat.lt_ge_cases (List.length (JS.keys currentFeatures))
              (List.length featureNames)) as [Hlt|Hge].
  - unfold Optimization.optimizeFeatures.
    rewrite collectSuggestions_throws by lia. exact I.
  - unfold Optimization.optimizeFeatures.
    destruct (collectSuggestions_sound currentFeatures coefficients intercept
                stepSize
                (ModelTraining.predict coefficients intercept
                   (map (fun name =>
                           JS.nullish (JS.get currentFeatures name) 0)
                      featureNames))
                featureNames featureNames 0 [] ltac:(simpl; lia)
                (incl_refl _) (Forall_nil _))
      as (collected & -> & Hsound & Hcount).
    cbn [JS.bind Optimization.suggestions]. split; [|split].
    + eapply Permutation_Forall; [apply sort_permutation|exact Hsound].
    + rewrite sort_length. simpl in Hcount. exact Hcount.
    + apply (sort_descending Optimization.predictedGain).
      eapply Forall_impl; [|exact Hsound].
      intros s (_ & _ & Hgain & _). exact (ltb_not_nan_r _ _ Hgain).
Qed.

(** ** prediction.ts: [confirmUpload], [validatePrediction] after
    [createPredictionSnapshot], and [getRollingAccuracy] *)

(** X9: [confirmUpload] on an id that no snapshot has changes nothing:
    the database is left as it was and no row is returned. *)
Theorem confirmUpload_unknown_snapshot :
  forall (env : Prediction.Environment) (db : Prediction.Database)
         (snapshotId : string),
    fresh db snapshotId ->
    Prediction.confirmUpload env db snapshotId = (db, None).
Proof.
  intros env db snapshotId Hfresh. unfold Prediction.confirmUpload.
  assert (map (fun s => if Prediction.has_id snapshotId s
                        then Prediction.confirmed env s else s)
            (Prediction.modelSnapshots db)
          = Prediction.modelSnapshots db) as ->.
  { apply map_unchanged. intros s Hs. unfold Prediction.has_id.
    destruct (String.eqb_spec (ModelSnapshot.id s) snapshotId) as [E|_];
      [|reflexivity].
    exfalso. exact (Hfresh s Hs E). }
  rewrite (proj2 (find_none_iff snapshotId _) Hfresh).
  destruct db. reflexivity.
Qed.

Lemma confirmUpload_unknown_snapshot_witness :
  fresh untieredDatabase "snapshot-2"
  /\ Prediction.confirmUpload (environment 1700000500000 "unused")
       untieredDatabase "snapshot-2"
     = (untieredDatabase, None).
Proof.
  assert (fresh untieredDatabase "snapshot-2") as H.
  { intros s [<-|[]]. vm_compute. discriminate. }
  split; [exact H|].
  exact (confirmUpload_unknown_snapshot _ _ _ H).
Defined.

Lemma has_id_confirmed (env : Prediction.Environment) (snapshotId : string)
  (s : ModelSnapshot.t) :
  Prediction.has_id snapshotId (Prediction.confirmed env s)
  = Prediction.has_id snapshotId s.
Proof. reflexivity. Qed.

Lemma find_map_confirmed (env : Prediction.Environment) (snapshotId : string)
  (rows : list ModelSnapshot.t) :
  find (Prediction.has_id snapshotId)
    (map (fun s => if Prediction.has_id snapshotId s
                   then Prediction.confirmed env s else s) rows)
  = option_map (Prediction.confirmed env)
      (find (Prediction.has_id snapshotId) rows).
Proof.
  induction rows as [|r rows IH]; [reflexivity|]. cbn [map find].
  destruct (Prediction.has_id snapshotId r) eqn:E.
  - rewrite has_id_confirmed, E. reflexivity.
  - rewrite E. exact IH.
Qed.

(** X10: [confirmUpload] on the id of a stored snapshot returns that
    row with uploadConfirmed and performanceTrackingStarted set and
    uploadConfirmedAt at the clock of the call, every other column as
    it was; the logs and the snapshots of other ids are untouched. *)
Theorem confirmUpload_confirms :
  forall (env : Prediction.Environment) (db : Prediction.Database)
         (snapshotId : string) (snapshot : ModelSnapshot.t),
    find (Prediction.has_id snapshotId) (Prediction.modelSnapshots db)
    = Some snapshot ->
    let confirmed := Prediction.confirmUpload env db snapshotId in
    exists updated,
      snd confirmed = Some updated
      /\ find (Prediction.has_id snapshotId)
           (Prediction.modelSnapshots (fst confirmed)) = Some updated
      /\ uploadFlags updated
         = (Some true, Some (Prediction.clock env), Some true)
      /\ lockedFields updated = lockedFields snapshot
      /\ Prediction.predictionLogs (fst confirmed)
         = Prediction.predictionLogs db
      /\ (forall other,
            other <> snapshotId ->
            filter (Prediction.has_id other)
              (Prediction.modelSnapshots (fst confirmed))
            = filter (Prediction.has_id other)
                (Prediction.modelSnapshots db)).
Proof.
  intros env db snapshotId snapshot Hfind confirmed.
  exists (Prediction.confirmed env snapshot). subst confirmed.
  unfold Prediction.confirmUpload. cbn [fst snd Prediction.modelSnapshots
    Prediction.predictionLogs].
  rewrite find_map_confirmed, Hfind. cbn [option_map].
  repeat (split; [reflexivity|]).
  intros other Hother. clear Hfind.
  induction (Prediction.modelSnapshots db) as [|r rows IH]; [reflexivity|].
  cbn [map filter]. rewrite IH.
  destruct (Prediction.has_id snapshotId r) eqn:E; [|reflexivity].
  rewrite has_id_confirmed.
  assert (Prediction.has_id other r = false) as ->; [|reflexivity].
  unfold Prediction.has_id in *. apply String.eqb_eq in E.
  apply String.eqb_neq. congruence.
Qed.

Lemma confirmUpload_confirms_witness :
  find (Prediction.has_id "snapshot-1"%string)
    (Prediction.modelSnapshots untieredDatabase) = Some storedSnapshot
  /\ exists updated,
       snd (Prediction.confirmUpload (environment 1700000500000 "unused")
              untieredDatabase "snapshot-1") = Some updated
       /\ uploadFlags updated
          = (Some true, Some 1700000500000%Z, Some true)
       /\ lockedFields updated = lockedFields storedSnapshot.
Proof.
  assert (find (Prediction.has_id "snapshot-1"%string)
            (Prediction.modelSnapshots untieredDatabase)
          = Some storedSnapshot) as H by reflexivity.
  split; [exact H|].
  destruct (confirmUpload_confirms (environment 1700000500000 "unused")
              untieredDatabase "snapshot-1" storedSnapshot H)
    as (updated & H1 & _ & H3 & H4 & _).
  exists updated. split; [exact H1|]. split; [exact H3|exact H4].
Defined.

(** X11: confirming an upload twice is confirming it once at the later
    call: the second confirmation overwrites the time of the first and
    nothing else. *)
Theorem confirmUpload_last_confirmation_wins :
  forall (first second : Prediction.Environment) (db : Prediction.Database)
         (snapshotId : string),
    Prediction.confirmUpload second
      (fst (Prediction.confirmUpload first db snapshotId)) snapshotId
    = Prediction.confirmUpload second db snapshotId.
Proof.
  intros first second db snapshotId. unfold Prediction.confirmUpload.
  cbn [fst Prediction.modelSnapshots Prediction.predictionLogs].
  assert (map (fun s => if Prediction.has_id snapshotId s
                        then Prediction.confirmed second s else s)
            (map (fun s => if Prediction.has_id snapshotId s
                           then Prediction.confirmed first s else s)
               (Prediction.modelSnapshots db))
          = map (fun s => if Prediction.has_id snapshotId s
                          then Prediction.confirmed second s else s)
              (Prediction.modelSnapshots db)) as ->; [|reflexivity].
  rewrite map_map. apply map_ext. intros s.
  destruct (Prediction.has_id snapshotId s) eqn:E.
  - rewrite has_id_confirmed, E. reflexivity.
  - rewrite E. reflexivity.
Qed.

(** X12: a snapshot written by [createPredictionSnapshot] under an id
    that was not in use is found by [validatePrediction]: the validation
    succeeds when the database accepts the four numbers of the log, and
    it then reports as predicted value the one the snapshot holds, which
    is the value given at creation as the [real] column stores it, and
    as error the difference of that value and the actual one; its log
    carries the dataset, the model and the tier that were given at
    creation. *)
Theorem createPredictionSnapshot_then_validate :
  forall (env later : Prediction.Environment) (db : Prediction.Database)
         (datasetId modelId : string) (featureVector coefficients : list float)
         (predictedValue : float) (predictedTier : string)
         (confidence : float) (sourceId sourceType : option string)
         (actualValue : float) (created : Prediction.Database)
         (snapshot : ModelSnapshot.t),
    fresh db (Prediction.gen_random_uuid env) ->
    Prediction.createPredictionSnapshot env db datasetId modelId
      featureVector coefficients predictedValue predictedTier confidence
      sourceId sourceType
    = JS.Ok (created, snapshot) ->
    let outcome :=
      Prediction.validatePrediction later created (ModelSnapshot.id snapshot)
        actualValue in
    let held := ModelSnapshot.predictedValue snapshot in
    (forall storedPredicted storedActual storedError storedAbsolute,
       Prediction.real later held = JS.Ok storedPredicted ->
       Prediction.real later actualValue = JS.Ok storedActual ->
       Prediction.real later (held - actualValue) = JS.Ok storedError ->
       Prediction.real later (abs (held - actualValue))
       = JS.Ok storedAbsolute ->
       exists db' validation, outcome = JS.Ok (db', validation))
    /\ (forall db' validation,
          outcome = JS.Ok (db', validation) ->
          Prediction.real env predictedValue
          = JS.Ok (Prediction.predicted validation)
          /\ Prediction.error validation
             = Prediction.predicted validation - actualValue
          /\ PredictionLog.datasetId (Prediction.log validation) = datasetId
          /\ PredictionLog.modelId (Prediction.log validation) = modelId
          /\ PredictionLog.predictedTier (Prediction.log validation)
             = Some predictedTier
          /\ stored later actualValue
               (PredictionLog.actualValue (Prediction.log validation))
          /\ stored later (Prediction.predicted validation)
               (Some (PredictionLog.predictedValue
                        (Prediction.log validation)))).
Proof.
  intros env later db datasetId modelId featureVector coefficients
    predictedValue predictedTier confidence sourceId sourceType actualValue
    created snapshot Hfresh Hcreated outcome held.
  destruct (createPredictionSnapshot_appends _ _ _ _ _ _ _ _ _ _ _ _ _
              Hcreated)
    as (Hrows & _ & Hid & Hdataset & Hmodel & Htier & Hvalue).
  assert (find (Prediction.has_id (ModelSnapshot.id snapshot))
            (Prediction.modelSnapshots created) = Some snapshot) as Hfind.
  { rewrite Hrows, find_app_fresh
      by (rewrite Hid; exact (proj2 (find_none_iff _ _) Hfresh)).
    cbn [find]. unfold Prediction.has_id. rewrite String.eqb_refl.
    reflexivity. }
  destruct (validatePrediction_found later created (ModelSnapshot.id snapshot)
              actualValue snapshot Hfind) as [Hsuccess Hcontent].
  split; [exact Hsuccess|].
  intros db' validation Hvalidated.
  destruct (Hcontent db' validation Hvalidated)
    as (_ & _ & _ & Hd & Hm & Ht & Hp & Ha & _ & _ & _ & _ & Hpredicted & _
        & Herror & _).
  rewrite Hpredicted. fold held.
  split; [exact Hvalue|]. split; [exact Herror|].
  split; [rewrite Hd; exact Hdataset|].
  split.
  { rewrite Hm, Hmodel. unfold Prediction.truthy.
    destruct (String.eqb_spec modelId "") as [->|]; reflexivity. }
  split; [rewrite Ht; exact Htier|].
  split; [exact Ha|exact Hp].
Qed.

Lemma createPredictionSnapshot_then_validate_witness :
  fresh emptyDatabase
    (Prediction.gen_random_uuid (environment 1700000000000 "snapshot-1"))
  /\ Prediction.createPredictionSnapshot
       (environment 1700000000000 "snapshot-1") emptyDatabase
       "videos" "model-1" [0.5] [0.6] 0.75 "" 0.875 None None
     = JS.Ok (untieredDatabase, storedSnapshot)
  /\ exists db' validation,
       Prediction.validatePrediction (environment 1700000500000 "log-1")
         untieredDatabase "snapshot-1" 0.5
       = JS.Ok (db', validation).
Proof.
  assert (fresh emptyDatabase
            (Prediction.gen_random_uuid
               (environment 1700000000000 "snapshot-1"))) as H
    by (intros s []).
  split; [exact H|]. split; [exact untieredDatabase_created|].
  refine (proj1 (createPredictionSnapshot_then_validate
                   (environment 1700000000000 "snapshot-1")
                   (environment 1700000500000 "log-1") emptyDatabase
                   "videos" "model-1" [0.5] [0.6] 0.75 "" 0.875 None None 0.5
                   untieredDatabase storedSnapshot H untieredDatabase_created)
            0.75 0.5 0.25 0.25 _ _ _ _);
    vm_compute; reflexivity.
Defined.

Lemma accuracyOf_sampleCount (logs : list PredictionLog.t) :
  Prediction.sampleCount (Prediction.accuracyOf logs)
  = List.length (filter validated logs).
Proof.
  unfold Prediction.accuracyOf. destruct logs as [|l logs]; [reflexivity|].
  fold validated.
  destruct (filter validated (l :: logs)) as [|v vs]; [reflexivity|].
  destruct (fold_left _ _ _) as [[directionalCount tierCount] totalAbsError].
  reflexivity.
Qed.

Lemma accuracyOf_no_sample (logs : list PredictionLog.t) :
  filter validated logs = [] ->
  Prediction.accuracyOf logs = Prediction.emptyAccuracy.
Proof.
  intros H. unfold Prediction.accuracyOf. fold validated. rewrite H.
  destruct logs; reflexivity.
Qed.

(** X13: the sample count of [getRollingAccuracy] is the number of
    validated logs among the rows of the window: it is at most the
    window size and at most the number of validated logs of the
    dataset, and equals the latter when the window holds all the logs
    of the dataset; when it is 0, all three metrics are 0 (no division
    by zero occurs). *)
Theorem getRollingAccuracy_sample_count :
  forall (db : Prediction.Database) (datasetId : string) (windowSize : nat),
    let r := Prediction.getRollingAccuracy db datasetId windowSize in
    (Prediction.sampleCount r <= windowSize)%nat
    /\ (Prediction.sampleCount r
        <= List.length (filter validated (logsOf db datasetId)))%nat
    /\ ((List.length (logsOf db datasetId) <= windowSize)%nat ->
        Prediction.sampleCount r
        = List.length (filter validated (logsOf db datasetId)))
    /\ (Prediction.sampleCount r = 0%nat -> r = Prediction.emptyAccuracy).
Proof.
  intros db datasetId windowSize r. subst r.
  unfold Prediction.getRollingAccuracy. rewrite accuracyOf_sampleCount.
  unfold Prediction.recentLogs. fold (logsOf db datasetId).
  set (sorted := JS.sort Prediction.createdBefore (logsOf db datasetId)).
  assert (List.length (filter validated sorted)
          = List.length (filter validated (logsOf db datasetId))) as Hsorted.
  { symmetry. apply filter_permutation_length, sort_permutation. }
  split; [|split; [|split]].
  - eapply Nat.le_trans; [apply filter_length_le|].
    rewrite length_firstn. lia.
  - rewrite <- Hsorted. apply filter_firstn_length.
  - intros Hall. rewrite firstn_all2; [exact Hsorted|].
    subst sorted. rewrite sort_length. exact Hall.
  - intros H. apply accuracyOf_no_sample.
    destruct (filter validated (firstn windowSize sorted));
      [reflexivity|discriminate].
Qed.

Lemma getRollingAccuracy_sample_count_witness :
  (List.length (logsOf untieredDatabase "videos")
   <= Prediction.defaultAccuracyWindow)%nat
  /\ Prediction.sampleCount
       (Prediction.getRollingAccuracy untieredDatabase "videos"
          Prediction.defaultAccuracyWindow)
     = List.length (filter validated (logsOf untieredDatabase "videos")).
Proof.
  assert (List.length (logsOf untieredDatabase "videos")
          <= Prediction.defaultAccuracyWindow)%nat as H
    by (unfold Prediction.defaultAccuracyWindow; cbn; lia).
  split; [exact H|].
  exact (proj1 (proj2 (proj2 (getRollingAccuracy_sample_count
                                untieredDatabase "videos"
                                Prediction.defaultAccuracyWindow))) H).
Defined.

Lemma add_zero_same (x : float) : sameNumber (0 + x) x.
Proof.
  unfold sameNumber.
  destruct (float_cases x) as [->|[->|[->|[->|[->|(s & m & e & H)]]]]];
    try (left; reflexivity).
  - right. split; reflexivity.
  - left. rewrite (add_zero_finite x s m e H). apply eqb_reflexive.
    unfold is_nan. rewrite eqb_spec, H. unfold SFeqb.
    rewrite SFcompare_refl by discriminate. reflexivity.
Qed.

(** X14: after the first validation of a dataset (no log of the
    dataset exists yet), [getRollingAccuracy] with a window of at least
    1 reports one sample, a directional and a tier accuracy of 1 or 0
    according to the two verdicts of that validation, and as mean
    absolute error the absolute error that the log holds. *)
Theorem validatePrediction_then_getRollingAccuracy :
  forall (env : Prediction.Environment) (db : Prediction.Database)
         (snapshotId : string) (actualValue : float)
         (snapshot : ModelSnapshot.t) (windowSize : nat)
         (db' : Prediction.Database) (validation : Prediction.Validation),
    find (Prediction.has_id snapshotId) (Prediction.modelSnapshots db)
    = Some snapshot ->
    logsOf db (ModelSnapshot.datasetId snapshot) = [] ->
    (1 <= windowSize)%nat ->
    Prediction.validatePrediction env db snapshotId actualValue
    = JS.Ok (db', validation) ->
    let r :=
      Prediction.getRollingAccuracy db' (ModelSnapshot.datasetId snapshot)
        windowSize in
    Prediction.sampleCount r = 1%nat
    /\ Prediction.directionalAccuracy r
       = (if Prediction.directionallyCorrect validation then 1 else 0)
    /\ Prediction.tierAccuracy r
       = (if Prediction.tierCorrect validation then 1 else 0)
    /\ exists absoluteError,
         PredictionLog.absoluteError (Prediction.log validation)
         = Some absoluteError
         /\ sameNumber (Prediction.meanAbsoluteError r) absoluteError.
Proof.
  intros env db snapshotId actualValue snapshot windowSize db' validation
    Hfind Hnone Hwindow Hvalidated r.
  destruct (proj2 (validatePrediction_found env db snapshotId actualValue
                     snapshot Hfind) db' validation Hvalidated)
    as (Hlogs & _ & _ & Hdataset & _ & _ & _ & (a & _ & Hactual) & _
        & (ae & _ & Habsolute) & Hdirectional & Htier & _).
  subst r. unfold Prediction.getRollingAccuracy, Prediction.recentLogs.
  rewrite Hlogs, filter_app. unfold logsOf in Hnone. rewrite Hnone.
  cbn [app filter]. rewrite Hdataset, String.eqb_refl.
  cbn [JS.sort fold_right JS.insert_sorted].
  destruct windowSize as [|w]; [lia|]. cbn [firstn]. rewrite firstn_nil.
  unfold Prediction.accuracyOf. cbn [filter]. rewrite Hactual.
  cbn [fold_left List.length]. rewrite Hdirectional, Htier, Habsolute.
  cbn [JS.nullish Prediction.sampleCount Prediction.directionalAccuracy
       Prediction.tierAccuracy Prediction.meanAbsoluteError].
  split; [reflexivity|].
  change (JS.of_nat 1) with 1. rewrite !div_one.
  split; [|split].
  - destruct (Prediction.directionallyCorrect validation);
      vm_compute; reflexivity.
  - destruct (Prediction.tierCorrect validation); vm_compute; reflexivity.
  - exists ae. split; [reflexivity|apply add_zero_same].
Qed.

Lemma validatePrediction_then_getRollingAccuracy_witness :
  find (Prediction.has_id "snapshot-1"%string)
    (Prediction.modelSnapshots untieredDatabase) = Some storedSnapshot
  /\ logsOf untieredDatabase (ModelSnapshot.datasetId storedSnapshot) = []
  /\ (1 <= Prediction.defaultAccuracyWindow)%nat
  /\ exists db' validation,
       Prediction.validatePrediction (environment 1700000500000 "log-1")
         untieredDatabase "snapshot-1" 1
       = JS.Ok (db', validation)
       /\ Prediction.sampleCount
            (Prediction.getRollingAccuracy db'
               (ModelSnapshot.datasetId storedSnapshot)
               Prediction.defaultAccuracyWindow) = 1%nat.
Proof.
  assert (find (Prediction.has_id "snapshot-1"%string)
            (Prediction.modelSnapshots untieredDatabase)
          = Some storedSnapshot) as Hfind by reflexivity.
  assert (logsOf untieredDatabase (ModelSnapshot.datasetId storedSnapshot)
          = []) as Hnone by reflexivity.
  assert (1 <= Prediction.defaultAccuracyWindow)%nat as Hw
    by (unfold Prediction.defaultAccuracyWindow; lia).
  split; [exact Hfind|]. split; [exact Hnone|]. split; [exact Hw|].
  destruct (Prediction.validatePrediction (environment 1700000500000 "log-1")
              untieredDatabase "snapshot-1" 1)
    as [[db' validation]|message] eqn:Hvalidated.
  - exists db', validation. split; [reflexivity|].
    exact (proj1 (validatePrediction_then_getRollingAccuracy
                    (environment 1700000500000 "log-1") untieredDatabase
                    "snapshot-1" 1 storedSnapshot
                    Prediction.defaultAccuracyWindow db' validation
                    Hfind Hnone Hw Hvalidated)).
  - exfalso. vm_compute in Hvalidated. discriminate.
Defined.

(** ** correlation-engine.ts: [computePearsonCorrelation] and
    [detectLagCorrelation] *)

Lemma pearson_sums_swap (meanX meanY : float) (x y : list float) :
  forall c a b,
    fold_left
      (fun '(covariance, varX, varY) '(xi, yi) =>
         (covariance + (xi - meanY) * (yi - meanX),
          varX + (xi - meanY) * (xi - meanY),
          varY + (yi - meanX) * (yi - meanX)))
      (combine y x) (c, b, a)
    = (let '(covariance, varX, varY) :=
         fold_left
           (fun '(covariance, varX, varY) '(xi, yi) =>
              (covariance + (xi - meanX) * (yi - meanY),
               varX + (xi - meanX) * (xi - meanX),
               varY + (yi - meanY) * (yi - meanY)))
           (combine x y) (c, a, b) in
       (covariance, varY, varX)).
Proof.
  revert y. induction x as [|xi x IH]; intros [|yi y] c a b; simpl;
    try reflexivity.
  rewrite (mul_commutative (yi - meanY) (xi - meanX)). apply IH.
Qed.

(** X15: [computePearsonCorrelation] is symmetric: exchanging the two
    series gives the same number, bit for bit. *)
Theorem computePearsonCorrelation_symmetric :
  forall x y : list float,
    CorrelationEngine.computePearsonCorrelation x y
    = CorrelationEngine.computePearsonCorrelation y x.
Proof.
  intros x y. unfold CorrelationEngine.computePearsonCorrelation.
  destruct (Nat.eqb_spec (List.length x) (List.length y)) as [E|NE].
  - rewrite <- E, Nat.eqb_refl. cbn [negb orb].
    destruct (List.length x =? 0)%nat; [reflexivity|]. cbv zeta.
    rewrite (pearson_sums_swap (JS.sum x / JS.of_nat (List.length x))
               (JS.sum y / JS.of_nat (List.length x)) x y 0 0 0).
    destruct (fold_left _ (combine x y) (0, 0, 0)) as [[covariance varX] varY].
    cbv zeta. rewrite orb_comm.
    rewrite (mul_commutative (sqrt (varY / JS.of_nat (List.length x)))).
    reflexivity.
  - destruct (Nat.eqb_spec (List.length y) (List.length x)) as [E'|_];
      [congruence|reflexivity].
Qed.

Lemma pearson_unit_or_nan (x y : list float) :
  is_nan (CorrelationEngine.computePearsonCorrelation x y) = true
  \/ within (-1) 1 (CorrelationEngine.computePearsonCorrelation x y).
Proof.
  destruct (pearson_cases x y) as [->|[pearsonR ->]].
  - right. split; reflexivity.
  - destruct (is_nan pearsonR) eqn:Hq.
    + left. apply clamp_nan. exact Hq.
    + right. apply clamp_range; try reflexivity. exact Hq.
Qed.

Lemma alignedValues_lengths (sortedTarget : list CorrelationEngine.Signal)
  (lagMs : float) (sortedSource : list CorrelationEngine.Signal) :
  forall aligned : list float * list float,
    List.length (fst aligned) = List.length (snd aligned) ->
    let result :=
      fold_left
        (fun aligned sourcePoint =>
           let targetTime :=
             CorrelationEngine.timestamp sourcePoint + lagMs in
           let '(bestMatch, bestDiff) :=
             CorrelationEngine.closestMatch sortedTarget targetTime in
           match bestMatch with
           | Some matched =>
               if bestDiff <? CorrelationEngine.msPerDay
               then (fst aligned ++ [CorrelationEngine.value sourcePoint],
                     snd aligned ++ [CorrelationEngine.value matched])
               else aligned
           | None => aligned
           end)
        sortedSource aligned in
    List.length (fst result) = List.length (snd result)
    /\ (List.length (fst result)
        <= List.length (fst aligned) + List.length sortedSource)%nat
    /\ (sortedTarget = [] -> result = aligned).
Proof.
  induction sortedSource as [|p sortedSource IH]; intros aligned Hlen;
    cbn [fold_left List.length].
  - repeat split; [exact Hlen|lia].
  - cbv zeta.
    destruct (CorrelationEngine.closestMatch sortedTarget
                (CorrelationEngine.timestamp p + lagMs))
      as [bestMatch bestDiff] eqn:Eclosest.
    destruct bestMatch as [matched|].
    + destruct (bestDiff <? CorrelationEngine.msPerDay).
      * match goal with
        | |- context [fold_left ?f sortedSource ?acc] =>
            destruct (IH acc) as (H1 & H2 & H3)
        end.
        { cbn [fst snd]. rewrite !length_app. cbn [List.length]. lia. }
        cbv zeta in H1, H2, H3. cbn [fst snd] in H2.
        rewrite length_app in H2. cbn [List.length] in H2.
        repeat split; [exact H1|lia|].
        intros ->. discriminate Eclosest.
      * destruct (IH aligned Hlen) as (H1 & H2 & H3).
        cbv zeta in H1, H2, H3. repeat split; [exact H1|lia|exact H3].
    + destruct (IH aligned Hlen) as (H1 & H2 & H3).
      cbv zeta in H1, H2, H3. repeat split; [exact H1|lia|exact H3].
Qed.

Lemma alignedValues_bound (sortedSource sortedTarget : list CorrelationEngine.Signal)
  (lagMs : float) :
  let aligned :=
    CorrelationEngine.alignedValues sortedSource sortedTarget lagMs in
  (List.length (fst aligned) <= List.length sortedSource)%nat
  /\ (sortedSource = [] \/ sortedTarget = [] -> aligned = ([], [])).
Proof.
  unfold CorrelationEngine.alignedValues.
  destruct (alignedValues_lengths sortedTarget lagMs sortedSource ([], [])
              eq_refl) as (_ & H2 & H3).
  cbv zeta in H2, H3. split; [exact H2|].
  intros [->|Ht]; [reflexivity|exact (H3 Ht)].
Qed.

Lemma tryLag_invariant (sortedSource sortedTarget : list CorrelationEngine.Signal)
  (maxLag : nat) (best : CorrelationEngine.LagCorrelation) (lag : nat) :
  (lag <= maxLag)%nat ->
  lagInvariant maxLag (List.length sortedSource) best ->
  lagInvariant maxLag (List.length sortedSource)
    (CorrelationEngine.tryLag sortedSource sortedTarget best lag).
Proof.
  intros Hlag Hbest. unfold CorrelationEngine.tryLag. cbv zeta.
  pose proof (alignedValues_bound sortedSource sortedTarget
                (JS.of_nat lag * CorrelationEngine.msPerDay)) as [Hcount _].
  cbv zeta in Hcount.
  destruct (CorrelationEngine.alignedValues sortedSource sortedTarget
              (JS.of_nat lag * CorrelationEngine.msPerDay)) as [xs ys].
  cbn [fst] in Hcount.
  destruct (Nat.leb_spec 2 (List.length xs)) as [H2|_]; [|exact Hbest].
  destruct (abs (CorrelationEngine.correlationStrength best)
            <? abs (CorrelationEngine.computePearsonCorrelation xs ys))
    eqn:Hbetter; [|exact Hbest].
  destruct (abs_ltb_nonzero _ _ Hbetter) as [Hnan Hnonzero].
  unfold lagInvariant.
  cbn [CorrelationEngine.correlationStrength CorrelationEngine.lagDays
       CorrelationEngine.sampleSize].
  split; [|split; [exact Hlag|split; [exact Hcount|right; split; assumption]]].
  destruct (pearson_unit_or_nan xs ys) as [H|H]; [congruence|exact H].
Qed.

Lemma tryLag_nothing_aligned (sortedSource sortedTarget : list CorrelationEngine.Signal)
  (best : CorrelationEngine.LagCorrelation) (lag : nat) :
  sortedSource = [] \/ sortedTarget = [] ->
  CorrelationEngine.tryLag sortedSource sortedTarget best lag = best.
Proof.
  intros H. unfold CorrelationEngine.tryLag. cbv zeta.
  rewrite (proj2 (alignedValues_bound sortedSource sortedTarget
                    (JS.of_nat lag * CorrelationEngine.msPerDay)) H).
  reflexivity.
Qed.

(** X16: whatever the signals and the largest lag, the strength that
    [detectLagCorrelation] returns is a number of [-1,1], never NaN; the
    lag is between 0 and the largest lag (0 when that is negative); the
    sample size is at most the number of source points; either no lag
    aligned two points with a correlation other than 0, and the result
    is all zero, or the sample size is at least 2 and the strength is
    not 0; with no source or no target point the result is all zero. *)
Theorem detectLagCorrelation_bounds :
  forall (sourceSignals targetSignals : list CorrelationEngine.Signal)
         (maxLagDays : Z),
    let r :=
      CorrelationEngine.detectLagCorrelation sourceSignals targetSignals
        maxLagDays in
    within (-1) 1 (CorrelationEngine.correlationStrength r)
    /\ (Z.of_nat (CorrelationEngine.lagDays r) <= Z.max 0 maxLagDays)%Z
    /\ (CorrelationEngine.sampleSize r <= List.length sourceSignals)%nat
    /\ ((CorrelationEngine.sampleSize r = 0%nat
         /\ CorrelationEngine.lagDays r = 0%nat
         /\ CorrelationEngine.correlationStrength r = 0)
        \/ ((2 <= CorrelationEngine.sampleSize r)%nat
            /\ (CorrelationEngine.correlationStrength r =? 0) = false))
    /\ (sourceSignals = [] \/ targetSignals = [] ->
        r = noCorrelation).
Proof.
  intros sourceSignals targetSignals maxLagDays r. subst r.
  unfold CorrelationEngine.detectLagCorrelation.
  set (sortedSource := JS.sort _ sourceSignals).
  set (sortedTarget := JS.sort _ targetSignals).
  set (lags := seq 0 (Z.to_nat (maxLagDays + 1))).
  fold noCorrelation. set (start := noCorrelation).
  assert (forall lag, In lag lags -> (lag <= Z.to_nat (Z.max 0 maxLagDays))%nat)
    as Hlags.
  { intros lag Hin. subst lags. apply in_seq in Hin. lia. }
  assert (lagInvariant (Z.to_nat (Z.max 0 maxLagDays))
            (List.length sortedSource) start) as Hstart.
  { unfold lagInvariant, start, noCorrelation. cbn. split; [split; reflexivity|].
    split; [lia|]. split; [lia|]. left. repeat split. }
  assert (lagInvariant (Z.to_nat (Z.max 0 maxLagDays))
            (List.length sortedSource)
            (fold_left (CorrelationEngine.tryLag sortedSource sortedTarget)
               lags start)) as (H1 & H2 & H3 & H4).
  { revert Hlags Hstart. generalize start.
    induction lags as [|lag lags IH]; intros best Hlags Hbest;
      cbn [fold_left]; [exact Hbest|].
    apply IH.
    - intros l Hl. apply Hlags. right. exact Hl.
    - apply tryLag_invariant; [apply Hlags; left; reflexivity|exact Hbest]. }
  split; [exact H1|]. split; [lia|].
  split; [subst sortedSource; rewrite sort_length in H3; exact H3|].
  split; [exact H4|].
  intros Hempty.
  assert (sortedSource = [] \/ sortedTarget = []) as Hsorted.
  { destruct Hempty as [->| ->]; [left|right]; reflexivity. }
  clear Hlags Hstart H1 H2 H3 H4. generalize start.
  induction lags as [|lag lags IH]; intros best; cbn [fold_left];
    [reflexivity|].
  rewrite tryLag_nothing_aligned by exact Hsorted. apply IH.
Qed.

Lemma detectLagCorrelation_bounds_witness :
  (noSignal = [] \/ onePointSignal = [])
  /\ CorrelationEngine.detectLagCorrelation noSignal onePointSignal
       CorrelationEngine.defaultMaxLagDays = noCorrelation.
Proof.
  assert (noSignal = [] \/ onePointSignal = []) as H
    by (left; reflexivity).
  split; [exact H|].
  exact (proj2 (proj2 (proj2 (proj2
           (detectLagCorrelation_bounds noSignal onePointSignal
              CorrelationEngine.defaultMaxLagDays)))) H).
Defined.

(** ** drift-detection.ts: [checkPatternRetirement], [analyzeTrend] and
    [computeEngagementVelocity] *)

Lemma actualValues_length (predictions : list DriftDetection.PredictionLog) :
  (List.length (DriftDetection.actualValues predictions)
   <= List.length predictions)%nat.
Proof.
  unfold DriftDetection.actualValues.
  induction predictions as [|p predictions IH]; simpl; [lia|].
  destruct (DriftDetection.actualValue p); simpl; lia.
Qed.

(** X17: [checkPatternRetirement] reports the number of predictions it
    was given; it retires the pattern exactly when the magnitude of the
    score it reports exceeds 1.5, and gives a reason exactly then.  With
    fewer than 5 actual values on record, or when their computed
    standard deviation is 0, the score is 0 and the pattern is kept;
    otherwise the score is the mean of all the predicted values
    (validated or not) less the mean of the actual values, in standard
    deviations of the actual values. *)
Theorem checkPatternRetirement_contract :
  forall (patternId : string) (predictions : list DriftDetection.PredictionLog),
    let r := DriftDetection.checkPatternRetirement patternId predictions in
    let actuals := DriftDetection.actualValues predictions in
    DriftDetection.patternId r = patternId
    /\ DriftDetection.sampleCount r = List.length predictions
    /\ DriftDetection.retired r
       = (1.5 <? abs (DriftDetection.underperformanceStdDev r))
    /\ DriftDetection.reason r
       = (if DriftDetection.retired r
          then Some (abs (DriftDetection.underperformanceStdDev r))
          else None)
    /\ ((List.length actuals < 5)%nat \/ (computedStdDev actuals =? 0) = true ->
        DriftDetection.underperformanceStdDev r = 0
        /\ DriftDetection.retired r = false)
    /\ ((5 <= List.length actuals)%nat ->
        (computedStdDev actuals =? 0) = false ->
        DriftDetection.underperformanceStdDev r = retirementScore predictions).
Proof.
  intros patternId predictions r actuals.
  pose proof (actualValues_length predictions) as Hle. fold actuals in Hle.
  subst r. unfold DriftDetection.checkPatternRetirement.
  fold actuals. cbv zeta.
  change (sqrt (fold_left (fun sum v =>
                   sum + (v - JS.sum actuals / JS.of_nat (List.length actuals))
                         * (v - JS.sum actuals
                                / JS.of_nat (List.length actuals)))
                  actuals 0
                / JS.of_nat (List.length actuals)))
    with (computedStdDev actuals).
  destruct (Nat.ltb_spec (List.length predictions) 5) as [Hfew|Hmany].
  { cbn. repeat split; try reflexivity. lia. }
  destruct (Nat.ltb_spec (List.length actuals) 5) as [Hfew|Henough].
  { cbn. repeat split; try reflexivity. lia. }
  destruct (computedStdDev actuals =? 0) eqn:Hflat.
  { cbn. repeat split; try reflexivity. discriminate. }
  change ((JS.sum (map DriftDetection.predictedValue predictions)
           / JS.of_nat
               (List.length (map DriftDetection.predictedValue predictions))
           - JS.sum actuals / JS.of_nat (List.length actuals))
          / computedStdDev actuals)
    with (retirementScore predictions).
  destruct (1.5 <? abs (retirementScore predictions)) eqn:Hover;
    cbn [DriftDetection.patternId DriftDetection.sampleCount
         DriftDetection.retired DriftDetection.reason
         DriftDetection.underperformanceStdDev];
    rewrite ?Hover; repeat split; try reflexivity;
    try (intros [H|H]; [lia|discriminate]);
    match goal with
    | H : _ \/ _ |- _ => destruct H as [H|H]; [lia|discriminate]
    end.
Qed.

Lemma checkPatternRetirement_contract_witness :
  let predictions :=
    map (fun actual =>
           {| DriftDetection.predictedValue := 0.9;
              DriftDetection.actualValue := Some actual |})
      [0.1; 0.2; 0.3; 0.2; 0.1] in
  (5 <= List.length (DriftDetection.actualValues predictions))%nat
  /\ (computedStdDev (DriftDetection.actualValues predictions) =? 0) = false
  /\ DriftDetection.underperformanceStdDev
       (DriftDetection.checkPatternRetirement "pattern-1" predictions)
     = retirementScore predictions.
Proof.
  intros predictions.
  assert (5 <= List.length (DriftDetection.actualValues predictions))%nat
    as Hcount by (vm_compute; lia).
  assert ((computedStdDev (DriftDetection.actualValues predictions) =? 0)
          = false) as Hspread by (vm_compute; reflexivity).
  split; [exact Hcount|]. split; [exact Hspread|].
  exact (proj2 (proj2 (proj2 (proj2 (proj2
           (checkPatternRetirement_contract "pattern-1" predictions)))))
           Hcount Hspread).
Defined.

(** X18: [analyzeTrend] on no data point returns the zero result; on
    data points it reports the value of the last one and flags an
    anomaly exactly when the magnitude of the z-score exceeds 2; with
    fewer than 3 points the acceleration is 0; and with a window size
    of 0 or less the rolling mean is NaN while the z-score is 0 and no
    anomaly is flagged. *)
Theorem analyzeTrend_edges :
  forall (dataPoints : list DriftDetection.DataPoint.t) (windowSize : Z),
    let r := DriftDetection.analyzeTrend dataPoints windowSize in
    (dataPoints = [] ->
     DriftDetection.TrendSignalData.value r = 0
     /\ DriftDetection.TrendSignalData.rollingMean r = 0
     /\ DriftDetection.TrendSignalData.zScore r = 0)
    /\ (forall earlier latest,
          dataPoints = earlier ++ [latest] ->
          DriftDetection.TrendSignalData.value r
          = DriftDetection.DataPoint.value latest)
    /\ DriftDetection.TrendSignalData.isAnomaly r
       = (2 <? abs (DriftDetection.TrendSignalData.zScore r))
    /\ ((List.length dataPoints < 3)%nat ->
        DriftDetection.TrendSignalData.acceleration r = 0)
    /\ (dataPoints <> [] -> (windowSize <= 0)%Z ->
        is_nan (DriftDetection.TrendSignalData.rollingMean r) = true
        /\ DriftDetection.TrendSignalData.zScore r = 0
        /\ DriftDetection.TrendSignalData.isAnomaly r = false).
Proof.
  intros dataPoints windowSize r. subst r.
  destruct dataPoints as [|p dataPoints].
  { split; [intros _; repeat split|].
    split; [intros [|? ?] ? E; discriminate E|].
    split; [reflexivity|]. split; [reflexivity|].
    intros E. contradiction. }
  unfold DriftDetection.analyzeTrend. cbv zeta.
  cbn [DriftDetection.TrendSignalData.value
       DriftDetection.TrendSignalData.rollingMean
       DriftDetection.TrendSignalData.zScore
       DriftDetection.TrendSignalData.acceleration
       DriftDetection.TrendSignalData.isAnomaly].
  split; [discriminate|]. split; [|split; [reflexivity|split]].
  - intros earlier latest E. rewrite E, map_app, length_app.
    cbn [map List.length].
    rewrite length_map.
    replace (List.length earlier + 1 - 1)%nat
      with (List.length (map DriftDetection.DataPoint.value earlier)
            + 0)%nat
      by (rewrite length_map; lia).
    rewrite app_nth2_plus. reflexivity.
  - intros Hfew. rewrite length_map.
    destruct (Nat.leb_spec 2 (List.length (p :: dataPoints))); [|reflexivity].
    destruct (Nat.leb_spec 3 (List.length (p :: dataPoints))); [lia|].
    reflexivity.
  - intros _ Hwindow.
    rewrite slice_past_end by lia.
    repeat split; vm_compute; reflexivity.
Qed.

Lemma analyzeTrend_edges_witness :
  onePoint <> [] /\ (0 <= 0)%Z
  /\ is_nan (DriftDetection.TrendSignalData.rollingMean
               (DriftDetection.analyzeTrend onePoint 0)) = true
  /\ DriftDetection.TrendSignalData.zScore
       (DriftDetection.analyzeTrend onePoint 0) = 0
  /\ DriftDetection.TrendSignalData.isAnomaly
       (DriftDetection.analyzeTrend onePoint 0) = false.
Proof.
  assert (onePoint <> []) as Hdata by discriminate.
  assert (0 <= 0)%Z as Hwindow by lia.
  split; [exact Hdata|]. split; [exact Hwindow|].
  exact (proj2 (proj2 (proj2 (proj2 (analyzeTrend_edges onePoint 0))))
           Hdata Hwindow).
Defined.

Lemma single_point_window_is_flat (v : float) (windowSize : Z) :
  (0 <? computedStdDev
          (JS.slice [v] (JS.Int (Z.max 0 (Z.of_nat 1 - windowSize))) None))
  = false.
Proof.
  destruct (Z.le_gt_cases windowSize 0) as [Hw|Hw].
  - rewrite slice_past_end by (cbn [List.length]; lia).
    vm_compute. reflexivity.
  - replace (Z.max 0 (Z.of_nat 1 - windowSize)) with 0%Z by lia.
    change (JS.slice [v] (JS.Int 0) None) with [v].
    unfold computedStdDev. cbv zeta. cbn [fold_left JS.sum List.length].
    change (JS.of_nat 1) with 1. apply single_value_is_flat.
Qed.

(** X19: a single data point is never an anomaly: whatever its value
    (NaN and the infinities included) and whatever the window size,
    [analyzeTrend] reports that value with a z-score of 0, no anomaly
    and no acceleration. *)
Theorem analyzeTrend_single_point :
  forall (point : DriftDetection.DataPoint.t) (windowSize : Z),
    let r := DriftDetection.analyzeTrend [point] windowSize in
    DriftDetection.TrendSignalData.value r
    = DriftDetection.DataPoint.value point
    /\ DriftDetection.TrendSignalData.zScore r = 0
    /\ DriftDetection.TrendSignalData.isAnomaly r = false
    /\ DriftDetection.TrendSignalData.acceleration r = 0.
Proof.
  intros point windowSize r. subst r.
  unfold DriftDetection.analyzeTrend. cbv zeta.
  cbn [map List.length Nat.sub nth Nat.leb].
  set (window := JS.slice [DriftDetection.DataPoint.value point]
                   (JS.Int (Z.max 0 (Z.of_nat 1 - windowSize))) None).
  change (sqrt (fold_left
                  (fun sum v =>
                     sum + (v - JS.sum window / JS.of_nat (List.length window))
                           * (v - JS.sum window
                                  / JS.of_nat (List.length window)))
                  window 0
                / JS.of_nat (List.length window)))
    with (computedStdDev window).
  subst window. rewrite single_point_window_is_flat.
  cbn [DriftDetection.TrendSignalData.value
       DriftDetection.TrendSignalData.zScore
       DriftDetection.TrendSignalData.isAnomaly
       DriftDetection.TrendSignalData.acceleration].
  repeat split.
Qed.

(** X20: [computeEngagementVelocity] returns 0 when it has fewer than 2
    engagements or fewer than 2 timestamps; with 2 timestamps or more
    but fewer timestamps than engagements it throws.  Otherwise, the
    times being numbers, it measures between a sample of the earliest
    time and a sample of the latest time, in whatever order the samples
    are given: the change of engagement per hour, or 0 when no time has
    passed. *)
Theorem computeEngagementVelocity_contract :
  forall engagements timestamps : list float,
    let velocity :=
      DriftDetection.computeEngagementVelocity engagements timestamps in
    ((List.length engagements < 2)%nat \/ (List.length timestamps < 2)%nat ->
     velocity = JS.Ok 0)
    /\ ((2 <= List.length timestamps)%nat ->
        (List.length timestamps < List.length engagements)%nat ->
        exists message, velocity = JS.Throw message)
    /\ ((2 <= List.length engagements)%nat ->
        (List.length engagements <= List.length timestamps)%nat ->
        Forall (fun s => is_nan (snd s) = false)
          (samples engagements timestamps) ->
        exists earliest latest,
          In earliest (samples engagements timestamps)
          /\ In latest (samples engagements timestamps)
          /\ (forall s, In s (samples engagements timestamps) ->
                        (snd earliest <=? snd s) = true
                        /\ (snd s <=? snd latest) = true)
          /\ velocity = JS.Ok (velocityBetween earliest latest)).
Proof.
  intros engagements timestamps velocity. subst velocity.
  unfold DriftDetection.computeEngagementVelocity.
  split; [|split].
  - intros [H|H].
    + destruct (Nat.ltb_spec (List.length engagements) 2); [reflexivity|lia].
    + destruct (Nat.ltb_spec (List.length timestamps) 2);
        [rewrite orb_true_r; reflexivity|lia].
  - intros H2 Hshort.
    destruct (Nat.ltb_spec (List.length engagements) 2); [lia|].
    destruct (Nat.ltb_spec (List.length timestamps) 2); [lia|]. cbn [orb].
    destruct (Nat.ltb_spec (List.length timestamps) (List.length engagements));
      [eauto|lia].
  - intros H2 Hlen Hvalid.
    destruct (Nat.ltb_spec (List.length engagements) 2); [lia|].
    destruct (Nat.ltb_spec (List.length timestamps) 2); [lia|]. cbn [orb].
    destruct (Nat.ltb_spec (List.length timestamps) (List.length engagements));
      [lia|].
    fold (samples engagements timestamps) in *.
    set (sortedData := JS.sort _ (samples engagements timestamps)).
    assert (Permutation (samples engagements timestamps) sortedData) as Hperm
      by apply sort_permutation.
    assert (List.length sortedData = List.length engagements) as Hcount.
    { subst sortedData. rewrite sort_length. unfold samples.
      rewrite length_combine. lia. }
    destruct (Nat.ltb_spec (List.length sortedData) 2); [lia|].
    assert (StronglySorted (fun a b => (snd a <=? snd b) = true) sortedData)
      as Hsorted by (apply (sort_ascending snd); exact Hvalid).
    exists (nth 0 sortedData (nan, nan)),
      (nth (List.length sortedData - 1) sortedData (nan, nan)).
    split; [|split; [|split]].
    + apply (Permutation_in _ (Permutation_sym Hperm)), nth_In. lia.
    + apply (Permutation_in _ (Permutation_sym Hperm)), nth_In. lia.
    + intros s Hs.
      apply (sorted_first_last (fun a b => (snd a <=? snd b) = true));
        [|exact Hsorted|exact (Permutation_in _ Hperm Hs)].
      intros x Hx. apply leb_refl.
      rewrite Forall_forall in Hvalid. apply Hvalid.
      exact (Permutation_in _ (Permutation_sym Hperm) Hx).
    + unfold velocityBetween. cbv zeta.
      destruct (_ <=? 0); reflexivity.
Qed.

Lemma computeEngagementVelocity_contract_witness :
  (2 <= List.length twoEngagements)%nat
  /\ (List.length twoEngagements <= List.length twoTimestamps)%nat
  /\ Forall (fun s => is_nan (snd s) = false)
       (samples twoEngagements twoTimestamps)
  /\ exists earliest latest,
       In earliest (samples twoEngagements twoTimestamps)
       /\ In latest (samples twoEngagements twoTimestamps)
       /\ (forall s, In s (samples twoEngagements twoTimestamps) ->
                     (snd earliest <=? snd s) = true
                     /\ (snd s <=? snd latest) = true)
       /\ DriftDetection.computeEngagementVelocity twoEngagements
            twoTimestamps
          = JS.Ok (velocityBetween earliest latest).
Proof.
  assert (2 <= List.length twoEngagements)%nat as H2 by (simpl; lia).
  assert (List.length twoEngagements <= List.length twoTimestamps)%nat
    as Hlen by (simpl; lia).
  assert (Forall (fun s => is_nan (snd s) = false)
            (samples twoEngagements twoTimestamps)) as Hvalid
    by (repeat constructor).
  split; [exact H2|]. split; [exact Hlen|]. split; [exact Hvalid|].
  exact (proj2 (proj2 (computeEngagementVelocity_contract twoEngagements
                         twoTimestamps)) H2 Hlen Hvalid).
Defined.

(** ** exploration.ts: [mutateFeatures] and
    [decideExplorationStrategy] *)

(** The state of the loop of [mutateFeatures] after the bounds
    [done]. *)
Lemma mutateFeatures_loop (random : Exploration.Random)
  (features : JS.Record float) (bounds : JS.Record Exploration.Bound) :
  forall (clone : JS.Record float) (log : JS.Record Exploration.Mutation)
         (draws : nat),
    NoDup (JS.keys bounds) ->
    let '(clone', log', draws') :=
      fold_left (Exploration.mutateEntry random features) bounds
        (clone, log, draws) in
    draws' = (draws + List.length bounds)%nat
    /\ (forall name, ~ In name (JS.keys bounds) ->
          JS.get clone' name = JS.get clone name
          /\ JS.get log' name = JS.get log name)
    /\ (forall name bound,
          In (name, bound) bounds ->
          exists drawn,
            let originalValue :=
              JS.nullish (JS.get features name) (Exploration.min bound) in
            let newValue :=
              Exploration.mutatedValue bound originalValue drawn in
            JS.get clone' name = Some newValue
            /\ JS.get log' name
               = Some {| Exploration.original := originalValue;
                         Exploration.mutated := newValue;
                         Exploration.delta := newValue - originalValue |}).
Proof.
  induction bounds as [|[key bound] bounds IH]; intros clone log draws Hnodup.
  - cbn. repeat split; [lia|intros ? ? []].
  - cbn [fold_left Exploration.mutateEntry].
    cbn [JS.keys map fst] in Hnodup. inversion Hnodup as [|? ? Hfresh Hrest];
      subst.
    specialize (IH (JS.set clone key
                      (Exploration.mutatedValue bound
                         (JS.nullish (JS.get features key)
                            (Exploration.min bound))
                         (random draws)))
                  (JS.set log key
                     {| Exploration.original :=
                          JS.nullish (JS.get features key)
                            (Exploration.min bound);
                        Exploration.mutated :=
                          Exploration.mutatedValue bound
                            (JS.nullish (JS.get features key)
                               (Exploration.min bound))
                            (random draws);
                        Exploration.delta :=
                          Exploration.mutatedValue bound
                            (JS.nullish (JS.get features key)
                               (Exploration.min bound))
                            (random draws)
                          - JS.nullish (JS.get features key)
                              (Exploration.min bound) |})
                  (S draws) Hrest).
    destruct (fold_left _ bounds _) as [[clone' log'] draws'].
    destruct IH as (Hdraws & Hother & Hbound).
    split; [cbn [List.length]; lia|]. split.
    + intros name Hname. cbn [JS.keys map fst] in Hname.
      destruct (Hother name) as [H1 H2].
      { intros Hin. apply Hname. right. exact Hin. }
      rewrite H1, H2.
      rewrite !get_set_other; [split; reflexivity| |];
        intros ->; apply Hname; left; reflexivity.
    + intros name b [E|Hin].
      * injection E as <- <-. exists (random draws). cbv zeta.
        destruct (Hother key Hfresh) as [H1 H2].
        rewrite H1, H2, !get_set_same. split; reflexivity.
      * exact (Hbound name b Hin).
Qed.

Lemma mutateFeatures_unbounded (random : Exploration.Random) (draws : nat)
  (features : JS.Record float) (bounds : JS.Record Exploration.Bound) :
  NoDup (JS.keys bounds) ->
  let mutated := Exploration.mutateFeatures random draws features bounds in
  snd mutated = (draws + List.length bounds)%nat
  /\ forall name,
       ~ In name (JS.keys bounds) ->
       JS.get (Exploration.MutationResult.features (fst mutated)) name
       = JS.get features name.
Proof.
  intros Hnodup mutated. subst mutated. unfold Exploration.mutateFeatures.
  pose proof (mutateFeatures_loop random features bounds features [] draws
                Hnodup) as H.
  destruct (fold_left _ bounds _) as [[clone' log'] draws'].
  destruct H as (Hdraws & Hother & _).
  cbn [fst snd Exploration.MutationResult.features]. split; [exact Hdraws|].
  intros name Hname. exact (proj1 (Hother name Hname)).
Qed.

(** X21: [mutateFeatures] draws one random value per bound, whatever
    the values drawn.  A feature without a bound keeps its value and
    gets no log entry.  A feature with a bound gets a value and a log
    entry whose original is the value it had (the minimum of the bound
    when it was absent) and whose delta is the difference of the two;
    when the minimum of the bound is not above its maximum, the new
    value lies between them, unless it is NaN. *)
Theorem mutateFeatures_stays_within_bounds :
  forall (random : Exploration.Random) (draws : nat)
         (features : JS.Record float) (bounds : JS.Record Exploration.Bound),
    NoDup (JS.keys bounds) ->
    let mutated := Exploration.mutateFeatures random draws features bounds in
    snd mutated = (draws + List.length bounds)%nat
    /\ (forall name,
          ~ In name (JS.keys bounds) ->
          JS.get (Exploration.MutationResult.features (fst mutated)) name
          = JS.get features name
          /\ JS.get (Exploration.MutationResult.mutationLog (fst mutated)) name
             = None)
    /\ (forall name bound,
          In (name, bound) bounds ->
          exists v change,
            JS.get (Exploration.MutationResult.features (fst mutated)) name
            = Some v
            /\ JS.get (Exploration.MutationResult.mutationLog (fst mutated))
                 name = Some change
            /\ Exploration.original change
               = JS.nullish (JS.get features name) (Exploration.min bound)
            /\ Exploration.mutated change = v
            /\ Exploration.delta change = v - Exploration.original change
            /\ ((Exploration.min bound <=? Exploration.max bound) = true ->
                is_nan v = true
                \/ within (Exploration.min bound) (Exploration.max bound) v)).
Proof.
  intros random draws features bounds Hnodup mutated. subst mutated.
  unfold Exploration.mutateFeatures.
  pose proof (mutateFeatures_loop random features bounds features [] draws
                Hnodup) as H.
  destruct (fold_left _ bounds _) as [[clone' log'] draws'].
  destruct H as (Hdraws & Hother & Hbound).
  cbn [fst snd Exploration.MutationResult.features
       Exploration.MutationResult.mutationLog].
  split; [exact Hdraws|]. split.
  - intros name Hname. destruct (Hother name Hname) as [H1 H2].
    rewrite H1, H2. split; reflexivity.
  - intros name bound Hin.
    destruct (Hbound name bound Hin) as (drawn & H1 & H2). cbv zeta in H1, H2.
    eexists _, _. split; [exact H1|]. split; [exact H2|].
    cbn [Exploration.original Exploration.mutated Exploration.delta].
    repeat split. intros Hle. unfold Exploration.mutatedValue.
    apply clamp_between_or_nan. exact Hle.
Qed.

Lemma mutateFeatures_stays_within_bounds_witness :
  NoDup (JS.keys Exploration.getDefaultMutationBounds)
  /\ snd (Exploration.mutateFeatures (fun _ => 0.5) 0
            [("setupDuration"%string, 0.4)]
            Exploration.getDefaultMutationBounds) = 5%nat.
Proof.
  assert (NoDup (JS.keys Exploration.getDefaultMutationBounds)) as H.
  { cbn. repeat constructor; cbn; intuition discriminate. }
  split; [exact H|].
  exact (proj1 (mutateFeatures_stays_within_bounds (fun _ => 0.5) 0
                  [("setupDuration"%string, 0.4)]
                  Exploration.getDefaultMutationBounds H)).
Defined.

(** X22: [decideExplorationStrategy] reports the exploration rate that
    [adjustEpsilon] gives for the configured rate (0.15 by default) and
    the stage; it explores exactly when the first value drawn is below
    that rate, so never when the rate is NaN.  When it exploits it
    returns the features as they were, after one draw; when it explores
    it reports the original features, after one more draw per bound;
    in both cases a feature without a bound keeps its value. *)
Theorem decideExplorationStrategy_contract :
  forall (random : Exploration.Random) (draws : nat)
         (features : JS.Record float)
         (config : option Exploration.ExplorationConfig.t)
         (amiScore : option (option string)),
    NoDup (JS.keys (boundsOf config)) ->
    let decided :=
      Exploration.decideExplorationStrategy random draws features config
        amiScore in
    let decision := fst decided in
    Exploration.ExplorationDecision.epsilon decision
    = epsilonOf config amiScore
    /\ (Exploration.ExplorationDecision.groupType decision
        = Exploration.exploration
        <-> (random draws <? epsilonOf config amiScore) = true)
    /\ (is_nan (epsilonOf config amiScore) = true ->
        Exploration.ExplorationDecision.groupType decision
        = Exploration.exploitation)
    /\ (Exploration.ExplorationDecision.groupType decision
        = Exploration.exploitation ->
        Exploration.ExplorationDecision.features decision = features
        /\ Exploration.ExplorationDecision.mutationParameters decision = None
        /\ Exploration.ExplorationDecision.originalFeatures decision = None
        /\ snd decided = S draws)
    /\ (Exploration.ExplorationDecision.groupType decision
        = Exploration.exploration ->
        Exploration.ExplorationDecision.originalFeatures decision
        = Some features
        /\ snd decided = (S draws + List.length (boundsOf config))%nat)
    /\ (forall name,
          ~ In name (JS.keys (boundsOf config)) ->
          JS.get (Exploration.ExplorationDecision.features decision) name
          = JS.get features name).
Proof.
  intros random draws features config amiScore Hnodup decided decision.
  subst decided decision. unfold Exploration.decideExplorationStrategy.
  fold (boundsOf config). fold (epsilonOf config amiScore). cbv zeta.
  destruct (random draws <? epsilonOf config amiScore) eqn:Hdraw; cbn [negb].
  - pose proof (mutateFeatures_unbounded random (S draws) features
                  (boundsOf config) Hnodup) as [Hdraws Hkept].
    cbv zeta in Hdraws, Hkept.
    destruct (Exploration.mutateFeatures random (S draws) features
                (boundsOf config)) as [result draws'].
    cbn [fst snd] in *.
    cbn [Exploration.ExplorationDecision.epsilon
         Exploration.ExplorationDecision.groupType
         Exploration.ExplorationDecision.originalFeatures
         Exploration.ExplorationDecision.mutationParameters
         Exploration.ExplorationDecision.features].
    split; [reflexivity|]. split; [split; reflexivity|]. split.
    + intros Hnan. rewrite (ltb_nan_r _ _ Hnan) in Hdraw. discriminate.
    + split; [discriminate|]. split; [|exact Hkept].
      intros _. split; [reflexivity|exact Hdraws].
  - cbn [fst snd Exploration.ExplorationDecision.epsilon
         Exploration.ExplorationDecision.groupType
         Exploration.ExplorationDecision.originalFeatures
         Exploration.ExplorationDecision.mutationParameters
         Exploration.ExplorationDecision.features].
    split; [reflexivity|]. split; [split; discriminate|].
    split; [reflexivity|]. split; [repeat split|].
    split; [discriminate|reflexivity].
Qed.

Lemma decideExplorationStrategy_contract_witness :
  NoDup (JS.keys (boundsOf None))
  /\ Exploration.ExplorationDecision.epsilon
       (fst (Exploration.decideExplorationStrategy (fun _ => 0.5) 0
               [("wordCount"%string, 0.3)] None
               (Some (Some "search_growth"%string))))
     = epsilonOf None (Some (Some "search_growth"%string)).
Proof.
  assert (NoDup (JS.keys (boundsOf None))) as H.
  { cbn. repeat constructor; cbn; intuition discriminate. }
  split; [exact H|].
  exact (proj1 (decideExplorationStrategy_contract (fun _ => 0.5) 0
                  [("wordCount"%string, 0.3)] None
                  (Some (Some "search_growth"%string)) H)).
Defined.

(** ** feature-engineering.ts: [computeFeatureStats] and
    [normalizeFeatures] *)

Lemma get_computeFeatureStats (featureArrays : JS.Record (list float)) :
  forall (stats : JS.Record FeatureEngineering.FeatureStats) (name : string),
    NoDup (JS.keys featureArrays) ->
    JS.get
      (fold_left
         (fun stats entry =>
            JS.set stats (fst entry)
              (FeatureEngineering.featureStats (snd entry)))
         featureArrays stats) name
    = match JS.get featureArrays name with
      | Some values => Some (FeatureEngineering.featureStats values)
      | None => JS.get stats name
      end.
Proof.
  induction featureArrays as [|[key values] featureArrays IH];
    intros stats name Hnodup; cbn [fold_left]; [reflexivity|].
  cbn [JS.keys map fst] in Hnodup.
  inversion Hnodup as [|? ? Hfresh Hrest]; subst.
  rewrite (IH _ name Hrest). cbn [JS.get fst snd].
  destruct (String.eqb_spec key name) as [->|Hne].
  - rewrite (get_none_not_key featureArrays name Hfresh).
    apply get_set_same.
  - destruct (JS.get featureArrays name); [reflexivity|].
    apply get_set_other. exact Hne.
Qed.

(** X23: [computeFeatureStats] gives every feature of its input an
    entry: all zero for a feature without observations, and otherwise,
    none of the observations being NaN, a minimum and a maximum between
    which every observation lies. *)
Theorem computeFeatureStats_min_max_bound_the_values :
  forall (featureArrays : JS.Record (list float)) (name : string)
         (values : list float),
    NoDup (JS.keys featureArrays) ->
    JS.get featureArrays name = Some values ->
    exists s,
      JS.get (FeatureEngineering.computeFeatureStats featureArrays) name
      = Some s
      /\ (values = [] -> s = noStatistics)
      /\ (Forall (fun v => is_nan v = false) values ->
          forall v, In v values ->
                    within (FeatureEngineering.min s)
                      (FeatureEngineering.max s) v).
Proof.
  intros featureArrays name values Hnodup Hget.
  exists (FeatureEngineering.featureStats values).
  unfold FeatureEngineering.computeFeatureStats.
  rewrite (get_computeFeatureStats featureArrays [] name Hnodup), Hget.
  split; [reflexivity|]. split; [intros ->; reflexivity|].
  intros Hvalues v Hv. unfold FeatureEngineering.featureStats.
  destruct values as [|v0 values]; [contradiction|].
  cbn [List.length Nat.eqb]. cbv zeta.
  cbn [FeatureEngineering.min FeatureEngineering.max].
  unfold JS.Math_min_list, JS.Math_max_list, within.
  destruct (fold_Math_min_lower (v0 :: values) infinity eq_refl Hvalues)
    as (_ & _ & Hmin).
  destruct (fold_Math_max_upper (v0 :: values) neg_infinity eq_refl Hvalues)
    as (_ & _ & Hmax).
  split; [apply Hmin|apply Hmax]; exact Hv.
Qed.

Lemma computeFeatureStats_min_max_bound_the_values_witness :
  NoDup (JS.keys paceObservations)
  /\ JS.get paceObservations "pace" = Some [0.5; 0.25; 0.75]
  /\ exists s,
       JS.get (FeatureEngineering.computeFeatureStats paceObservations)
         "pace" = Some s
       /\ (Forall (fun v => is_nan v = false) [0.5; 0.25; 0.75] ->
           forall v, In v [0.5; 0.25; 0.75] ->
                     within (FeatureEngineering.min s)
                       (FeatureEngineering.max s) v).
Proof.
  assert (NoDup (JS.keys paceObservations)) as Hnodup
    by (repeat constructor; intros []).
  assert (JS.get paceObservations "pace" = Some [0.5; 0.25; 0.75]) as Hget
    by reflexivity.
  split; [exact Hnodup|]. split; [exact Hget|].
  destruct (computeFeatureStats_min_max_bound_the_values paceObservations
              "pace" [0.5; 0.25; 0.75] Hnodup Hget)
    as (s & H1 & _ & H3).
  exists s. split; [exact H1|exact H3].
Defined.

Lemma featureStats_single_value (c : float) (n : nat) :
  is_nan c = false ->
  FeatureEngineering.min (FeatureEngineering.featureStats (repeat c (S n))) = c
  /\ FeatureEngineering.max
       (FeatureEngineering.featureStats (repeat c (S n))) = c.
Proof.
  intros Hc. unfold FeatureEngineering.featureStats.
  cbn [repeat List.length Nat.eqb]. cbv zeta.
  cbn [FeatureEngineering.min FeatureEngineering.max].
  unfold JS.Math_min_list, JS.Math_max_list. cbn [fold_left].
  rewrite (Math_min_infinity c Hc), (Math_max_neg_infinity c Hc).
  split; induction n as [|n IH]; cbn [repeat fold_left];
    rewrite ?Math_min_same, ?Math_max_same by exact Hc;
    try reflexivity; exact IH.
Qed.

(** X24: normalizing with the statistics that [computeFeatureStats]
    computed: a feature that is absent from the observations, has no
    observation, or took one and the same value (not NaN) in every
    observation, is normalized to 0, whatever its value in the
    record. *)
Theorem normalizeFeatures_with_computed_stats :
  forall (features : JS.Record float)
         (featureArrays : JS.Record (list float)) (name : string)
         (value : float),
    NoDup (JS.keys featureArrays) ->
    In (name, value) features ->
    JS.get featureArrays name = None
    \/ JS.get featureArrays name = Some []
    \/ (exists c n,
          is_nan c = false
          /\ JS.get featureArrays name = Some (repeat c (S n))) ->
    JS.get
      (FeatureEngineering.normalizeFeatures features
         (FeatureEngineering.computeFeatureStats featureArrays)) name
    = Some 0.
Proof.
  intros features featureArrays name value Hnodup Hin Hflat.
  apply normalizeFeatures_fold_zero; [|left; exists value; exact Hin].
  unfold degenerate, FeatureEngineering.computeFeatureStats.
  rewrite (get_computeFeatureStats featureArrays [] name Hnodup).
  destruct Hflat as [->|[->|(c & n & Hc & ->)]]; [reflexivity|reflexivity|].
  destruct (featureStats_single_value c n Hc) as [-> ->].
  apply eqb_reflexive. exact Hc.
Qed.

Lemma normalizeFeatures_with_computed_stats_witness :
  NoDup (JS.keys steadyObservations)
  /\ In ("pace"%string, 0.9) paceRecord
  /\ JS.get
       (FeatureEngineering.normalizeFeatures paceRecord
          (FeatureEngineering.computeFeatureStats steadyObservations)) "pace"
     = Some 0.
Proof.
  assert (NoDup (JS.keys steadyObservations)) as Hnodup
    by (repeat constructor; intros []).
  assert (In ("pace"%string, 0.9) paceRecord) as Hin by (left; reflexivity).
  split; [exact Hnodup|]. split; [exact Hin|].
  apply (normalizeFeatures_with_computed_stats paceRecord steadyObservations
           "pace" 0.9 Hnodup Hin).
  right. right. exists 0.5, 2%nat. split; reflexivity.
Defined.

Lemma keys_normalize_loop (stats : JS.Record FeatureEngineering.FeatureStats)
  (features : JS.Record float) :
  forall normalized : JS.Record float,
    NoDup (JS.keys normalized ++ JS.keys features) ->
    JS.keys (fold_left (FeatureEngineering.normalizeEntry stats) features
               normalized)
    = JS.keys normalized ++ JS.keys features.
Proof.
  induction features as [|[key value] features IH]; intros normalized Hnodup;
    cbn [fold_left].
  - cbn. rewrite app_nil_r. reflexivity.
  - destruct (normalizeEntry_written stats normalized key value)
      as (w & -> & _).
    cbn [JS.keys map fst] in *. fold (JS.keys features) in *.
    fold (JS.keys normalized) in *.
    assert (existsb (String.eqb key) (JS.keys normalized) = false) as Hnew.
    { destruct (existsb _ _) eqn:E; [|reflexivity].
      apply existsb_exists in E. destruct E as (k & Hk & Ek).
      apply String.eqb_eq in Ek. subst k.
      apply NoDup_remove_2 in Hnodup. exfalso. apply Hnodup.
      apply in_or_app. left. exact Hk. }
    rewrite IH; rewrite keys_set, Hnew.
    + rewrite <- app_assoc. reflexivity.
    + rewrite <- app_assoc. exact Hnodup.
Qed.

(** X25: [normalizeFeatures] returns a record with the keys of the
    features it was given, in the same order, whatever the
    statistics. *)
Theorem normalizeFeatures_keeps_the_keys :
  forall (features : JS.Record float)
         (stats : JS.Record FeatureEngineering.FeatureStats),
    NoDup (JS.keys features) ->
    JS.keys (FeatureEngineering.normalizeFeatures features stats)
    = JS.keys features.
Proof.
  intros features stats Hnodup. unfold FeatureEngineering.normalizeFeatures.
  apply (keys_normalize_loop stats features []). exact Hnodup.
Qed.

Lemma normalizeFeatures_keeps_the_keys_witness :
  NoDup (JS.keys paceRecord)
  /\ JS.keys (FeatureEngineering.normalizeFeatures paceRecord [])
     = JS.keys paceRecord.
Proof.
  assert (NoDup (JS.keys paceRecord)) as H
    by (repeat constructor; intros []).
  split; [exact H|exact (normalizeFeatures_keeps_the_keys paceRecord [] H)].
Defined.

(** ** model-training.ts: the feature names of [trainModel] *)

(** X26: with 3 records or more (and fewer than 2^32), [trainModel]
    takes its feature names from one record only, the earliest one
    (the first of the chronological order): they are the keys of its
    features, sorted; features that only later records have are not
    part of the model. *)
Theorem trainModel_feature_names_from_earliest_record :
  forall (datasetId : string) (records : list ModelTraining.DatasetRecord),
    (3 <= List.length records)%nat ->
    (Z.of_nat (List.length records) < 2 ^ 32)%Z ->
    exists earliest,
      In earliest records
      /\ (forall r, In r records -> chronological earliest r)
      /\ ModelTraining.featureNames (ModelTraining.trainModel datasetId records)
         = ModelTraining.sortedKeys (ModelTraining.normalizedFeatures earliest)
      /\ Permutation
           (JS.keys (ModelTraining.normalizedFeatures earliest))
           (ModelTraining.featureNames
              (ModelTraining.trainModel datasetId records)).
Proof.
  intros datasetId records H3 H32.
  pose proof (splitData_default records H3 H32) as Hsplit. cbv zeta in Hsplit.
  pose proof (splitIndex_bounds (List.length records) H3) as Hk.
  set (sorted := JS.sort (fun a b => (0 <? ModelTraining.time_of a
                                          - ModelTraining.time_of b)%Z)
                   records) in *.
  assert (List.length sorted = List.length records) as Hlen
    by apply sort_length.
  assert (Permutation records sorted) as Hperm by apply sort_permutation.
  pose proof (sort_key ModelTraining.time_of records) as Hsorted.
  fold sorted in Hsorted.
  destruct sorted as [|earliest sorted'] eqn:Esorted;
    [simpl in Hlen; lia|].
  exists earliest.
  assert (In earliest records) as Hin.
  { apply (Permutation_in _ (Permutation_sym Hperm)). left. reflexivity. }
  split; [exact Hin|]. split.
  { intros r Hr. apply (Permutation_in _ Hperm) in Hr.
    inversion Hsorted as [|? ? _ Hall]; subst.
    destruct Hr as [<-|Hr]; [unfold chronological; lia|].
    rewrite Forall_forall in Hall. exact (Hall r Hr). }
  assert (ModelTraining.featureNames (ModelTraining.trainModel datasetId records)
          = ModelTraining.sortedKeys (ModelTraining.normalizedFeatures earliest))
    as Hnames.
  { unfold ModelTraining.trainModel.
    destruct (Nat.ltb_spec (List.length records) 3) as [|_]; [lia|].
    rewrite Hsplit. cbn [ModelTraining.train ModelTraining.test].
    destruct (splitIndex (List.length records)) as [|k] eqn:Ek; [lia|].
    cbn [firstn skipn].
    destruct (skipn k sorted') as [|held rest] eqn:Etest.
    { exfalso. assert (List.length (skipn k sorted') = 0%nat) as Hz
        by (rewrite Etest; reflexivity).
      rewrite length_skipn in Hz. simpl in Hlen. lia. }
    cbv zeta.
    match goal with
    | |- context [fold_left ?f ?l (0%float, 0%float, 0%float)] =>
        destruct (fold_left f l (0%float, 0%float, 0%float))
          as [[ssRes ssTot] maeSum]
    end.
    reflexivity. }
  split; [exact Hnames|]. rewrite Hnames. apply sort_permutation.
Qed.

Lemma trainModel_feature_names_from_earliest_record_witness :
  (3 <= List.length five_records)%nat
  /\ (Z.of_nat (List.length five_records) < 2 ^ 32)%Z
  /\ exists earliest,
       In earliest five_records
       /\ (forall r, In r five_records -> chronological earliest r)
       /\ ModelTraining.featureNames
            (ModelTraining.trainModel "videos" five_records)
          = ModelTraining.sortedKeys
              (ModelTraining.normalizedFeatures earliest)
       /\ Permutation
            (JS.keys (ModelTraining.normalizedFeatures earliest))
            (ModelTraining.featureNames
               (ModelTraining.trainModel "videos" five_records)).
Proof.
  assert (3 <= List.length five_records)%nat as H3 by (simpl; lia).
  assert (Z.of_nat (List.length five_records) < 2 ^ 32)%Z as H32
    by (vm_compute; reflexivity).
  split; [exact H3|]. split; [exact H32|].
  exact (trainModel_feature_names_from_earliest_record "videos" five_records
           H3 H32).
Defined.

(** ** prediction.ts: the shape of the signature *)

Lemma string_length_append (s t : string) :
  String.length (s ++ t) = (String.length s + String.length t)%nat.
Proof. induction s as [|c s IH]; simpl; [reflexivity|]. rewrite IH. reflexivity. Qed.

Lemma list_ascii_of_string_append (s t : string) :
  list_ascii_of_string (s ++ t)
  = (list_ascii_of_string s ++ list_ascii_of_string t)%list.
Proof. induction s as [|c s IH]; simpl; [reflexivity|]. rewrite IH. reflexivity. Qed.

Lemma round_length (state : list Z) (kw : Z * Z) :
  List.length (Sha256.round state kw) = List.length state.
Proof.
  unfold Sha256.round.
  destruct state as [|a [|b [|c [|d [|e [|f [|g [|h [|i state]]]]]]]]];
    reflexivity.
Qed.

Lemma compress_length (state block : list Z) :
  List.length (Sha256.compress state block) = List.length state.
Proof.
  unfold Sha256.compress. rewrite length_map, length_combine.
  assert (forall kws s, List.length (fold_left Sha256.round kws s)
                        = List.length s) as H.
  { induction kws as [|kw kws IH]; intros s; simpl; [reflexivity|].
    rewrite IH. apply round_length. }
  rewrite H. apply Nat.min_id.
Qed.

Lemma digest_length (message : list Z) :
  List.length (Sha256.digest message) = 8%nat.
Proof.
  unfold Sha256.digest.
  assert (forall bs s, List.length (fold_left Sha256.compress bs s)
                       = List.length s) as H.
  { induction bs as [|b bs IH]; intros s; simpl; [reflexivity|].
    rewrite IH. apply compress_length. }
  rewrite H. reflexivity.
Qed.

Lemma hex_digit_is_hex (x : Z) :
  isHexDigit (Sha256.hex_digit (Z.land x 15)) = true.
Proof.
  change 15%Z with (Z.ones 4). rewrite Z.land_ones by lia.
  pose proof (Z.mod_pos_bound x (2 ^ 4) ltac:(lia)) as Hd.
  set (d := (x mod 2 ^ 4)%Z) in *. change (2 ^ 4)%Z with 16%Z in Hd.
  assert (d = 0 \/ d = 1 \/ d = 2 \/ d = 3 \/ d = 4 \/ d = 5 \/ d = 6
          \/ d = 7 \/ d = 8 \/ d = 9 \/ d = 10 \/ d = 11 \/ d = 12
          \/ d = 13 \/ d = 14 \/ d = 15)%Z as Hcases by lia.
  repeat (destruct Hcases as [->|Hcases]; [reflexivity|]).
  rewrite Hcases. reflexivity.
Qed.

Lemma hex_word_shape (x : Z) :
  String.length (Sha256.hex_word x) = 8%nat
  /\ Forall (fun c => isHexDigit c = true)
       (list_ascii_of_string (Sha256.hex_word x)).
Proof.
  unfold Sha256.hex_word. cbn [fold_right String.length list_ascii_of_string].
  split; [reflexivity|].
  repeat (constructor; [apply hex_digit_is_hex|]). constructor.
Qed.

Lemma hex_shape (s : string) :
  String.length (Sha256.hex s) = 64%nat
  /\ Forall (fun c => isHexDigit c = true)
       (list_ascii_of_string (Sha256.hex s)).
Proof.
  unfold Sha256.hex. pose proof (digest_length (Sha256.bytes_of_string s)) as H.
  set (ws := Sha256.digest (Sha256.bytes_of_string s)) in *.
  assert (String.length
            (fold_right (fun x acc => (Sha256.hex_word x ++ acc)%string)
               EmptyString ws) = (8 * List.length ws)%nat
          /\ Forall (fun c => isHexDigit c = true)
               (list_ascii_of_string
                  (fold_right (fun x acc => (Sha256.hex_word x ++ acc)%string)
                     EmptyString ws))) as [H1 H2].
  { clear H. induction ws as [|w ws [IH1 IH2]]; cbn [fold_right List.length].
    - split; [reflexivity|constructor].
    - destruct (hex_word_shape w) as [Hw1 Hw2].
      rewrite string_length_append, list_ascii_of_string_append, Hw1, IH1.
      split; [lia|]. apply Forall_app. split; assumption. }
  rewrite H1, H. split; [reflexivity|exact H2].
Qed.

(** X27: whatever the arguments, the clock and the database, the
    [hashSignature] of the snapshot that [createPredictionSnapshot]
    stores is a text of 64 lowercase hexadecimal digits. *)
Theorem createPredictionSnapshot_signature_shape :
  forall (env : Prediction.Environment) (db : Prediction.Database)
         (datasetId modelId : string) (featureVector coefficients : list float)
         (predictedValue : float) (predictedTier : string)
         (confidence : float) (sourceId sourceType : option string)
         (db' : Prediction.Database) (snapshot : ModelSnapshot.t),
    Prediction.createPredictionSnapshot env db datasetId modelId
      featureVector coefficients predictedValue predictedTier confidence
      sourceId sourceType
    = JS.Ok (db', snapshot) ->
    String.length (ModelSnapshot.hashSignature snapshot) = 64%nat
    /\ Forall (fun c => isHexDigit c = true)
         (list_ascii_of_string (ModelSnapshot.hashSignature snapshot)).
Proof.
  intros env db datasetId modelId featureVector coefficients predictedValue
    predictedTier confidence sourceId sourceType db' snapshot.
  unfold Prediction.createPredictionSnapshot. cbv zeta.
  destruct (Prediction.real env predictedValue); [|discriminate].
  destruct (Prediction.real env confidence); [|discriminate].
  cbn [JS.bind]. intros H. injection H as _ <-.
  cbn [ModelSnapshot.hashSignature]. apply hex_shape.
Qed.

Lemma createPredictionSnapshot_signature_shape_witness :
  Prediction.createPredictionSnapshot
    (environment 1700000000000 "snapshot-1") emptyDatabase
    "videos" "model-1" [0.5] [0.6] 0.75 "" 0.875 None None
  = JS.Ok (untieredDatabase, storedSnapshot)
  /\ String.length (ModelSnapshot.hashSignature storedSnapshot) = 64%nat.
Proof.
  split; [exact untieredDatabase_created|].
  exact (proj1 (createPredictionSnapshot_signature_shape
                  (environment 1700000000000 "snapshot-1") emptyDatabase
                  "videos" "model-1" [0.5] [0.6] 0.75 "" 0.875 None None
                  untieredDatabase storedSnapshot untieredDatabase_created)).
Defined.
